(** * Exercise_Recommendation: the plan generation engine of [Exercise.py]
      and the batch loop of [app.py], embedded in Rocq.

    Python values are modelled as the code has them:
    - [int] is [Z] (unbounded);
    - [float] is IEEE 754 binary64, through the Standard Library's
      executable specification [spec_float] (precision 53, [emax] 1024),
      the one the primitive floats of Rocq are specified against;
    - [str] is [string], a [dict] is an association list in insertion order,
      a [list] of exercise names that the code may alias lives in a store;
    - an exception is a value of [exn], carried by [result];
    - the module-level random generator, [datetime.now] and the string
      renderings that belong to the Python runtime are operations of a
      runtime that the engine is parameterised by. *)

From Stdlib Require Import ZArith List String Ascii Bool Lia Permutation.
From Stdlib Require Import SpecFloat FloatOps PrimFloat.
From Stdlib Require Import DecimalString DecimalZ.
Import ListNotations.

#[local] Open Scope string_scope.
#[local] Open Scope list_scope.
#[local] Open Scope Z_scope.
#[local] Set Warnings "-inexact-float".

(* ------------------------------------------------------------------ *)
(** ** Exceptions and results *)

Inductive exn : Type :=
| KeyError (key : string)
| IndexError
| ValueError
| OverflowError
| ZeroDivisionError
| AttributeError.

Inductive result (A : Type) : Type :=
| Ok (a : A)
| Raise (e : exn).

Arguments Ok {A} a.
Arguments Raise {A} e.

Definition rbind {A B : Type} (r : result A) (k : A -> result B) : result B :=
  match r with
  | Ok a => k a
  | Raise e => Raise e
  end.

Notation "'let?' x ':=' r 'in' k" := (rbind r (fun x => k))
  (at level 10, x name, r at level 100, k at level 200).

Definition is_ok {A : Type} (r : result A) : Prop :=
  match r with Ok _ => True | Raise _ => False end.

(** [for x in xs: ys.append(f x)] when [f] may raise. *)
Fixpoint rmap {A B : Type} (f : A -> result B) (xs : list A) : result (list B) :=
  match xs with
  | [] => Ok []
  | x :: xs' =>
      let? y := f x in
      let? ys := rmap f xs' in
      Ok (y :: ys)
  end.

(** The exceptions of [app.py]: [TypeError], which its own operations
    raise, and those of the engine. *)
Inductive app_exn : Type :=
| TypeError
| Builtin (e : exn).

Inductive outcome (A : Type) : Type :=
| Done (a : A)
| Fail (e : app_exn).

Arguments Done {A} a.
Arguments Fail {A} e.

Definition obind {A B : Type} (r : outcome A) (k : A -> outcome B) : outcome B :=
  match r with
  | Done a => k a
  | Fail e => Fail e
  end.

Notation "'let!' x ':=' r 'in' k" := (obind r (fun x => k))
  (at level 10, x name, r at level 100, k at level 200).

Definition of_result {A : Type} (r : result A) : outcome A :=
  match r with
  | Ok a => Done a
  | Raise e => Fail (Builtin e)
  end.

(* ------------------------------------------------------------------ *)
(** ** Python floats (binary64) *)

Module PyFloat.

Definition float : Type := spec_float.

Definition add : float -> float -> float := SFadd prec emax.
Definition mul : float -> float -> float := SFmul prec emax.
Definition leb : float -> float -> bool := SFleb.

(** The nearest binary64 value of an integer, ties to even; infinite when
    the integer is too large. *)
Definition of_Z (n : Z) : float := binary_normalize prec emax n 0 false.

(** Implicit conversion of an [int] operand in mixed arithmetic:
    [OverflowError: int too large to convert to float]. *)
Definition float_of_int (n : Z) : result float :=
  match of_Z n with
  | S754_infinity _ => Raise OverflowError
  | f => Ok f
  end.

(** [int(x)]: truncation toward zero; [OverflowError] on an infinity,
    [ValueError] on a NaN. *)
Definition int_of_float (x : float) : result Z :=
  match x with
  | S754_zero _ => Ok 0
  | S754_finite s m e =>
      Ok (cond_Zopp s
            (match e with
             | Zneg k => Z.shiftr (Zpos m) (Zpos k)
             | _ => Z.shiftl (Zpos m) e
             end))
  | S754_infinity _ => Raise OverflowError
  | S754_nan => Raise ValueError
  end.

(** [a / b] on two [int]s: the correctly rounded quotient. *)
Definition int_truediv (a b : Z) : result float :=
  if b =? 0 then Raise ZeroDivisionError
  else if a =? 0 then Ok (S754_zero (b <? 0))
  else
    let '(q, e, l) := SFdiv_core_binary prec emax (Z.abs a) 0 (Z.abs b) 0 in
    match binary_round_aux prec emax (xorb (a <? 0) (b <? 0)) q e l with
    | S754_infinity _ => Raise OverflowError
    | f => Ok f
    end.

(** The float literals of the source, as mantissa and exponent. *)
Definition f0_05 : float := S754_finite false 7205759403792794 (-57).
Definition f0_1 : float := S754_finite false 7205759403792794 (-56).
Definition f0_15 : float := S754_finite false 5404319552844595 (-55).
Definition f0_2 : float := S754_finite false 7205759403792794 (-55).
Definition f0_25 : float := S754_finite false 4503599627370496 (-54).
Definition f0_3 : float := S754_finite false 5404319552844595 (-54).
Definition f0_5 : float := S754_finite false 4503599627370496 (-53).
Definition f0_6 : float := S754_finite false 5404319552844595 (-53).
Definition f0_7 : float := S754_finite false 6305039478318694 (-53).
Definition f0_8 : float := S754_finite false 7205759403792794 (-53).
Definition f0_9 : float := S754_finite false 8106479329266893 (-53).
Definition f1_0 : float := S754_finite false 4503599627370496 (-52).
Definition f1_1 : float := S754_finite false 4953959590107546 (-52).
Definition f1_4 : float := S754_finite false 6305039478318694 (-52).

End PyFloat.
Import PyFloat.

(* ------------------------------------------------------------------ *)
(** ** Strings *)

(** [str(n)] and the [{n}] of an f-string, for an [int]. *)
Definition str_of_int (n : Z) : string := NilZero.string_of_int (Z.to_int n).

(** [int(s)] on a string of decimal digits with an optional sign. *)
Definition int_of_str (s : string) : result Z :=
  match NilZero.int_of_string s with
  | Some d => Ok (Z.of_int d)
  | None => Raise ValueError
  end.

Definition is_space (c : ascii) : bool :=
  match c with
  | " "%char | "009"%char | "010"%char | "011"%char | "012"%char | "013"%char => true
  | _ => false
  end.

(** [s.split()]: the maximal runs of non-blank characters. [word] holds the
    run being read, last character first. *)
Fixpoint split_ws_aux (word : list ascii) (s : string) : list string :=
  let flush (rest : list string) :=
    match word with
    | [] => rest
    | _ => string_of_list_ascii (rev word) :: rest
    end in
  match s with
  | EmptyString => flush []
  | String c s' =>
      if is_space c then flush (split_ws_aux [] s')
      else split_ws_aux (c :: word) s'
  end.

Definition split_ws (s : string) : list string := split_ws_aux [] s.

(** [d[k]] and [d.get(k, default)] on a dict with string keys. *)
Fixpoint dict_find {V : Type} (d : list (string * V)) (k : string) : option V :=
  match d with
  | [] => None
  | (k', v) :: d' => if String.eqb k k' then Some v else dict_find d' k
  end.

Definition dict_getitem {V : Type} (d : list (string * V)) (k : string) : result V :=
  match dict_find d k with
  | Some v => Ok v
  | None => Raise (KeyError k)
  end.

Definition dict_get {V : Type} (d : list (string * V)) (k : string) (default : V) : V :=
  match dict_find d k with
  | Some v => v
  | None => default
  end.

Definition dict_keys {V : Type} (d : list (string * V)) : list string := map fst d.

(** [x in xs] for a list of strings. *)
Definition str_in (x : string) (xs : list string) : bool := existsb (String.eqb x) xs.

(* ------------------------------------------------------------------ *)
(** ** [datetime] *)

Module PyDatetime.

(** A naive [datetime]: the proleptic Gregorian ordinal of its date
    ([toordinal()], 1 for 0001-01-01) and the microseconds since
    midnight. *)
Record datetime : Type := mk_datetime { toordinal : Z; time_of_day : Z }.

Definition min_ordinal : Z := 1.
(** [datetime.max.toordinal()], 9999-12-31. *)
Definition max_ordinal : Z := 3652059.

Definition valid (d : datetime) : Prop :=
  min_ordinal <= toordinal d <= max_ordinal /\ 0 <= time_of_day d < 86400000000.

(** [datetime(2025, 1, 1)]. *)
Definition epoch_2025 : datetime := mk_datetime 739252 0.

(** [a <= b]. *)
Definition le (a b : datetime) : bool :=
  (toordinal a <? toordinal b)
  || ((toordinal a =? toordinal b) && (time_of_day a <=? time_of_day b)).

(** [a > b]. *)
Definition gt (a b : datetime) : bool := negb (le a b).

(** [(a - b).days] when [b] is at midnight: the timedelta is normalised
    with a non-negative time part, so its days are the difference of the
    ordinals. *)
Definition days_since_midnight_of (a b : datetime) : Z := toordinal a - toordinal b.

(** [d + timedelta(days=n)]: [OverflowError: date value out of range]
    outside years 1..9999. *)
Definition add_days (d : datetime) (n : Z) : result datetime :=
  let o := toordinal d + n in
  if (min_ordinal <=? o) && (o <=? max_ordinal)
  then Ok (mk_datetime o (time_of_day d))
  else Raise OverflowError.

(** [d.weekday()]: Monday is 0; 0001-01-01 is a Monday. *)
Definition weekday (d : datetime) : Z := (toordinal d + 6) mod 7.

End PyDatetime.
Import PyDatetime.

(* ------------------------------------------------------------------ *)
(** ** Data model of [Exercise.py] *)

Inductive FitnessLevel : Type := BEGINNER | INTERMEDIATE | ADVANCED.

Inductive HealthCondition : Type :=
| KNEE_PAIN | BACK_PAIN | HEART_CONDITION | SHOULDER_INJURY.

(** [FitnessLevel.X.value]. *)
Definition FitnessLevel_value (l : FitnessLevel) : string :=
  match l with
  | BEGINNER => "Beginner"
  | INTERMEDIATE => "Intermediate"
  | ADVANCED => "Advanced"
  end.

Definition HealthCondition_eqb (a b : HealthCondition) : bool :=
  match a, b with
  | KNEE_PAIN, KNEE_PAIN | BACK_PAIN, BACK_PAIN
  | HEART_CONDITION, HEART_CONDITION | SHOULDER_INJURY, SHOULDER_INJURY => true
  | _, _ => false
  end.

(** What the field [fitness_level] can hold at run time. The dataclass
    declares [FitnessLevel] and does not enforce it; the lookups of the
    engine have a default for the other values. [Foreign s] is any value
    that compares unequal to the three members and has no [value]
    attribute (a number, [None], another string); [s] is its [str()]. *)
Inductive level_value : Type :=
| Member (l : FitnessLevel)
| Foreign (shown : string).

(** [{BEGINNER: b, INTERMEDIATE: i, ADVANCED: a}.get(level, default)]. *)
Definition level_get {V : Type} (b i a : V) (default : V) (level : level_value) : V :=
  match level with
  | Member BEGINNER => b
  | Member INTERMEDIATE => i
  | Member ADVANCED => a
  | Foreign _ => default
  end.

Record UserProfile : Type := mk_UserProfile {
  age : Z;
  height : float;
  weight : float;
  gender : string;
  fitness_level : level_value;
  health_conditions : list HealthCondition;
  goal : string;
  preferred_days : Z
}.

(** A reference to a Python list of exercise names in the store. *)
Definition loc : Type := nat.

Record ExerciseDatabase : Type := mk_ExerciseDatabase {
  workout_types : list (string * loc);
  health_restrictions : list (HealthCondition * list string);
  equipment_mapping : list (string * list string)
}.

Record GoalData : Type := mk_GoalData {
  primary_type : string;
  workout_split : list (string * float);
  intensity_range : list (string * string)
}.

Record WorkoutPlanner : Type := mk_WorkoutPlanner {
  exercise_db : ExerciseDatabase;
  goal_workout_mapping : list (string * GoalData)
}.

Record Progression : Type := mk_Progression {
  volume_multiplier : float;
  intensity_multiplier : float;
  complexity_level : Z
}.

Inductive ExerciseEntry : Type :=
| StrengthEntry (name : string) (sets reps : Z) (rest : string)
| HIITEntry (name : string) (intervals : Z) (work_time rest_time : string)
| TimedEntry (name : string) (duration : string).

Definition entry_name (e : ExerciseEntry) : string :=
  match e with
  | StrengthEntry n _ _ _ | HIITEntry n _ _ _ | TimedEntry n _ => n
  end.

Record WorkoutEntry : Type := mk_WorkoutEntry {
  w_type : string;
  w_intensity : string;
  w_exercises : list ExerciseEntry;
  w_duration : string;
  w_required_equipment : list string
}.

Record WeeklyPlan : Type := mk_WeeklyPlan {
  progression_level : Progression;
  workouts : list WorkoutEntry
}.

Record WorkoutPlan : Type := mk_WorkoutPlan {
  p_user_profile : UserProfile;
  p_start_date : datetime;
  p_weeks : list (string * WeeklyPlan)
}.

Record DailyChallenge : Type := mk_DailyChallenge {
  c_name : string;
  c_date : string;
  c_day_of_week : string;
  c_type : string;
  c_difficulty : string;
  c_exercises : list ExerciseEntry;
  c_duration : string;
  c_required_equipment : list string
}.

(** [health_restrictions.get(condition, [])]. *)
Fixpoint restrictions_get (d : list (HealthCondition * list string))
    (c : HealthCondition) : list string :=
  match d with
  | [] => []
  | (c', xs) :: d' => if HealthCondition_eqb c c' then xs else restrictions_get d' c
  end.

(* ------------------------------------------------------------------ *)
(** ** The pure methods of [WorkoutPlanner] *)

(** [calculate_difficulty_modifier] (Exercise.py 150-162). *)
Definition calculate_difficulty_modifier (user : UserProfile) : float :=
  let base_modifier := level_get f0_8 f1_1 f1_4 f1_0 (fitness_level user) in
  match health_conditions user with
  | [] => base_modifier
  | _ :: _ => mul base_modifier f0_9
  end.

(** [calculate_progression] (Exercise.py 196-207). The entries of the dict
    literal are evaluated in order; [week - 1] is converted to a float
    for the two products and divided as an [int] for the third entry. *)
Definition calculate_progression (week : Z) (difficulty_modifier : float)
  : result Progression :=
  let? w := float_of_int (week - 1) in
  let volume := add (of_Z 1) (mul f0_1 w) in
  let? w' := float_of_int (week - 1) in
  let intensity := add (of_Z 1) (mul f0_05 w') in
  let? half := int_truediv (week - 1) 2 in
  let? steps := int_of_float half in
  let complexity := Z.min 3 (1 + steps) in
  Ok {| volume_multiplier := mul volume difficulty_modifier;
        intensity_multiplier := mul intensity difficulty_modifier;
        complexity_level := complexity |}.

(** The base table of [calculate_num_exercises]. *)
Definition base_exercises (level : level_value) : Z := level_get 4 5 6 3 level.

(** [calculate_num_exercises] (Exercise.py 266-274). *)
Definition calculate_num_exercises (level : level_value) (progression : Progression)
  : result Z :=
  int_of_float (mul (of_Z (base_exercises level)) (volume_multiplier progression)).

(** The minutes given to the exercise at [exercise_index] in the last
    branch of [format_exercise] (Exercise.py 296-301). [//] and [%] are
    floor division and its remainder, as [Z.div] and [Z.modulo] are. *)
Definition exercise_duration (exercise_index num_exercises total_duration_min : Z) : Z :=
  let d := total_duration_min / num_exercises in
  let remainder := total_duration_min mod num_exercises in
  if exercise_index <? remainder then d + 1 else d.

(** [format_exercise] (Exercise.py 276-306). *)
Definition format_exercise (exercise workout_type : string) (progression : Progression)
    (exercise_index num_exercises total_duration_min : Z) : result ExerciseEntry :=
  if String.eqb workout_type "Strength" then
    let? sets := int_of_float (mul (of_Z 3) (volume_multiplier progression)) in
    let? reps := int_of_float (mul (of_Z 10) (intensity_multiplier progression)) in
    Ok (StrengthEntry exercise sets reps "60-90 seconds")
  else if String.eqb workout_type "HIIT" then
    let? intervals := int_of_float (mul (of_Z 6) (volume_multiplier progression)) in
    Ok (HIITEntry exercise intervals "30 seconds" "30 seconds")
  else if num_exercises =? 0 then Raise ZeroDivisionError
  else
    Ok (TimedEntry exercise
          (str_of_int (exercise_duration exercise_index num_exercises total_duration_min)
           ++ " minutes")%string).

(** The base table of [calculate_duration]. *)
Definition base_duration (level : level_value) : Z := level_get 30 45 60 45 level.

(** [calculate_duration] (Exercise.py 308-319). *)
Definition calculate_duration (workout_type : string) (level : level_value)
  : result string :=
  if str_in workout_type ["HIIT"; "Cardio"] then
    let? n := int_of_float (mul (of_Z (base_duration level)) f0_8) in
    Ok (str_of_int n ++ " minutes")%string
  else Ok (str_of_int (base_duration level) ++ " minutes")%string.

(** [int(total_duration.split()[0])] (Exercise.py 243 and 375). *)
Definition duration_minutes (total_duration : string) : result Z :=
  match split_ws total_duration with
  | [] => Raise IndexError
  | w :: _ => int_of_str w
  end.

(** [enumerate(xs)]. *)
Fixpoint enumerate_from {A : Type} (i : Z) (xs : list A) : list (Z * A) :=
  match xs with
  | [] => []
  | x :: xs' => (i, x) :: enumerate_from (i + 1) xs'
  end.

Definition enumerate {A : Type} (xs : list A) : list (Z * A) := enumerate_from 0 xs.

(** The formatting loop shared by [generate_daily_workout] (Exercise.py
    245-256) and [generate_daily_challenge] (380-391): one call of
    [format_exercise] per selected exercise, with its index and the number
    of selected exercises. *)
Definition format_exercises (selected_exercises : list string) (workout_type : string)
    (progression : Progression) (total_duration_min : Z) : result (list ExerciseEntry) :=
  rmap (fun '(i, exercise) =>
          format_exercise exercise workout_type progression i
            (Z.of_nat (List.length selected_exercises)) total_duration_min)
       (enumerate selected_exercises).

(** The base table of the daily challenge (Exercise.py 362-366). *)
Definition challenge_exercise_count (level : level_value) : Z := level_get 2 3 4 2 level.

(* ------------------------------------------------------------------ *)
(** ** The Python runtime the engine runs on *)

(** The operations of the standard library that the engine calls and that
    are not part of this repository: the module-level generator of
    [random], the renderings of [strftime] and of an enum member in an
    f-string, and the order in which a [set] of strings is iterated (it
    depends on the string hashes of the process). *)
Record Runtime : Type := mk_Runtime {
  rng_state : Type;
  (** [random.seed(s)]: the new state is a function of the string alone. *)
  rng_seed : string -> rng_state;
  (** [random.random()]. *)
  rng_random : rng_state -> float * rng_state;
  (** [random.choices(population, weights=weights, k=1)[0]], on arguments
      it accepts. *)
  rng_choices : rng_state -> list string -> list float -> string * rng_state;
  (** [random.sample(population, k)] for [0 <= k <= len(population)]. *)
  rng_sample : rng_state -> list string -> nat -> list string * rng_state;
  strftime : string -> datetime -> string;
  format_enum : FitnessLevel -> string;
  (** [list(s)] for the set built by adding the given distinct strings in
      the given order. *)
  set_order : list string -> list string
}.

(** What the documentation of [random] promises of [sample] and [choices]. *)
Record RuntimeLaws (rt : Runtime) : Prop := mk_RuntimeLaws {
  sample_length : forall g population k,
    (k <= List.length population)%nat ->
    List.length (fst (rng_sample rt g population k)) = k;
  sample_without_replacement : forall g population k,
    (k <= List.length population)%nat ->
    exists rest, Permutation (fst (rng_sample rt g population k) ++ rest) population;
  choices_member : forall g population weights,
    population <> [] ->
    List.length weights = List.length population ->
    In (fst (rng_choices rt g population weights)) population
}.

Section Engine.

Context (rt : Runtime).

(** The state a call runs in: the store of exercise lists, the state of
    the generator and the wall clock. *)
Record World : Type := mk_World {
  heap : list (list string);
  rng : rng_state rt;
  clock : datetime
}.

Definition M (A : Type) : Type := World -> result A * World.

Definition ret {A : Type} (a : A) : M A := fun w => (Ok a, w).

Definition raise {A : Type} (e : exn) : M A := fun w => (Raise e, w).

Definition bind {A B : Type} (m : M A) (k : A -> M B) : M B :=
  fun w =>
    match m w with
    | (Ok a, w') => k a w'
    | (Raise e, w') => (Raise e, w')
    end.

Definition lift {A : Type} (r : result A) : M A := fun w => (r, w).

Notation "x <- m ;; k" := (bind m (fun x => k))
  (at level 61, m at next level, right associativity).
Notation "m ;;; k" := (bind m (fun _ => k))
  (at level 61, right associativity).

(** [for x in xs: ys.append(f(x))]. *)
Fixpoint mapM {A B : Type} (f : A -> M B) (xs : list A) : M (list B) :=
  match xs with
  | [] => ret []
  | x :: xs' =>
      y <- f x ;;
      ys <- mapM f xs' ;;
      ret (y :: ys)
  end.

(** [for x in xs: acc = f(acc, x)]. *)
Fixpoint foldM {A B : Type} (f : A -> B -> M A) (acc : A) (xs : list B) : M A :=
  match xs with
  | [] => ret acc
  | x :: xs' =>
      acc' <- f acc x ;;
      foldM f acc' xs'
  end.

(** *** The store *)

(** A new list object. *)
Definition list_new (xs : list string) : M loc :=
  fun w => (Ok (List.length (heap w)),
            {| heap := heap w ++ [xs]; rng := rng w; clock := clock w |}).

(** The elements of a list object. Every reference the engine holds was
    returned by [list_new]; the default is for the references of no
    object. *)
Definition list_read (l : loc) : M (list string) :=
  fun w => (Ok (nth l (heap w) []), w).

(** [xs.copy()]. *)
Definition list_copy (l : loc) : M loc :=
  xs <- list_read l ;;
  list_new xs.

(** [[e for e in xs if e not in restricted]]. *)
Definition list_without (l : loc) (restricted : list string) : M loc :=
  xs <- list_read l ;;
  list_new (filter (fun e => negb (str_in e restricted)) xs).

(** *** The generator and the clock *)

Definition datetime_now : M datetime := fun w => (Ok (clock w), w).

Definition random_seed (s : string) : M unit :=
  fun w => (Ok tt, {| heap := heap w; rng := rng_seed rt s; clock := clock w |}).

Definition random_random : M float :=
  fun w => let '(x, g) := rng_random rt (rng w) in
           (Ok x, {| heap := heap w; rng := g; clock := clock w |}).

(** The running total that [random.choices] derives from the weights. *)
Definition weights_total (weights : list float) : float :=
  add (fold_left add (tl weights) (hd (of_Z 0) weights)) (S754_zero false).

Definition is_finite (x : float) : bool :=
  match x with
  | S754_zero _ | S754_finite _ _ _ => true
  | _ => false
  end.

(** [random.choices(population, weights=weights, k=1)[0]] with the argument
    checks of the library. *)
Definition random_choices (population : list string) (weights : list float) : M string :=
  if negb (Nat.eqb (List.length weights) (List.length population)) then raise ValueError
  else match population with
       | [] => raise IndexError
       | _ :: _ =>
           if leb (weights_total weights) (S754_zero false) then raise ValueError
           else if negb (is_finite (weights_total weights)) then raise ValueError
           else fun w =>
                  let '(x, g) := rng_choices rt (rng w) population weights in
                  (Ok x, {| heap := heap w; rng := g; clock := clock w |})
       end.

(** [random.sample(population, k)]: [ValueError] for a negative [k] or one
    above the length of the population. *)
Definition random_sample (population : loc) (k : Z) : M (list string) :=
  xs <- list_read population ;;
  if (k <? 0) || (Z.of_nat (List.length xs) <? k) then raise ValueError
  else fun w =>
         let '(ys, g) := rng_sample rt (rng w) xs (Z.to_nat k) in
         (Ok ys, {| heap := heap w; rng := g; clock := clock w |}).

(** *** Constructors (Exercise.py 33-148) *)

Definition ExerciseDatabase_init : M ExerciseDatabase :=
  cardio <- list_new
    ["Treadmill"; "Cycling"; "Swimming"; "Rowing"; "Elliptical";
     "Jump Rope"; "Running"; "Stair Climbing"; "Boxing"; "Kickboxing";
     "Dancing"; "Mountain Climbers"; "Burpees"; "High Knees"] ;;
  strength <- list_new
    ["Squats"; "Deadlifts"; "Bench Press"; "Shoulder Press";
     "Pull-ups"; "Push-ups"; "Lunges"; "Dumbbell Rows";
     "Leg Press"; "Tricep Dips"; "Bicep Curls"; "Plank Holds";
     "Romanian Deadlifts"; "Hip Thrusts"; "Face Pulls"] ;;
  flexibility <- list_new
    ["Yoga"; "Pilates"; "Dynamic Stretching"; "Static Stretching";
     "Foam Rolling"; "Mobility Work"; "Cat-Cow Stretch";
     "Downward Dog"; "Child's Pose"; "Hamstring Stretch";
     "Hip Flexor Stretch"; "Shoulder Rolls"; "Spine Twists"] ;;
  hiit <- list_new
    ["Burpee Intervals"; "Sprint Intervals"; "Jump Rope Intervals";
     "Mountain Climber Intervals"; "Squat Jumps"; "Box Jumps";
     "Battle Ropes"; "Kettlebell Swings"; "Medicine Ball Slams"] ;;
  ret {| workout_types :=
           [("Cardio", cardio); ("Strength", strength);
            ("Flexibility", flexibility); ("HIIT", hiit)];
         health_restrictions :=
           [(KNEE_PAIN,
             ["Squats"; "Lunges"; "Box Jumps"; "Jump Rope";
              "Stair Climbing"; "Burpees"; "Mountain Climbers"]);
            (BACK_PAIN,
             ["Deadlifts"; "Romanian Deadlifts"; "Shoulder Press";
              "Bench Press"; "Good Mornings"]);
            (HEART_CONDITION,
             ["HIIT"; "Sprint Intervals"; "Burpee Intervals";
              "Box Jumps"; "Battle Ropes"]);
            (SHOULDER_INJURY,
             ["Pull-ups"; "Shoulder Press"; "Bench Press";
              "Face Pulls"; "Push-ups"])];
         equipment_mapping :=
           [("Treadmill", ["Treadmill"]);
            ("Cycling", ["Stationary Bike"]);
            ("Yoga", ["Yoga Mat"]);
            ("Kettlebell Swings", ["Kettlebell"]);
            ("Box Jumps", ["Plyo Box"]);
            ("Deadlifts", ["Barbell"; "Weight Plates"]);
            ("Squats", ["Barbell"; "Weight Plates"]);
            ("Swimming", ["Pool Access"]);
            ("Rowing", ["Rowing Machine"])] |}.

Definition goal_table : list (string * GoalData) :=
  [("Weight Loss",
    {| primary_type := "Cardio";
       workout_split := [("Cardio", f0_5); ("Strength", f0_3); ("HIIT", f0_2)];
       intensity_range :=
         [("Cardio", "65-75% max heart rate");
          ("Strength", "12-15 reps");
          ("HIIT", "30 seconds work/30 seconds rest")] |});
   ("Muscle Gain",
    {| primary_type := "Strength";
       workout_split := [("Strength", f0_7); ("Cardio", f0_15); ("Flexibility", f0_15)];
       intensity_range :=
         [("Strength", "8-12 reps");
          ("Cardio", "20-30 minutes low intensity");
          ("Flexibility", "15-20 minutes")] |});
   ("Endurance",
    {| primary_type := "Cardio";
       workout_split := [("Cardio", f0_6); ("Strength", f0_25); ("Flexibility", f0_15)];
       intensity_range :=
         [("Cardio", "60-70% max heart rate");
          ("Strength", "15-20 reps");
          ("Flexibility", "20-30 minutes")] |});
   ("Flexibility",
    {| primary_type := "Flexibility";
       workout_split := [("Flexibility", f0_6); ("Strength", f0_25); ("Cardio", f0_15)];
       intensity_range :=
         [("Flexibility", "30-45 minutes");
          ("Strength", "12-15 reps");
          ("Cardio", "20-30 minutes low intensity")] |})].

Definition WorkoutPlanner_init : M WorkoutPlanner :=
  db <- ExerciseDatabase_init ;;
  ret {| exercise_db := db; goal_workout_mapping := goal_table |}.

(** *** The stateful methods of [WorkoutPlanner] *)

Variable self : WorkoutPlanner.

(** The loop of [select_workout_type]: [None] when it ends without
    returning. *)
Fixpoint select_loop (rand cumulative : float) (items : list (string * float))
  : option string :=
  match items with
  | [] => None
  | (workout_type, probability) :: items' =>
      let cumulative := add cumulative probability in
      if leb rand cumulative then Some workout_type
      else select_loop rand cumulative items'
  end.

(** The part of [select_workout_type] after the draw (Exercise.py
    212-217). [cumulative] starts as the [int] 0. *)
Definition select_for (rand : float) (workout_split : list (string * float))
  : result string :=
  match select_loop rand (of_Z 0) workout_split with
  | Some workout_type => Ok workout_type
  | None =>
      match dict_keys workout_split with
      | [] => Raise IndexError
      | k :: _ => Ok k
      end
  end.

(** [select_workout_type] (Exercise.py 209-217). *)
Definition select_workout_type (workout_split : list (string * float)) : M string :=
  rand <- random_random ;;
  lift (select_for rand workout_split).

(** The copy of the category's list and the health filters (Exercise.py
    222-227 and 352-355). *)
Definition filtered_pool (workout_type : string) (user : UserProfile) : M loc :=
  l <- lift (dict_getitem (workout_types (exercise_db self)) workout_type) ;;
  exercises_pool <- list_copy l ;;
  foldM (fun exercises_pool condition =>
           list_without exercises_pool
             (restrictions_get (health_restrictions (exercise_db self)) condition))
        exercises_pool (health_conditions user).

(** [exercises_pool] of [generate_daily_workout] after its fallback
    (Exercise.py 222-232). *)
Definition daily_workout_pool (workout_type : string) (user : UserProfile) : M loc :=
  exercises_pool <- filtered_pool workout_type user ;;
  xs <- list_read exercises_pool ;;
  match xs with
  | [] => list_new [if String.eqb workout_type "Cardio"
                    then "Low-Impact Walking"
                    else "Bodyweight Isometric Holds"]
  | _ :: _ => ret exercises_pool
  end.

(** [exercises_pool] of [generate_daily_challenge] after its fallback
    (Exercise.py 352-359). *)
Definition daily_challenge_pool (workout_type : string) (user : UserProfile) : M loc :=
  exercises_pool <- filtered_pool workout_type user ;;
  xs <- list_read exercises_pool ;;
  match xs with
  | [] => list_new ["Low-Impact Alternative"]
  | _ :: _ => ret exercises_pool
  end.

(** [equipment.add(x)] on a set kept as the list of its elements in the
    order they were first added. *)
Definition set_add (equipment : list string) (x : string) : list string :=
  if str_in x equipment then equipment else equipment ++ [x].

(** [get_required_equipment] (Exercise.py 321-327). *)
Definition get_required_equipment (exercises : list string) : list string :=
  set_order rt
    (fold_left
       (fun equipment exercise =>
          match dict_find (equipment_mapping (exercise_db self)) exercise with
          | Some items => fold_left set_add items equipment
          | None => equipment
          end)
       exercises []).

(** The selection of [generate_daily_workout] (Exercise.py 222-239): the
    pool, the requested number and the sample. *)
Definition daily_workout_selection (workout_type : string) (user : UserProfile)
    (progression : Progression) : M (list string) :=
  exercises_pool <- daily_workout_pool workout_type user ;;
  num_exercises <- lift (calculate_num_exercises (fitness_level user) progression) ;;
  xs <- list_read exercises_pool ;;
  random_sample exercises_pool (Z.min num_exercises (Z.of_nat (List.length xs))).

(** [generate_daily_workout] (Exercise.py 219-264). *)
Definition generate_daily_workout (workout_type intensity : string) (user : UserProfile)
    (progression : Progression) : M WorkoutEntry :=
  selected_exercises <- daily_workout_selection workout_type user progression ;;
  total_duration <- lift (calculate_duration workout_type (fitness_level user)) ;;
  total_duration_min <- lift (duration_minutes total_duration) ;;
  formatted_exercises <-
    lift (format_exercises selected_exercises workout_type progression total_duration_min) ;;
  ret {| w_type := workout_type;
         w_intensity := intensity;
         w_exercises := formatted_exercises;
         w_duration := total_duration;
         w_required_equipment := get_required_equipment selected_exercises |}.

(** [range(a, b)]. *)
Definition py_range (a b : Z) : list Z :=
  map (fun i => a + Z.of_nat i) (seq 0 (Z.to_nat (b - a))).

(** [generate_workout_plan] (Exercise.py 164-194). *)
Definition generate_workout_plan (user : UserProfile) (weeks : Z) : M WorkoutPlan :=
  let difficulty_modifier := calculate_difficulty_modifier user in
  goal_data <- lift (dict_getitem (goal_workout_mapping self) (goal user)) ;;
  start_date <- datetime_now ;;
  plan_weeks <-
    mapM (fun week =>
            week_progression <- lift (calculate_progression week difficulty_modifier) ;;
            weekly_plan <-
              mapM (fun _ =>
                      workout_type <- select_workout_type (workout_split goal_data) ;;
                      intensity <-
                        lift (dict_getitem (intensity_range goal_data) workout_type) ;;
                      generate_daily_workout workout_type intensity user week_progression)
                   (py_range 0 (preferred_days user)) ;;
            ret (("Week " ++ str_of_int week)%string,
                 {| progression_level := week_progression; workouts := weekly_plan |}))
         (py_range 1 (weeks + 1)) ;;
  ret {| p_user_profile := user; p_start_date := start_date; p_weeks := plan_weeks |}.

(** [f"{user.fitness_level}"]. *)
Definition format_level (level : level_value) : string :=
  match level with
  | Member l => format_enum rt l
  | Foreign s => s
  end.

(** [user.fitness_level.value]. *)
Definition level_dot_value (level : level_value) : result string :=
  match level with
  | Member l => Ok (FitnessLevel_value l)
  | Foreign _ => Raise AttributeError
  end.

(** The two seeds of [generate_daily_challenge] (Exercise.py 335, 348). *)
Definition challenge_seed (user : UserProfile) (date : datetime) : string :=
  (str_of_int (age user) ++ format_level (fitness_level user)
   ++ strftime rt "%Y%m%d" date)%string.

Definition challenge_seed_weekday (user : UserProfile) (date : datetime) : string :=
  (challenge_seed user date ++ str_of_int (weekday date))%string.

(** The selection of [generate_daily_challenge] (Exercise.py 352-371): the
    pool, the number from the table of the challenge and the sample. *)
Definition daily_challenge_selection (workout_type : string) (user : UserProfile)
  : M (list string) :=
  exercises_pool <- daily_challenge_pool workout_type user ;;
  let exercise_count := challenge_exercise_count (fitness_level user) in
  xs <- list_read exercises_pool ;;
  random_sample exercises_pool (Z.min exercise_count (Z.of_nat (List.length xs))).

(** [generate_daily_challenge] (Exercise.py 329-408). The default of
    [goal_workout_mapping.get] is an argument and is looked up first. A
    [datetime] is always true, so [specific_date or datetime.now()] is the
    date that was given. *)
Definition generate_daily_challenge (user : UserProfile) (specific_date : option datetime)
  : M DailyChallenge :=
  date <- match specific_date with
          | Some d => ret d
          | None => datetime_now
          end ;;
  random_seed (challenge_seed user date) ;;;
  let day := days_since_midnight_of date epoch_2025 + 1 in
  let week := (day - 1) / 7 + 1 in
  let difficulty := calculate_difficulty_modifier user in
  weight_loss <- lift (dict_getitem (goal_workout_mapping self) "Weight Loss") ;;
  let goal_data := dict_get (goal_workout_mapping self) (goal user) weight_loss in
  let available_types := dict_keys (workout_split goal_data) in
  let weights := map snd (workout_split goal_data) in
  random_seed (challenge_seed_weekday user date) ;;;
  workout_type <- random_choices available_types weights ;;
  selected_exercises <- daily_challenge_selection workout_type user ;;
  total_duration <- lift (calculate_duration workout_type (fitness_level user)) ;;
  total_duration_min <- lift (duration_minutes total_duration) ;;
  progression <- lift (calculate_progression week difficulty) ;;
  formatted_exercises <-
    lift (format_exercises selected_exercises workout_type progression total_duration_min) ;;
  let day_name := strftime rt "%A" date in
  difficulty_label <- lift (level_dot_value (fitness_level user)) ;;
  ret {| c_name := (day_name ++ " " ++ workout_type ++ " Challenge")%string;
         c_date := strftime rt "%Y-%m-%d" date;
         c_day_of_week := day_name;
         c_type := workout_type;
         c_difficulty := difficulty_label;
         c_exercises := formatted_exercises;
         c_duration := total_duration;
         c_required_equipment := get_required_equipment selected_exercises |}.

(** *** The batch loop of [app.py] *)

(** A [tzinfo] object: which object it is, and the offset from UTC, in
    microseconds, that it reports for the fields of a datetime. *)
Record tzinfo : Type := mk_tzinfo { tz_object : Z; utcoffset : datetime -> Z }.

(** What [parse_date] (app.py 147-152) hands to the handler.
    [dateutil.parser.parse] returns a naive [datetime] for a text without
    a zone and an offset-aware one, its [tzinfo] set, for a text with [Z],
    an offset or a zone name. *)
Inductive parsed_date : Type :=
| Naive (d : datetime)
| Aware (d : datetime) (tz : tzinfo).

(** The instant of an aware datetime, in microseconds: its fields less
    its offset. *)
Definition utc_instant (d : datetime) (tz : tzinfo) : Z :=
  toordinal d * 86400000000 + time_of_day d - utcoffset tz d.

(** [a <= b]. Two naive datetimes are ordered by their fields, and so
    are two aware ones that share their [tzinfo] object; two aware ones
    with different objects are ordered by their instants; a naive and an
    aware one are not ordered: [TypeError]. *)
Definition parsed_le (a b : parsed_date) : outcome bool :=
  match a, b with
  | Naive x, Naive y => Done (PyDatetime.le x y)
  | Aware x tx, Aware y ty =>
      if tz_object tx =? tz_object ty then Done (PyDatetime.le x y)
      else Done (utc_instant x tx <=? utc_instant y ty)
  | _, _ => Fail TypeError
  end.

(** [a > b]. *)
Definition parsed_gt (a b : parsed_date) : outcome bool :=
  match a, b with
  | Naive x, Naive y => Done (gt x y)
  | Aware x tx, Aware y ty =>
      if tz_object tx =? tz_object ty then Done (gt x y)
      else Done (utc_instant y ty <? utc_instant x tx)
  | _, _ => Fail TypeError
  end.

(** [d + timedelta(days=n)]: the fields move, the [tzinfo] stays. *)
Definition parsed_add_days (d : parsed_date) (n : Z) : result parsed_date :=
  match d with
  | Naive x => let? y := add_days x n in Ok (Naive y)
  | Aware x tz => let? y := add_days x n in Ok (Aware y tz)
  end.

(** [planner.generate_daily_challenge(user, current_date)] on a parsed
    date. An aware date is truthy and is the date of the challenge: the
    generator is seeded from its fields (Exercise.py 335), and then the
    naive [datetime(2025, 1, 1)] is subtracted from it (Exercise.py 338),
    which raises [TypeError]. *)
Definition generate_daily_challenge_parsed (user : UserProfile) (date : parsed_date)
  : World -> outcome DailyChallenge * World :=
  fun w =>
    match date with
    | Naive d =>
        let '(r, w') := generate_daily_challenge user (Some d) w in (of_result r, w')
    | Aware d _ =>
        (Fail TypeError, snd (random_seed (challenge_seed user d) w))
    end.

Inductive BatchResponse : Type :=
| BatchError (message : string)
| BatchFailure (e : app_exn)
| BatchOk (daily_challenges : list DailyChallenge) (count : Z).

Definition days_limit : nat := 31.

(** The [while] loop of [get_daily_challenges_batch] (app.py 343-349).
    The dates are compared first; [remaining] is [days_limit - day_count],
    and the loop stops when it is 0. *)
Fixpoint batch_loop (user : UserProfile) (remaining : nat)
    (current_date end_date : parsed_date) (challenges : list DailyChallenge) (w : World)
    {struct remaining} : outcome (list DailyChallenge) * World :=
  match parsed_le current_date end_date with
  | Fail e => (Fail e, w)
  | Done false => (Done challenges, w)
  | Done true =>
      match remaining with
      | O => (Done challenges, w)
      | S remaining' =>
          match generate_daily_challenge_parsed user current_date w with
          | (Fail e, w') => (Fail e, w')
          | (Done challenge, w') =>
              match parsed_add_days current_date 1 with
              | Raise e => (Fail (Builtin e), w')
              | Ok next =>
                  batch_loop user remaining' next end_date (challenges ++ [challenge]) w'
              end
          end
      end
  end.

(** [get_daily_challenges_batch] from the range check on (app.py
    322-357), for the parsed dates and the profile built from the request.
    An exception of the body, the one of the range check included, is
    caught and turned into an error response. *)
Definition get_daily_challenges_batch (user : UserProfile)
    (start_date end_date : parsed_date) : World -> BatchResponse * World :=
  fun w =>
    match parsed_gt start_date end_date with
    | Fail e => (BatchFailure e, w)
    | Done true => (BatchError "Start date must be before or equal to end date", w)
    | Done false =>
        match batch_loop user days_limit start_date end_date [] w with
        | (Done challenges, w') =>
            (BatchOk challenges (Z.of_nat (List.length challenges)), w')
        | (Fail e, w') => (BatchFailure e, w')
        end
    end.

End Engine.

Arguments mk_World {rt} heap rng clock.
Arguments heap {rt} w.
Arguments rng {rt} w.
Arguments clock {rt} w.

(* ------------------------------------------------------------------ *)
(** ** A small runtime to run the engine on *)

Module Sample.

(** Year, month and day of an ordinal (Gregorian calendar, eras of 400
    years counted from a first of March). *)
Definition civil (ordinal : Z) : Z * Z * Z :=
  let z := ordinal + 305 in
  let era := z / 146097 in
  let doe := z - era * 146097 in
  let yoe := (doe - doe / 1460 + doe / 36524 - doe / 146096) / 365 in
  let doy := doe - (365 * yoe + yoe / 4 - yoe / 100) in
  let mp := (5 * doy + 2) / 153 in
  let d := doy - (153 * mp + 2) / 5 + 1 in
  let m := if mp <? 10 then mp + 3 else mp - 9 in
  let y := yoe + era * 400 + (if m <=? 2 then 1 else 0) in
  (y, m, d).

Definition pad (width : nat) (n : Z) : string :=
  let s := str_of_int n in
  (string_of_list_ascii (repeat "0"%char (width - String.length s)) ++ s)%string.

Definition day_names : list string :=
  ["Monday"; "Tuesday"; "Wednesday"; "Thursday"; "Friday"; "Saturday"; "Sunday"].

Definition render (fmt : string) (d : datetime) : string :=
  let '(y, m, dd) := civil (toordinal d) in
  if String.eqb fmt "%Y%m%d" then (pad 4 y ++ pad 2 m ++ pad 2 dd)%string
  else if String.eqb fmt "%Y-%m-%d" then (pad 4 y ++ "-" ++ pad 2 m ++ "-" ++ pad 2 dd)%string
  else if String.eqb fmt "%A" then nth (Z.to_nat (weekday d)) day_names ""
  else "".

(** A generator whose state is a counter. *)
Definition rotate (g : Z) (xs : list string) : list string :=
  let r := Z.to_nat (g mod Z.of_nat (List.length xs)) in
  skipn r xs ++ firstn r xs.

Definition runtime : Runtime :=
  {| rng_state := Z;
     rng_seed := fun s => Z.of_nat (String.length s);
     rng_random := fun g => (mul (of_Z (g mod 4)) f0_25, g + 1);
     rng_choices := fun g population _ => (hd "" (rotate g population), g + 1);
     rng_sample := fun g population k => (firstn k (rotate g population), g + 1);
     strftime := render;
     format_enum := FitnessLevel_value;
     set_order := fun xs => xs |}.

(** The world after [planner = WorkoutPlanner()] at start-up. *)
Definition boot : World runtime :=
  @mk_World runtime [] 0 (mk_datetime 739252 0).

Definition planner : WorkoutPlanner :=
  match fst (WorkoutPlanner_init runtime boot) with
  | Ok p => p
  | Raise _ => mk_WorkoutPlanner (mk_ExerciseDatabase [] [] []) []
  end.

Definition world : World runtime := snd (WorkoutPlanner_init runtime boot).

Definition user (level : level_value) (conditions : list HealthCondition) (g : string)
  : UserProfile :=
  {| age := 45; height := of_Z 170; weight := of_Z 85; gender := "Female";
     fitness_level := level; health_conditions := conditions;
     goal := g; preferred_days := 5 |}.

End Sample.


(* ------------------------------------------------------------------ *)
(** ** Binary64 rounding: what the engine relies on *)

Section Binary64.

Abbreviation fexp64 := (fexp prec emax).
Abbreviation emin64 := (emin prec emax).

Lemma fexp64_eq (x : Z) : fexp64 x = Z.max (x - 53) (-1074).
Proof. reflexivity. Qed.

Lemma digits2_pos_size (p : positive) : digits2_pos p = Pos.size p.
Proof. induction p; simpl; congruence. Qed.

Lemma Zdigits2_log2 (m : Z) : 0 < m -> Zdigits2 m = Z.log2 m + 1.
Proof.
  destruct m as [|p|p]; try lia. intros _. simpl.
  rewrite digits2_pos_size. destruct p; simpl; lia.
Qed.

Lemma Zdigits2_pos (m : Z) : 0 < m -> 0 < Zdigits2 m.
Proof. intros H. rewrite Zdigits2_log2 by assumption. pose proof (Z.log2_nonneg m). lia. Qed.

Lemma shr_m_shr_1 (r : shr_record) : 0 <= shr_m r -> shr_m (shr_1 r) = Z.div2 (shr_m r).
Proof.
  destruct r as [m a b]. simpl. intros H.
  destruct m as [|p|p]; try lia; try reflexivity; destruct p; reflexivity.
Qed.

Lemma iter_pos_nat {A : Type} (f : A -> A) (p : positive) (x : A) :
  iter_pos f p x = Nat.iter (Pos.to_nat p) f x.
Proof.
  revert x. induction p as [p IH|p IH|]; intros x; cbn [iter_pos].
  - rewrite !IH, Pos2Nat.inj_xI, Nat.iter_succ_r.
    replace (2 * Pos.to_nat p)%nat with (Pos.to_nat p + Pos.to_nat p)%nat by lia.
    now rewrite Nat.iter_add.
  - rewrite !IH, Pos2Nat.inj_xO.
    replace (2 * Pos.to_nat p)%nat with (Pos.to_nat p + Pos.to_nat p)%nat by lia.
    now rewrite Nat.iter_add.
  - reflexivity.
Qed.

Lemma shr_m_iter_nat (n : nat) (r : shr_record) :
  0 <= shr_m r -> shr_m (Nat.iter n shr_1 r) = Z.shiftr (shr_m r) (Z.of_nat n).
Proof.
  intros H. induction n as [|n IH].
  - simpl. now rewrite Z.shiftr_0_r.
  - rewrite Nat2Z.inj_succ. simpl Nat.iter.
    rewrite shr_m_shr_1.
    + rewrite IH. rewrite Z.div2_spec. rewrite Z.shiftr_shiftr by lia.
      replace (Z.succ (Z.of_nat n)) with (Z.of_nat n + 1) by lia. reflexivity.
    + rewrite IH. apply Z.shiftr_nonneg. assumption.
Qed.

Lemma shr_m_shr (r : shr_record) (e k : Z) :
  0 <= shr_m r -> 
  shr_m (fst (shr r e k)) = Z.shiftr (shr_m r) (Z.max 0 k) /\ snd (shr r e k) = e + Z.max 0 k.
Proof.
  intros H. destruct k as [|p|p]; simpl.
  - rewrite Z.shiftr_0_r. split; [reflexivity | lia].
  - rewrite iter_pos_nat, shr_m_iter_nat by assumption.
    rewrite positive_nat_Z. split; reflexivity.
  - rewrite Z.shiftr_0_r. split; [reflexivity | lia].
Qed.

Lemma shr_m_of_loc (m : Z) (l : location) : shr_m (shr_record_of_loc m l) = m.
Proof. destruct l as [|[]]; reflexivity. Qed.

Lemma log2_shiftr_pos (m k : Z) :
  0 < m -> 0 <= k -> k <= Z.log2 m ->
  0 < Z.shiftr m k /\ Z.log2 (Z.shiftr m k) = Z.log2 m - k.
Proof.
  intros Hm Hk Hle. split.
  - rewrite Z.shiftr_div_pow2 by assumption.
    apply Z.div_str_pos. split; [apply Z.pow_pos_nonneg; lia|].
    transitivity (2 ^ Z.log2 m).
    + apply Z.pow_le_mono_r; lia.
    + apply Z.log2_spec. assumption.
  - rewrite Z.log2_shiftr by assumption. lia.
Qed.

(** The shape of [shr_fexp] on a positive mantissa whose exponent is not
    below [emin]: the exponent is raised to the canonical one when it was
    smaller, and the number of digits plus the exponent is unchanged. *)
Lemma shr_fexp_shape (m e : Z) (l : location) :
  0 < m -> -1074 <= e ->
  exists r e',
    shr_fexp prec emax m e l = (r, e')
    /\ 0 < shr_m r
    /\ e' = Z.max e (fexp64 (Zdigits2 m + e))
    /\ Zdigits2 (shr_m r) + e' = Zdigits2 m + e.
Proof.
  intros Hm He. unfold shr_fexp.
  set (k := fexp64 (Zdigits2 m + e) - e).
  pose proof (shr_m_shr (shr_record_of_loc m l) e k) as Hs.
  rewrite shr_m_of_loc in Hs. specialize (Hs ltac:(lia)).
  destruct (shr (shr_record_of_loc m l) e k) as [r e'] eqn:E. simpl in Hs.
  destruct Hs as [Hr He']. exists r, e'. split; [reflexivity|].
  pose proof (Zdigits2_log2 m Hm) as Hd.
  pose proof (Z.log2_nonneg m) as Hl.
  assert (Hk : Z.max 0 k <= Z.log2 m).
  { subst k. rewrite fexp64_eq. lia. }
  destruct (log2_shiftr_pos m (Z.max 0 k) Hm ltac:(lia) Hk) as [Hpos Hlog].
  rewrite Hr. split; [assumption|]. split.
  - subst k e'. rewrite fexp64_eq. lia.
  - rewrite Zdigits2_log2 by assumption. lia.
Qed.

Lemma round_nearest_even_bounds (m : Z) (l : location) :
  0 < m -> m <= round_nearest_even m l <= m + 1.
Proof.
  intros Hm. destruct l as [|[]]; simpl; try lia.
  destruct (Z.even m); lia.
Qed.

Lemma Zdigits2_succ_bounds (m m' : Z) :
  0 < m -> m <= m' <= m + 1 -> Zdigits2 m <= Zdigits2 m' <= Zdigits2 m + 1.
Proof.
  intros Hm Hb. rewrite !Zdigits2_log2 by lia.
  pose proof (Z.log2_le_mono m m' ltac:(lia)).
  pose proof (Z.log2_le_mono m' (Z.succ m) ltac:(lia)).
  pose proof (Z.log2_succ_le m). lia.
Qed.

(** Rounding a positive mantissa whose exponent is in range: the result is
    finite, keeps the sign, does not lower the exponent and changes the
    magnitude (digits plus exponent) by at most one, upward. *)
Lemma binary_round_aux_shape (s : bool) (mx ex : Z) (lx : location) :
  0 < mx -> -1074 <= ex <= 970 -> Zdigits2 mx + ex <= 1023 ->
  exists m e,
    binary_round_aux prec emax s mx ex lx = S754_finite s m e
    /\ ex <= e
    /\ Zdigits2 mx + ex <= Zpos (digits2_pos m) + e <= Zdigits2 mx + ex + 1.
Proof.
  intros Hm He HD. unfold binary_round_aux.
  destruct (shr_fexp_shape mx ex lx Hm ltac:(lia)) as (r1 & e1 & E1 & Hr1 & He1 & Hd1).
  rewrite E1.
  set (m2 := round_nearest_even (shr_m r1) (loc_of_shr_record r1)).
  pose proof (round_nearest_even_bounds (shr_m r1) (loc_of_shr_record r1) Hr1) as Hm2.
  fold m2 in Hm2.
  pose proof (Zdigits2_succ_bounds (shr_m r1) m2 Hr1 Hm2) as Hd2.
  rewrite fexp64_eq in He1.
  destruct (shr_fexp_shape m2 e1 loc_Exact ltac:(lia) ltac:(lia)) as (r2 & e2 & E2 & Hr2 & He2 & Hd3).
  rewrite E2. rewrite fexp64_eq in He2.
  destruct (shr_m r2) as [|p|p] eqn:Ep; try lia.
  exists p, e2. 
  replace (e2 <=? emax - prec) with true by (symmetry; apply Z.leb_le; change (emax - prec) with 971; lia).
  split; [reflexivity|]. simpl Zdigits2 in Hd3. lia.
Qed.


Lemma digits2_pos_iter_xO (m d : positive) :
  Zpos (digits2_pos (Pos.iter xO m d)) = Zpos (digits2_pos m) + Zpos d.
Proof.
  induction d as [|d IH] using Pos.peano_ind.
  - simpl. lia.
  - rewrite Pos.iter_succ. simpl digits2_pos. lia.
Qed.

Lemma shl_align_shape (mx : positive) (ex ex' : Z) :
  snd (shl_align mx ex ex') = Z.min ex ex'
  /\ Zpos (digits2_pos (fst (shl_align mx ex ex'))) + snd (shl_align mx ex ex')
     = Zpos (digits2_pos mx) + ex.
Proof.
  unfold shl_align. destruct (ex' - ex) as [|d|d] eqn:E; cbn [fst snd]; try lia.
  rewrite digits2_pos_iter_xO. pose proof (Pos2Z.opp_pos d). lia.
Qed.

Lemma binary_round_shape (s : bool) (mx : positive) (ex : Z) :
  -1074 <= ex <= 970 -> Zpos (digits2_pos mx) + ex <= 1023 ->
  exists m e,
    binary_round prec emax s mx ex = S754_finite s m e
    /\ Z.min ex (fexp64 (Zpos (digits2_pos mx) + ex)) <= e
    /\ Zpos (digits2_pos mx) + ex <= Zpos (digits2_pos m) + e <= Zpos (digits2_pos mx) + ex + 1.
Proof.
  intros He HD. unfold binary_round.
  pose proof (shl_align_shape mx ex (fexp64 (Zpos (digits2_pos mx) + ex))) as [Hs Hd].
  destruct (shl_align mx ex (fexp64 (Zpos (digits2_pos mx) + ex))) as [mz ez]. cbn [fst snd] in Hs, Hd.
  pose proof (fexp64_eq (Zpos (digits2_pos mx) + ex)) as Hf.
  destruct (binary_round_aux_shape s (Zpos mz) ez loc_Exact) as (m & e & E & He' & Hm);
    try (simpl Zdigits2; lia).
  exists m, e. split; [assumption|]. simpl Zdigits2 in Hm. lia.
Qed.

(** [int(x)] of a positive finite float of magnitude above [L] is at least
    [2 ^ L]. *)
Lemma int_of_float_lower (m : positive) (e L : Z) :
  0 <= L -> L + 1 <= Zpos (digits2_pos m) + e ->
  exists c, int_of_float (S754_finite false m e) = Ok c /\ 2 ^ L <= c.
Proof.
  intros HL Hd. unfold int_of_float. eexists. split; [reflexivity|].
  simpl cond_Zopp.
  pose proof (Zdigits2_log2 (Zpos m) ltac:(lia)) as Hlog. simpl Zdigits2 in Hlog.
  pose proof (Z.log2_spec (Zpos m) ltac:(lia)) as [Hlo _].
  destruct e as [|k|k].
  - rewrite Z.shiftl_0_r. etransitivity; [|exact Hlo]. apply Z.pow_le_mono_r; lia.
  - rewrite Z.shiftl_mul_pow2 by lia.
    replace L with ((L - Zpos k) + Zpos k) by lia.
    destruct (Z_lt_le_dec (L - Zpos k) 0) as [Hneg|Hpos].
    + replace (L - Zpos k + Zpos k) with L by lia.
      transitivity (1 * 2 ^ Zpos k).
      * rewrite Z.mul_1_l. apply Z.pow_le_mono_r; lia.
      * apply Z.mul_le_mono_nonneg_r; [apply Z.pow_nonneg|]; lia.
    + rewrite Z.pow_add_r by lia.
      apply Z.mul_le_mono_nonneg_r; [apply Z.pow_nonneg; lia|].
      etransitivity; [|exact Hlo]. apply Z.pow_le_mono_r; lia.
  - destruct (log2_shiftr_pos (Zpos m) (Zpos k) ltac:(lia) ltac:(lia) ltac:(lia)) as [Hp Hl].
    pose proof (Z.log2_spec _ Hp) as [Hlo' _].
    etransitivity; [|exact Hlo']. apply Z.pow_le_mono_r; lia.
Qed.

(** Halving a non-zero [int] that is not huge: the correctly rounded
    quotient is finite, has the sign of the [int], and its magnitude is not
    below the binary logarithm of the [int]. *)
Lemma int_truediv_2_shape (n : Z) :
  n <> 0 -> Z.abs n < 2 ^ 1024 ->
  exists m e,
    int_truediv n 2 = Ok (S754_finite (n <? 0) m e)
    /\ Z.log2 (Z.abs n) <= Zpos (digits2_pos m) + e.
Proof.
  intros Hn Hmax. unfold int_truediv.
  replace (2 =? 0) with false by reflexivity.
  replace (n =? 0) with false by (symmetry; apply Z.eqb_neq; lia).
  replace (2 <? 0) with false by reflexivity. rewrite xorb_false_r.
  change (Z.abs 2) with 2.
  set (a := Z.abs n) in *. assert (Ha : 0 < a) by lia.
  pose proof (Zdigits2_log2 a Ha) as Hd.
  pose proof (Z.log2_nonneg a) as Hl0.
  assert (Hl3 : Z.log2 a < 1024) by (apply Z.log2_lt_pow2; lia).
  unfold SFdiv_core_binary.
  change (Zdigits2 2) with 2. rewrite Hd.
  set (e' := Z.min (fexp64 (Z.log2 a + 1 + 0 - (2 + 0))) (0 - 0)).
  assert (He' : e' = Z.min (Z.log2 a - 54) 0) by (subst e'; rewrite fexp64_eq; lia).
  set (sh := 0 - 0 - e').
  set (m' := match sh with Z.pos _ => Z.shiftl a sh | 0 => a | Z.neg _ => 0 end).
  assert (Hsh : 0 <= sh) by lia.
  assert (Hm' : m' = Z.shiftl a sh).
  { subst m'. destruct sh eqn:Es; [now rewrite Z.shiftl_0_r | reflexivity | lia]. }
  assert (Hlm : Z.log2 m' = Z.log2 a + sh) by (rewrite Hm'; apply Z.log2_shiftl; lia).
  assert (Hpm : 0 < m').
  { rewrite Hm', Z.shiftl_mul_pow2 by lia. apply Z.mul_pos_pos; [lia|]. apply Z.pow_pos_nonneg; lia. }
  destruct (Z.div_eucl m' 2) as [q r] eqn:Eq.
  assert (Hq : q = Z.shiftr m' 1).
  { rewrite Z.shiftr_div_pow2 by lia. change (2 ^ 1) with 2.
    unfold Z.div. now rewrite Eq. }
  destruct (log2_shiftr_pos m' 1 Hpm ltac:(lia) ltac:(lia)) as [Hqpos Hqlog].
  rewrite <- Hq in Hqpos, Hqlog.
  destruct (binary_round_aux_shape (n <? 0) q e' (new_location 2 r) Hqpos)
    as (m & e & E & Hee & Hmag).
  { lia. }
  { rewrite Zdigits2_log2 by assumption. lia. }
  rewrite E. rewrite Zdigits2_log2 in Hmag by assumption.
  exists m, e. split; [reflexivity | lia].
Qed.

(** The number of two-week steps that [calculate_progression] derives by a
    float division is, once capped, the one integer division gives. *)
Lemma complexity_steps (n : Z) :
  0 <= n -> n < 2 ^ 1024 ->
  exists f c, int_truediv n 2 = Ok f /\ int_of_float f = Ok c
              /\ Z.min 3 (1 + c) = Z.min 3 (1 + n / 2).
Proof.
  intros Hn Hmax.
  destruct (Z_lt_le_dec n 4) as [Hsmall|Hbig].
  - assert (Hc : n = 0 \/ n = 1 \/ n = 2 \/ n = 3) by lia.
    destruct Hc as [-> | [-> | [-> | ->]]]; eexists; eexists;
      (split; [vm_compute; reflexivity|]); (split; [vm_compute; reflexivity|]);
      reflexivity.
  - destruct (int_truediv_2_shape n ltac:(lia) ltac:(lia)) as (m & e & E & Hmag).
    replace (n <? 0) with false in E by (symmetry; apply Z.ltb_ge; lia).
    assert (Hl2 : 2 <= Z.log2 (Z.abs n)) by (apply Z.log2_le_pow2; lia).
    destruct (int_of_float_lower m e 1 ltac:(lia) ltac:(lia)) as (c & Hc & Hc2).
    change (2 ^ 1) with 2 in Hc2.
    exists (S754_finite false m e), c. repeat split; try assumption.
    assert (2 <= n / 2) by (apply Z.div_le_lower_bound; lia). lia.
Qed.

Lemma float_of_int_nonneg_ok (n : Z) :
  0 <= n -> n < 2 ^ 1023 -> float_of_int n = Ok (of_Z n).
Proof.
  intros Hn Hmax. unfold float_of_int, of_Z, binary_normalize.
  destruct n as [|p|p]; try lia; [reflexivity|].
  assert (Hl : Z.log2 (Zpos p) < 1023) by (apply Z.log2_lt_pow2; lia).
  pose proof (Zdigits2_log2 (Zpos p) ltac:(lia)) as Hd. simpl Zdigits2 in Hd.
  destruct (binary_round_shape false p 0 ltac:(lia) ltac:(lia)) as (m & e & E & _).
  rewrite E. reflexivity.
Qed.

Lemma shr_r_shr_1 (r : shr_record) : 0 <= shr_m r -> shr_r (shr_1 r) = Z.odd (shr_m r).
Proof.
  destruct r as [m a b]. simpl. intros H.
  destruct m as [|p|p]; try lia; try reflexivity; destruct p; reflexivity.
Qed.

Lemma shr_r_iter_nat (n : nat) (r : shr_record) :
  0 <= shr_m r ->
  shr_r (Nat.iter (S n) shr_1 r) = Z.odd (Z.shiftr (shr_m r) (Z.of_nat n)).
Proof.
  intros H. simpl Nat.iter. rewrite shr_r_shr_1.
  - now rewrite shr_m_iter_nat.
  - rewrite shr_m_iter_nat by assumption. now apply Z.shiftr_nonneg.
Qed.

Lemma round_nearest_even_below (m : Z) (r s : bool) :
  round_nearest_even m (loc_of_shr_record {| shr_m := m; shr_r := r; shr_s := s |})
  <= m + (if r then 1 else 0).
Proof. destruct r, s; simpl; try lia. destruct (Z.even m); lia. Qed.

(** An integer of 1024 binary digits below 2^1024 - 2^970, the midpoint
    between the largest binary64 number and 2^1024, rounds to a finite
    float: the 53 leading digits are not rounded up to 2^53. *)
Lemma binary_round_top_binade (p : positive) :
  2 ^ 1023 <= Zpos p -> Zpos p < 2 ^ 1024 - 2 ^ 970 ->
  match binary_round prec emax false p 0 with
  | S754_finite false _ _ => True
  | _ => False
  end.
Proof.
  intros Hlo Hhi.
  assert (Hpow : 0 < 2 ^ 970) by (apply Z.pow_pos_nonneg; lia).
  assert (E1023 : 2 ^ 1023 = 2 ^ 53 * 2 ^ 970) by (rewrite <- Z.pow_add_r by lia; reflexivity).
  assert (E1024 : 2 ^ 1024 = 2 ^ 54 * 2 ^ 970) by (rewrite <- Z.pow_add_r by lia; reflexivity).
  assert (E971 : 2 ^ 971 = 2 ^ 970 * 2).
  { replace 971 with (970 + 1) by reflexivity. now rewrite Z.pow_add_r by lia. }
  assert (Hlog : Z.log2 (Zpos p) = 1023) by (apply Z.log2_unique; lia).
  pose proof (Zdigits2_log2 (Zpos p) ltac:(lia)) as Hd. rewrite Hlog in Hd.
  unfold binary_round.
  change (Zdigits2 (Zpos p)) with (Zpos (digits2_pos p)) in Hd.
  set (d := Zpos (digits2_pos p)) in *.
  replace d with 1024 by (symmetry; exact Hd). subst d.
  change (shl_align p 0 (fexp64 (1024 + 0))) with (p, 0). cbv iota beta.
  unfold binary_round_aux, shr_fexp at 1.
  change (Zdigits2 (Zpos p)) with (Zpos (digits2_pos p)).
  set (d := Zpos (digits2_pos p)) in *.
  replace d with 1024 by (symmetry; exact Hd).
  change (fexp64 (1024 + 0) - 0) with 971.
  unfold shr. rewrite iter_pos_nat.
  change (Pos.to_nat 971) with (S 970).
  set (r0 := shr_record_of_loc (Zpos p) loc_Exact).
  assert (Hr0 : shr_m r0 = Zpos p) by reflexivity.
  pose proof (shr_m_iter_nat 971 r0 ltac:(rewrite Hr0; lia)) as Hm1.
  pose proof (shr_r_iter_nat 970 r0 ltac:(rewrite Hr0; lia)) as Hr1.
  rewrite Hr0 in Hm1, Hr1.
  set (r1 := Nat.iter 971 shr_1 r0) in *.
  set (t := Z.shiftr (Zpos p) (Z.of_nat 970)) in *.
  assert (Ht : t = Zpos p / 2 ^ 970) by (subst t; now rewrite Z.shiftr_div_pow2 by lia).
  assert (Hq : shr_m r1 = t / 2).
  { rewrite Hm1, Ht, Z.shiftr_div_pow2 by lia. change (Z.of_nat 971) with 971.
    rewrite E971. now rewrite Z.div_div by lia. }
  assert (Htlo : 2 ^ 53 <= t).
  { rewrite Ht. apply Z.div_le_lower_bound; lia. }
  assert (Hthi : t < 2 ^ 54 - 1).
  { rewrite Ht. apply Z.div_lt_upper_bound; lia. }
  change (2 ^ 53) with 9007199254740992 in *. change (2 ^ 54) with 18014398509481984 in *.
  set (m2 := round_nearest_even (shr_m r1) (loc_of_shr_record r1)).
  assert (Hm2 : 4503599627370496 <= m2 < 9007199254740992).
  { pose proof (round_nearest_even_bounds (shr_m r1) (loc_of_shr_record r1)) as Hb.
    fold m2 in Hb. rewrite Hq in Hb.
    assert (Hup : m2 <= t / 2 + (if Z.odd t then 1 else 0)).
    { subst m2. rewrite <- Hr1, <- Hq. destruct r1 as [m a b]. cbn [shr_m shr_r].
      apply round_nearest_even_below. }
    pose proof (Zdiv2_odd_eqn t) as Heq. rewrite Z.div2_div in Heq.
    destruct (Z.odd t); lia. }
  assert (Hl2 : Z.log2 m2 = 52).
  { apply Z.log2_unique; [lia|]. change (2 ^ 52) with 4503599627370496.
    change (2 ^ (52 + 1)) with 9007199254740992. lia. }
  unfold shr_fexp. rewrite Zdigits2_log2 by lia. rewrite Hl2.
  change (fexp64 (52 + 1 + (0 + 971)) - (0 + 971)) with 0. cbn [shr].
  rewrite shr_m_of_loc.
  destruct m2 as [|m|m] eqn:Em; try lia.
  exact I.
Qed.

(** [float(n)] succeeds for every non-negative [int] below 2^1024 - 2^970. *)
Lemma float_of_int_in_range (n : Z) :
  0 <= n -> n < 2 ^ 1024 - 2 ^ 970 -> float_of_int n = Ok (of_Z n).
Proof.
  intros Hn Hmax.
  destruct (Z_lt_le_dec n (2 ^ 1023)) as [Hsmall|Hbig];
    [now apply float_of_int_nonneg_ok|].
  unfold float_of_int, of_Z, binary_normalize.
  destruct n as [|p|p]; try lia.
  pose proof (binary_round_top_binade p Hbig Hmax) as H.
  destruct (binary_round prec emax false p 0) as [| | |[] m e]; now try contradiction.
Qed.


(** A float that is a zero or a finite number with exponent at least [lo]
    and magnitude at most [hi]. *)
Definition bounded (lo hi : Z) (x : float) : Prop :=
  match x with
  | S754_zero _ => True
  | S754_finite _ m e => lo <= e /\ Zpos (digits2_pos m) + e <= hi
  | _ => False
  end.

Lemma bounded_weaken (lo hi lo' hi' : Z) (x : float) :
  bounded lo hi x -> lo' <= lo -> hi <= hi' -> bounded lo' hi' x.
Proof. destruct x; cbn [bounded]; intros; lia. Qed.

Lemma bounded_int_of_float (lo hi : Z) (x : float) :
  bounded lo hi x -> is_ok (int_of_float x).
Proof. destruct x; simpl; intros; tauto. Qed.

Lemma mul_bounded (lo1 hi1 lo2 hi2 : Z) (x y : float) :
  bounded lo1 hi1 x -> bounded lo2 hi2 y ->
  -1074 <= lo1 + lo2 -> hi1 + hi2 <= 971 ->
  bounded (lo1 + lo2) (hi1 + hi2 + 1) (mul x y).
Proof.
  intros Hx Hy Hlo Hhi.
  destruct x as [sx|sx| |sx mx ex]; destruct y as [sy|sy| |sy my ey];
    cbn [bounded] in Hx, Hy; try contradiction; try exact I.
  unfold mul, SFmul.
  pose proof (Zdigits2_log2 (Zpos mx) ltac:(lia)) as Hdx.
  pose proof (Zdigits2_log2 (Zpos my) ltac:(lia)) as Hdy.
  pose proof (Zdigits2_log2 (Zpos (mx * my)) ltac:(lia)) as Hdxy.
  pose proof (Z.log2_mul_above (Zpos mx) (Zpos my) ltac:(lia) ltac:(lia)) as Hm.
  rewrite <- Pos2Z.inj_mul in Hm. simpl Zdigits2 in Hdx, Hdy.
  pose proof (Z.log2_nonneg (Zpos mx)). pose proof (Z.log2_nonneg (Zpos my)).
  destruct (binary_round_aux_shape (xorb sx sy) (Zpos (mx * my)) (ex + ey) loc_Exact)
    as (m & e & E & He & Hmag); try lia.
  rewrite E. cbn [bounded]. lia.
Qed.

Lemma binary_normalize_bounded (lo hi : Z) (m e : Z) (sz : bool) :
  -1074 <= lo - 52 -> lo <= e -> hi <= 971 -> Z.abs m < 2 ^ (hi - e) ->
  bounded (lo - 52) (hi + 1) (binary_normalize prec emax m e sz).
Proof.
  intros Hlo He Hhi Hm.
  assert (Hpow : forall p : positive, Zpos p < 2 ^ (hi - e) ->
                 Zpos (digits2_pos p) + e <= hi /\ 1 + e <= Zpos (digits2_pos p) + e).
  { intros p Hp. pose proof (Zdigits2_log2 (Zpos p) ltac:(lia)) as Hd. simpl Zdigits2 in Hd.
    pose proof (Z.log2_nonneg (Zpos p)).
    assert (0 <= hi - e).
    { destruct (Z_lt_le_dec (hi - e) 0) as [Hneg|]; [|assumption].
      rewrite Z.pow_neg_r in Hp by assumption. lia. }
    assert (Z.log2 (Zpos p) < hi - e) by (apply Z.log2_lt_pow2; lia). lia. }
  unfold binary_normalize. destruct m as [|p|p]; [exact I| |].
  - destruct (Hpow p ltac:(lia)) as [H1 H2].
    destruct (binary_round_shape false p e ltac:(lia) ltac:(lia)) as (m' & e' & E & He' & Hmag).
    rewrite E. cbn [bounded]. rewrite fexp64_eq in He'. lia.
  - destruct (Hpow p ltac:(simpl in Hm; lia)) as [H1 H2].
    destruct (binary_round_shape true p e ltac:(lia) ltac:(lia)) as (m' & e' & E & He' & Hmag).
    rewrite E. cbn [bounded]. rewrite fexp64_eq in He'. lia.
Qed.

Lemma of_Z_bounded (n k : Z) :
  0 <= k <= 971 -> Z.abs n < 2 ^ k -> bounded (-52) (k + 1) (of_Z n).
Proof.
  intros Hk Hn. unfold of_Z.
  apply (binary_normalize_bounded 0 k n 0 false); try lia.
  now rewrite Z.sub_0_r.
Qed.

Lemma shl_align_value (mx : positive) (ex ez : Z) :
  ez <= ex ->
  Zpos (fst (shl_align mx ex ez)) < 2 ^ (Zpos (digits2_pos mx) + ex - ez).
Proof.
  intros Hle.
  pose proof (shl_align_shape mx ex ez) as [Hs Hd].
  replace (Zpos (digits2_pos mx) + ex - ez)
    with (Zpos (digits2_pos (fst (shl_align mx ex ez)))) by lia.
  pose proof (Zdigits2_log2 (Zpos (fst (shl_align mx ex ez))) ltac:(lia)) as Hl.
  simpl Zdigits2 in Hl. rewrite Hl.
  apply Z.log2_spec. lia.
Qed.

Lemma add_bounded (lo hi : Z) (x y : float) :
  bounded lo hi x -> bounded lo hi y ->
  -1074 <= lo - 52 -> hi <= 970 ->
  bounded (lo - 52) (hi + 2) (add x y).
Proof.
  intros Hx Hy Hlo Hhi.
  destruct x as [sx|sx| |sx mx ex]; destruct y as [sy|sy| |sy my ey];
    cbn [bounded] in Hx, Hy; try contradiction.
  - destruct sx, sy; exact I.
  - cbn [add SFadd bounded]. lia.
  - cbn [add SFadd bounded]. lia.
  - unfold add, SFadd.
    set (ez := Z.min ex ey).
    pose proof (shl_align_value mx ex ez ltac:(lia)) as Hvx.
    pose proof (shl_align_value my ey ez ltac:(lia)) as Hvy.
    set (ax := Zpos (fst (shl_align mx ex ez))) in *.
    set (ay := Zpos (fst (shl_align my ey ez))) in *.
    assert (Hax : ax < 2 ^ (hi - ez)).
    { eapply Z.lt_le_trans; [exact Hvx|]. apply Z.pow_le_mono_r; lia. }
    assert (Hay : ay < 2 ^ (hi - ez)).
    { eapply Z.lt_le_trans; [exact Hvy|]. apply Z.pow_le_mono_r; lia. }
    assert (Hsum : Z.abs (cond_Zopp sx ax + cond_Zopp sy ay) < 2 ^ (hi + 1 - ez)).
    { replace (hi + 1 - ez) with (hi - ez + 1) by lia.
      assert (0 <= hi - ez).
      { destruct (Z_lt_le_dec (hi - ez) 0) as [Hneg|]; [|assumption].
        rewrite Z.pow_neg_r in Hax by assumption. subst ax. lia. }
      rewrite Z.pow_add_r by lia. change (2 ^ 1) with 2.
      assert (0 < ax) by (subst ax; lia). assert (0 < ay) by (subst ay; lia).
      destruct sx, sy; simpl cond_Zopp; lia. }
    pose proof (binary_normalize_bounded lo (hi + 1) _ ez false ltac:(lia) ltac:(lia) ltac:(lia) Hsum) as Hb.
    replace (hi + 1 + 1) with (hi + 2) in Hb by lia. exact Hb.
Qed.

(** A positive finite float of magnitude at least [L]: its value is at
    least [2 ^ (L - 1)]. *)
Definition pos_ge (L : Z) (x : float) : Prop :=
  match x with
  | S754_finite false m e => L <= Zpos (digits2_pos m) + e
  | _ => False
  end.

(** A zero or a positive finite float. *)
Definition nonneg (x : float) : Prop :=
  match x with
  | S754_zero _ | S754_finite false _ _ => True
  | _ => False
  end.

Lemma pos_ge_nonneg (L : Z) (x : float) : pos_ge L x -> nonneg x.
Proof. destruct x as [| | |[] m e]; cbn; tauto. Qed.

Lemma mul_pos_ge (lo1 hi1 lo2 hi2 L1 L2 : Z) (x y : float) :
  bounded lo1 hi1 x -> bounded lo2 hi2 y -> pos_ge L1 x -> pos_ge L2 y ->
  -1074 <= lo1 + lo2 -> hi1 + hi2 <= 971 ->
  pos_ge (L1 + L2 - 1) (mul x y).
Proof.
  intros Hx Hy Px Py Hlo Hhi.
  destruct x as [sx|sx| |[] mx ex]; destruct y as [sy|sy| |[] my ey];
    cbn [pos_ge] in Px, Py; try contradiction.
  cbn [bounded] in Hx, Hy.
  unfold mul, SFmul.
  pose proof (Zdigits2_log2 (Zpos mx) ltac:(lia)) as Hdx.
  pose proof (Zdigits2_log2 (Zpos my) ltac:(lia)) as Hdy.
  pose proof (Zdigits2_log2 (Zpos (mx * my)) ltac:(lia)) as Hdxy.
  pose proof (Z.log2_mul_above (Zpos mx) (Zpos my) ltac:(lia) ltac:(lia)) as Hm.
  pose proof (Z.log2_mul_below (Zpos mx) (Zpos my) ltac:(lia) ltac:(lia)) as Hm'.
  rewrite <- Pos2Z.inj_mul in Hm, Hm'. simpl Zdigits2 in Hdx, Hdy.
  destruct (binary_round_aux_shape (xorb false false) (Zpos (mx * my)) (ex + ey) loc_Exact)
    as (m & e & E & He & Hmag); try lia.
  rewrite E. cbn [xorb pos_ge]. lia.
Qed.

Lemma mul_nonneg (lo1 hi1 lo2 hi2 : Z) (x y : float) :
  bounded lo1 hi1 x -> bounded lo2 hi2 y -> nonneg x -> nonneg y ->
  -1074 <= lo1 + lo2 -> hi1 + hi2 <= 971 ->
  nonneg (mul x y).
Proof.
  intros Hx Hy Px Py Hlo Hhi.
  destruct x as [sx|sx| |[] mx ex]; destruct y as [sy|sy| |[] my ey];
    cbn [nonneg] in Px, Py; try contradiction; try exact I.
  eapply pos_ge_nonneg.
  apply (mul_pos_ge lo1 hi1 lo2 hi2 (Zpos (digits2_pos mx) + ex) (Zpos (digits2_pos my) + ey));
    try assumption; cbn [pos_ge]; lia.
Qed.

Lemma of_Z_nonneg (n : Z) : 0 <= n -> n < 2 ^ 971 -> nonneg (of_Z n).
Proof.
  intros Hn Hmax. unfold of_Z, binary_normalize.
  destruct n as [|p|p]; try lia; [exact I|].
  assert (Hl : Z.log2 (Zpos p) < 971) by (apply Z.log2_lt_pow2; lia).
  pose proof (Zdigits2_log2 (Zpos p) ltac:(lia)) as Hd. simpl Zdigits2 in Hd.
  destruct (binary_round_shape false p 0 ltac:(lia) ltac:(lia)) as (m & e & E & _).
  rewrite E. exact I.
Qed.

Lemma add_pos_ge (lo hi L : Z) (x y : float) :
  bounded lo hi x -> bounded lo hi y -> pos_ge L x -> nonneg y ->
  -1074 <= lo -> hi <= 970 ->
  pos_ge L (add x y).
Proof.
  intros Hx Hy Px Py Hlo Hhi.
  destruct x as [sx|sx| |[] mx ex]; cbn [pos_ge] in Px; try contradiction.
  destruct y as [sy|sy| |[] my ey]; cbn [nonneg] in Py; try contradiction.
  - exact Px.
  - cbn [bounded] in Hx, Hy. unfold add, SFadd.
    set (ez := Z.min ex ey).
    pose proof (shl_align_shape mx ex ez) as [Hsx Hdx].
    pose proof (shl_align_value mx ex ez ltac:(lia)) as Hvx.
    pose proof (shl_align_value my ey ez ltac:(lia)) as Hvy.
    set (ax := fst (shl_align mx ex ez)) in *.
    set (ay := fst (shl_align my ey ez)) in *.
    cbn [cond_Zopp]. rewrite <- Pos2Z.inj_add. cbn [binary_normalize].
    replace (snd (shl_align mx ex ez)) with ez in Hdx by lia.
    assert (Hsum : Zpos (ax + ay) < 2 ^ (hi + 1 - ez)).
    { replace (hi + 1 - ez) with (hi - ez + 1) by lia.
      assert (Zpos ax < 2 ^ (hi - ez)).
      { eapply Z.lt_le_trans; [exact Hvx|]. apply Z.pow_le_mono_r; lia. }
      assert (Zpos ay < 2 ^ (hi - ez)).
      { eapply Z.lt_le_trans; [exact Hvy|]. apply Z.pow_le_mono_r; lia. }
      assert (0 <= hi - ez).
      { destruct (Z_lt_le_dec (hi - ez) 0) as [Hneg|]; [|assumption].
        rewrite Z.pow_neg_r in H by assumption. lia. }
      rewrite Z.pow_add_r by lia. change (2 ^ 1) with 2. lia. }
    pose proof (Zdigits2_log2 (Zpos (ax + ay)) ltac:(lia)) as Hds. simpl Zdigits2 in Hds.
    pose proof (Zdigits2_log2 (Zpos ax) ltac:(lia)) as Hda. simpl Zdigits2 in Hda.
    assert (Hmono : Z.log2 (Zpos ax) <= Z.log2 (Zpos (ax + ay))) by (apply Z.log2_le_mono; lia).
    assert (Hup : Z.log2 (Zpos (ax + ay)) < hi + 1 - ez).
    { apply Z.log2_lt_pow2; [lia | exact Hsum]. }
    destruct (binary_round_shape false (ax + ay) ez ltac:(lia) ltac:(lia))
      as (m & e & E & _ & Hmag).
    rewrite E. cbn [pos_ge]. lia.
Qed.

Lemma of_Z_pos_ge (n L : Z) :
  2 ^ (L - 1) <= n -> 1 <= L -> n < 2 ^ 971 -> pos_ge L (of_Z n).
Proof.
  intros Hlo HL Hmax. unfold of_Z, binary_normalize.
  assert (0 < n) by (pose proof (Z.pow_pos_nonneg 2 (L - 1)); lia).
  destruct n as [|p|p]; try lia.
  assert (Hl : Z.log2 (Zpos p) < 971) by (apply Z.log2_lt_pow2; lia).
  assert (Hl' : L - 1 <= Z.log2 (Zpos p)) by (apply Z.log2_le_pow2; lia).
  pose proof (Zdigits2_log2 (Zpos p) ltac:(lia)) as Hd. simpl Zdigits2 in Hd.
  destruct (binary_round_shape false p 0 ltac:(lia) ltac:(lia)) as (m & e & E & _ & Hmag).
  rewrite E. cbn [pos_ge]. lia.
Qed.

Lemma pos_ge_int_of_float (L : Z) (x : float) :
  1 <= L -> pos_ge L x -> exists c, int_of_float x = Ok c /\ 2 ^ (L - 1) <= c.
Proof.
  intros HL Hx. destruct x as [| | |[] m e]; cbn [pos_ge] in Hx; try contradiction.
  apply int_of_float_lower; lia.
Qed.

(** Claim C7. For every week from 1 on that the program can compute
    with, that is up to 2^1024 - 2^970 (the largest week whose predecessor
    converts to a float; the callers stay below 2^20), and every
    difficulty modifier, [calculate_progression] returns, without an
    error, the volume multiplier (1 + 0.1 * (week - 1)) * modifier and the
    intensity multiplier (1 + 0.05 * (week - 1)) * modifier, computed in
    binary64 in this order, and the complexity level
    min(3, 1 + floor((week - 1) / 2)). *)
Theorem C7_progression (week : Z) (difficulty_modifier : float) :
  1 <= week -> week <= 2 ^ 1024 - 2 ^ 970 ->
  calculate_progression week difficulty_modifier =
    Ok {| volume_multiplier :=
            mul (add (of_Z 1) (mul f0_1 (of_Z (week - 1)))) difficulty_modifier;
          intensity_multiplier :=
            mul (add (of_Z 1) (mul f0_05 (of_Z (week - 1)))) difficulty_modifier;
          complexity_level := Z.min 3 (1 + (week - 1) / 2) |}.
Proof.
  intros Hlo Hhi. unfold calculate_progression.
  assert (0 < 2 ^ 970) by (apply Z.pow_pos_nonneg; lia).
  rewrite !float_of_int_in_range by lia. cbn [rbind].
  destruct (complexity_steps (week - 1) ltac:(lia) ltac:(lia)) as (f & c & Ef & Ec & Hc).
  rewrite Ef. cbn [rbind]. rewrite Ec. cbn [rbind]. rewrite Hc. reflexivity.
Qed.

End Binary64.


(* ------------------------------------------------------------------ *)
(** ** The pure methods *)

(** Claim C8. [calculate_difficulty_modifier] returns the base factor of
    the fitness level (Beginner 0.8, Intermediate 1.1, Advanced 1.4, any
    other value 1.0) multiplied by 0.9 when the profile has a health
    condition and by 1 when it has none; a Beginner with no health
    condition gets 0.8. *)
Theorem C8_difficulty_modifier (user : UserProfile) :
  let base :=
    match fitness_level user with
    | Member BEGINNER => f0_8
    | Member INTERMEDIATE => f1_1
    | Member ADVANCED => f1_4
    | Foreign _ => f1_0
    end in
  calculate_difficulty_modifier user
  = mul base (match health_conditions user with [] => of_Z 1 | _ :: _ => f0_9 end)
  /\ calculate_difficulty_modifier
       (mk_UserProfile (age user) (height user) (weight user) (gender user)
          (Member BEGINNER) [] (goal user) (preferred_days user))
     = f0_8.
Proof.
  unfold calculate_difficulty_modifier. split; [|reflexivity].
  destruct (health_conditions user); [|destruct (fitness_level user) as [[]|]; reflexivity].
  destruct (fitness_level user) as [[]|]; vm_compute; reflexivity.
Qed.

Fixpoint Zsum (xs : list Z) : Z :=
  match xs with
  | [] => 0
  | x :: xs' => x + Zsum xs'
  end.

Lemma enumerate_from_minutes_sum {A : Type} (q r : Z) (xs : list A) :
  forall a, 0 <= a -> 0 <= r ->
  Zsum (map (fun '(i, _) => if i <? r then q + 1 else q) (enumerate_from a xs))
  = Z.of_nat (List.length xs) * q
    + Z.max 0 (Z.min r (a + Z.of_nat (List.length xs)) - a).
Proof.
  induction xs as [|x xs IH]; intros a Ha Hr.
  - cbn. lia.
  - cbn [enumerate_from map Zsum List.length]. rewrite IH by lia.
    rewrite Nat2Z.inj_succ. destruct (Z.ltb_spec a r); lia.
Qed.

Lemma format_timed_from (workout_type : string) (progression : Progression) (n total : Z)
    (xs : list string) :
  String.eqb workout_type "Strength" = false ->
  String.eqb workout_type "HIIT" = false ->
  n <> 0 ->
  forall a,
  rmap (fun '(i, exercise) => format_exercise exercise workout_type progression i n total)
       (enumerate_from a xs)
  = Ok (map (fun '(i, exercise) =>
               TimedEntry exercise
                 (str_of_int (exercise_duration i n total) ++ " minutes")%string)
            (enumerate_from a xs)).
Proof.
  intros Hs Hh Hn. induction xs as [|x xs IH]; intros a; [reflexivity|].
  cbn [enumerate_from rmap map]. rewrite IH.
  unfold format_exercise at 1. rewrite Hs, Hh.
  replace (n =? 0) with false by (symmetry; now apply Z.eqb_neq).
  reflexivity.
Qed.

(** Claim C2. On a day that is neither Strength nor HIIT, with N >= 1
    selected exercises and a total of D >= 0 minutes, the formatter gives
    the exercise at index i the duration D div N, plus one minute when
    i < D mod N, as a whole number of minutes, and these durations add up
    to D. *)
Theorem C2_timed_durations_sum (selected_exercises : list string) (workout_type : string)
    (progression : Progression) (D : Z) :
  workout_type <> "Strength" -> workout_type <> "HIIT" ->
  selected_exercises <> [] -> 0 <= D ->
  let N := Z.of_nat (List.length selected_exercises) in
  let minutes (i : Z) := D / N + (if i <? D mod N then 1 else 0) in
  format_exercises selected_exercises workout_type progression D
  = Ok (map (fun '(i, exercise) =>
               TimedEntry exercise (str_of_int (minutes i) ++ " minutes")%string)
            (enumerate selected_exercises))
  /\ Zsum (map (fun '(i, _) => minutes i) (enumerate selected_exercises)) = D.
Proof.
  intros Hs Hh Hne HD N minutes.
  assert (HN : 0 < N).
  { subst N. destruct selected_exercises; [contradiction|]. cbn [List.length]. lia. }
  assert (Hm : forall i, minutes i = exercise_duration i N D).
  { intros i. unfold minutes, exercise_duration. destruct (i <? D mod N); lia. }
  split.
  - unfold format_exercises, enumerate. fold N.
    rewrite format_timed_from; try lia; try (now apply String.eqb_neq).
    f_equal. apply map_ext. intros [i e]. now rewrite Hm.
  - unfold enumerate.
    rewrite (map_ext _ (fun '(i, _) => if i <? D mod N then D / N + 1 else D / N)).
    2:{ intros [i e]. unfold minutes. destruct (i <? D mod N); lia. }
    pose proof (Z.mod_pos_bound D N HN) as Hmod.
    rewrite enumerate_from_minutes_sum by lia. fold N.
    pose proof (Z.div_mod D N ltac:(lia)). lia.
Qed.

(** Following the spec: the running sums of the probabilities in mapping
    order, the first category whose running sum reaches the draw, and the
    first category of the mapping when none does. *)
Fixpoint running_sums (total : float) (probabilities : list float) : list float :=
  match probabilities with
  | [] => []
  | p :: ps => add total p :: running_sums (add total p) ps
  end.

Definition first_reaching (r : float) (workout_split : list (string * float))
  : option string :=
  option_map fst
    (find (fun '(_, running) => leb r running)
       (combine (dict_keys workout_split)
          (running_sums (of_Z 0) (map snd workout_split)))).

Definition spec_select (r : float) (workout_split : list (string * float)) : string :=
  match first_reaching r workout_split with
  | Some category => category
  | None => hd "" (dict_keys workout_split)
  end.

Lemma select_loop_first_reaching (r : float) (items : list (string * float)) :
  forall total,
  select_loop r total items
  = option_map fst
      (find (fun '(_, running) => leb r running)
         (combine (dict_keys items) (running_sums total (map snd items)))).
Proof.
  induction items as [|[c p] items IH]; intros total; [reflexivity|].
  cbn [select_loop dict_keys map fst snd running_sums combine find].
  destruct (leb r (add total p)); [reflexivity|]. apply IH.
Qed.

(** Claim C6. On a non-empty mapping, [select_workout_type] draws r and
    returns the first category, in mapping order, whose running sum of
    probabilities is at least r, and the first category of the mapping
    when no running sum reaches r; it does not fail. *)
Theorem C6_select_workout_type (rt : Runtime) (w : World rt)
    (workout_split : list (string * float)) :
  workout_split <> [] ->
  select_workout_type rt workout_split w
  = (Ok (spec_select (fst (rng_random rt (rng w))) workout_split),
     mk_World (heap w) (snd (rng_random rt (rng w))) (clock w)).
Proof.
  intros Hne. unfold select_workout_type, bind, random_random, lift.
  destruct (rng_random rt (rng w)) as [r g]. cbn [fst snd].
  unfold select_for, spec_select, first_reaching.
  rewrite select_loop_first_reaching.
  destruct (option_map fst _); [reflexivity|].
  destruct workout_split as [|[c p] rest]; [contradiction|]. reflexivity.
Qed.


(* ------------------------------------------------------------------ *)
(** ** Running the stateful methods *)

(** What a pool holds: the category's list without the exercises excluded
    for the user's conditions, and the fallbacks of the two paths. *)
Definition without_restricted (db : ExerciseDatabase) (conditions : list HealthCondition)
    (xs : list string) : list string :=
  fold_left
    (fun pool c =>
       filter (fun e => negb (str_in e (restrictions_get (health_restrictions db) c))) pool)
    conditions xs.

Definition or_fallback (fallback : string) (xs : list string) : list string :=
  match xs with
  | [] => [fallback]
  | _ :: _ => xs
  end.

Definition workout_fallback (workout_type : string) : string :=
  if String.eqb workout_type "Cardio" then "Low-Impact Walking"
  else "Bodyweight Isometric Holds".

Section Runs.

Context (rt : Runtime) (self : WorkoutPlanner).

(** [w] after the allocation of [cells]. *)
Definition grow (w : World rt) (cells : list (list string)) : World rt :=
  mk_World (heap w ++ cells) (rng w) (clock w).

Definition with_rng (w : World rt) (g : rng_state rt) : World rt :=
  mk_World (heap w) g (clock w).

Lemma grow_nil (w : World rt) : grow w [] = w.
Proof. destruct w. unfold grow. cbn. now rewrite app_nil_r. Qed.

Lemma grow_grow (w : World rt) (a b : list (list string)) :
  grow (grow w a) b = grow w (a ++ b).
Proof. unfold grow. cbn. now rewrite app_assoc. Qed.

Lemma grow_frame (w : World rt) (cells : list (list string)) (l : nat) :
  (l < List.length (heap w))%nat -> nth l (heap (grow w cells)) [] = nth l (heap w) [].
Proof. intros H. cbn. now rewrite app_nth1. Qed.

Lemma bind_ok {A B : Type} (m : M rt A) (k : A -> M rt B) (w w' : World rt) (a : A) :
  m w = (Ok a, w') -> bind rt m k w = k a w'.
Proof. intros H. unfold bind. now rewrite H. Qed.

Lemma bind_raise {A B : Type} (m : M rt A) (k : A -> M rt B) (w w' : World rt) (e : exn) :
  m w = (Raise e, w') -> bind rt m k w = (Raise e, w').
Proof. intros H. unfold bind. now rewrite H. Qed.

Lemma filters_run (conditions : list HealthCondition) :
  forall (w : World rt) (p : loc),
  exists p' cells,
    foldM rt
      (fun exercises_pool condition =>
         list_without rt exercises_pool
           (restrictions_get (health_restrictions (exercise_db self)) condition))
      p conditions w = (Ok p', grow w cells)
    /\ nth p' (heap w ++ cells) []
       = without_restricted (exercise_db self) conditions (nth p (heap w) []).
Proof.
  induction conditions as [|c cs IH]; intros w p.
  - exists p, []. cbn. unfold ret. rewrite grow_nil, app_nil_r. split; reflexivity.
  - cbn [foldM].
    set (r := restrictions_get (health_restrictions (exercise_db self)) c).
    set (ys := filter (fun e => negb (str_in e r)) (nth p (heap w) [])).
    destruct (IH (grow w [ys]) (List.length (heap w))) as (p' & cells & E & Hc).
    exists p', ([ys] ++ cells).
    rewrite (bind_ok _ _ w (grow w [ys]) (List.length (heap w))) by reflexivity.
    rewrite E, grow_grow. split; [reflexivity|].
    cbn [heap grow] in Hc. rewrite <- app_assoc in Hc. rewrite Hc.
    rewrite nth_middle. reflexivity.
Qed.

Lemma filtered_pool_run (w : World rt) (workout_type : string) (user : UserProfile) :
  match dict_find (workout_types (exercise_db self)) workout_type with
  | None => filtered_pool rt self workout_type user w = (Raise (KeyError workout_type), w)
  | Some l =>
      exists p cells,
        filtered_pool rt self workout_type user w = (Ok p, grow w cells)
        /\ nth p (heap w ++ cells) []
           = without_restricted (exercise_db self) (health_conditions user) (nth l (heap w) [])
  end.
Proof.
  unfold filtered_pool, dict_getitem.
  destruct (dict_find (workout_types (exercise_db self)) workout_type) as [l|].
  - set (xs := nth l (heap w) []).
    destruct (filters_run (health_conditions user) (grow w [xs]) (List.length (heap w)))
      as (p & cells & E & Hc).
    exists p, ([xs] ++ cells).
    rewrite (bind_ok _ _ w w l) by reflexivity.
    rewrite (bind_ok _ _ w (grow w [xs]) (List.length (heap w))) by reflexivity.
    rewrite E, grow_grow. split; [reflexivity|].
    cbn [heap grow] in Hc. rewrite <- app_assoc in Hc. rewrite Hc.
    now rewrite nth_middle.
  - reflexivity.
Qed.

(** Both pools: the copy, the filters, then the fallback when nothing is
    left. *)
Lemma pool_with_fallback_run (fallback : string) (w : World rt) (workout_type : string)
    (user : UserProfile) :
  let pool :=
    bind rt (filtered_pool rt self workout_type user) (fun exercises_pool =>
    bind rt (list_read rt exercises_pool) (fun xs =>
      match xs with
      | [] => list_new rt [fallback]
      | _ :: _ => ret rt exercises_pool
      end)) in
  match dict_find (workout_types (exercise_db self)) workout_type with
  | None => pool w = (Raise (KeyError workout_type), w)
  | Some l =>
      exists p cells,
        pool w = (Ok p, grow w cells)
        /\ nth p (heap w ++ cells) []
           = or_fallback fallback
               (without_restricted (exercise_db self) (health_conditions user)
                  (nth l (heap w) []))
  end.
Proof.
  intros pool. subst pool.
  pose proof (filtered_pool_run w workout_type user) as H.
  destruct (dict_find (workout_types (exercise_db self)) workout_type) as [l|].
  - destruct H as (p & cells & E & Hc).
    rewrite (bind_ok _ _ _ _ _ E).
    rewrite (bind_ok _ _ (grow w cells) (grow w cells) (nth p (heap w ++ cells) []))
      by reflexivity.
    rewrite Hc.
    destruct (without_restricted (exercise_db self) (health_conditions user) (nth l (heap w) []))
      as [|x xs] eqn:Ex.
    + exists (List.length (heap w ++ cells)), (cells ++ [[fallback]]).
      split.
      * unfold list_new. cbn [heap grow rng clock]. unfold grow. now rewrite app_assoc.
      * rewrite app_assoc, nth_middle. reflexivity.
    + exists p, cells. split; [reflexivity|]. rewrite Hc. reflexivity.
  - now rewrite (bind_raise _ _ _ _ _ H).
Qed.


Lemma sample_run (w : World rt) (p : loc) (k : Z) :
  random_sample rt p k w =
    if (k <? 0) || (Z.of_nat (List.length (nth p (heap w) [])) <? k)
    then (Raise ValueError, w)
    else (Ok (fst (rng_sample rt (rng w) (nth p (heap w) []) (Z.to_nat k))),
          with_rng w (snd (rng_sample rt (rng w) (nth p (heap w) []) (Z.to_nat k)))).
Proof.
  unfold random_sample.
  rewrite (bind_ok _ _ w w (nth p (heap w) [])) by reflexivity.
  destruct ((k <? 0) || (Z.of_nat (List.length (nth p (heap w) [])) <? k)); [reflexivity|].
  destruct (rng_sample rt (rng w) (nth p (heap w) []) (Z.to_nat k)); reflexivity.
Qed.

(** A selection: a pool with its fallback, a requested number, a sample
    of the smaller of that number and the size of the pool. *)
Lemma selection_run (fallback : string) (count : result Z) (w : World rt)
    (workout_type : string) (user : UserProfile) :
  let selection :=
    bind rt
      (bind rt (filtered_pool rt self workout_type user) (fun exercises_pool =>
       bind rt (list_read rt exercises_pool) (fun xs =>
         match xs with
         | [] => list_new rt [fallback]
         | _ :: _ => ret rt exercises_pool
         end)))
      (fun exercises_pool =>
       bind rt (lift rt count) (fun n =>
       bind rt (list_read rt exercises_pool) (fun xs =>
       random_sample rt exercises_pool (Z.min n (Z.of_nat (List.length xs)))))) in
  match dict_find (workout_types (exercise_db self)) workout_type with
  | None => selection w = (Raise (KeyError workout_type), w)
  | Some l =>
      let pool :=
        or_fallback fallback
          (without_restricted (exercise_db self) (health_conditions user)
             (nth l (heap w) [])) in
      exists cells,
        selection w =
          match count with
          | Raise e => (Raise e, grow w cells)
          | Ok n =>
              if n <? 0 then (Raise ValueError, grow w cells)
              else
                let k := Z.to_nat (Z.min n (Z.of_nat (List.length pool))) in
                (Ok (fst (rng_sample rt (rng w) pool k)),
                 with_rng (grow w cells) (snd (rng_sample rt (rng w) pool k)))
          end
  end.
Proof.
  intros selection. subst selection.
  pose proof (pool_with_fallback_run fallback w workout_type user) as H. cbv zeta in H.
  destruct (dict_find (workout_types (exercise_db self)) workout_type) as [l|].
  - destruct H as (p & cells & E & Hc). intros pool. exists cells.
    rewrite (bind_ok _ _ _ _ _ E).
    destruct count as [n|e].
    + rewrite (bind_ok _ _ (grow w cells) (grow w cells) n) by reflexivity.
      rewrite (bind_ok _ _ (grow w cells) (grow w cells) (nth p (heap w ++ cells) []))
        by reflexivity.
      rewrite sample_run. cbn [heap grow rng]. rewrite Hc. fold pool.
      replace ((Z.min n (Z.of_nat (List.length pool)) <? 0)
               || (Z.of_nat (List.length pool) <? Z.min n (Z.of_nat (List.length pool))))
        with (n <? 0); [destruct (n <? 0); reflexivity|].
      destruct (Z.ltb_spec n 0); symmetry.
      * apply orb_true_iff. left. apply Z.ltb_lt. lia.
      * apply orb_false_iff. split; apply Z.ltb_ge; lia.
    + now rewrite (bind_raise _ _ (grow w cells) (grow w cells) e) by reflexivity.
  - now rewrite (bind_raise _ _ _ _ _ H).
Qed.

Lemma challenge_count_bounds (level : level_value) : 2 <= challenge_exercise_count level <= 4.
Proof. destruct level as [[]|]; cbn; lia. Qed.

Lemma daily_challenge_selection_run (w : World rt) (workout_type : string)
    (user : UserProfile) :
  match dict_find (workout_types (exercise_db self)) workout_type with
  | None =>
      daily_challenge_selection rt self workout_type user w
      = (Raise (KeyError workout_type), w)
  | Some l =>
      let pool :=
        or_fallback "Low-Impact Alternative"
          (without_restricted (exercise_db self) (health_conditions user)
             (nth l (heap w) [])) in
      let k := Z.to_nat (Z.min (challenge_exercise_count (fitness_level user))
                               (Z.of_nat (List.length pool))) in
      exists cells,
        daily_challenge_selection rt self workout_type user w
        = (Ok (fst (rng_sample rt (rng w) pool k)),
           with_rng (grow w cells) (snd (rng_sample rt (rng w) pool k)))
  end.
Proof.
  pose proof (selection_run "Low-Impact Alternative"
                (Ok (challenge_exercise_count (fitness_level user))) w workout_type user) as H.
  cbv zeta in H.
  destruct (dict_find (workout_types (exercise_db self)) workout_type) as [l|].
  - intros pool k. destruct H as (cells & E). exists cells.
    pose proof (challenge_count_bounds (fitness_level user)).
    replace (challenge_exercise_count (fitness_level user) <? 0) with false in E
      by (symmetry; apply Z.ltb_ge; lia).
    exact E.
  - exact H.
Qed.

Lemma daily_workout_selection_run (w : World rt) (workout_type : string)
    (user : UserProfile) (progression : Progression) :
  match dict_find (workout_types (exercise_db self)) workout_type with
  | None =>
      daily_workout_selection rt self workout_type user progression w
      = (Raise (KeyError workout_type), w)
  | Some l =>
      let pool :=
        or_fallback (workout_fallback workout_type)
          (without_restricted (exercise_db self) (health_conditions user)
             (nth l (heap w) [])) in
      exists cells,
        daily_workout_selection rt self workout_type user progression w =
          match calculate_num_exercises (fitness_level user) progression with
          | Raise e => (Raise e, grow w cells)
          | Ok n =>
              if n <? 0 then (Raise ValueError, grow w cells)
              else
                let k := Z.to_nat (Z.min n (Z.of_nat (List.length pool))) in
                (Ok (fst (rng_sample rt (rng w) pool k)),
                 with_rng (grow w cells) (snd (rng_sample rt (rng w) pool k)))
          end
  end.
Proof.
  exact (selection_run (workout_fallback workout_type)
           (calculate_num_exercises (fitness_level user) progression) w workout_type user).
Qed.


(** Every list of the catalog is an object of the store of [w]. *)
Definition catalog_allocated (w : World rt) : Prop :=
  forall workout_type l,
    dict_find (workout_types (exercise_db self)) workout_type = Some l ->
    (l < List.length (heap w))%nat.

(** [w'] is [w] after some allocations, with any generator state and any
    clock. *)
Definition later (w w' : World rt) : Prop :=
  exists cells, heap w' = heap w ++ cells.

Lemma later_refl (w : World rt) : later w w.
Proof. exists []. now rewrite app_nil_r. Qed.

Lemma later_trans (w1 w2 w3 : World rt) : later w1 w2 -> later w2 w3 -> later w1 w3.
Proof. intros [a Ha] [b Hb]. exists (a ++ b). now rewrite Hb, Ha, app_assoc. Qed.

Lemma later_grow (w : World rt) (cells : list (list string)) (g : rng_state rt) :
  later w (with_rng (grow w cells) g).
Proof. exists cells. reflexivity. Qed.

Lemma later_with_rng (w : World rt) (g : rng_state rt) : later w (with_rng w g).
Proof. exists []. cbn. now rewrite app_nil_r. Qed.

Lemma later_frame (w w' : World rt) (l : nat) :
  later w w' -> (l < List.length (heap w))%nat -> nth l (heap w') [] = nth l (heap w) [].
Proof. intros [cells H] Hl. rewrite H. now apply app_nth1. Qed.

Ltac step_pure :=
  match goal with
  | |- context [bind rt (lift rt ?r) _ _] =>
      let a := fresh "a" in let e := fresh "e" in
      destruct r as [a|e] eqn:?;
      [ rewrite !(bind_ok (lift rt (Ok a)) _ _ _ a) by reflexivity
      | rewrite !(bind_raise (lift rt (Raise e)) _ _ _ e) by reflexivity ]
  end.

(** The daily challenge of a date depends on the catalog alone: in any
    later world it is the same, and the call only allocates. *)
Lemma daily_challenge_later (user : UserProfile) (date : datetime) (w w' : World rt) :
  catalog_allocated w -> later w w' ->
  fst (generate_daily_challenge rt self user (Some date) w')
  = fst (generate_daily_challenge rt self user (Some date) w)
  /\ later w (snd (generate_daily_challenge rt self user (Some date) w)).
Proof.
  intros Hcat Hlater.
  unfold generate_daily_challenge.
  rewrite !(bind_ok (ret rt date) _ _ _ date) by reflexivity.
  rewrite (bind_ok (random_seed rt _) _ w (with_rng w (rng_seed rt (challenge_seed rt user date))) tt)
    by reflexivity.
  rewrite (bind_ok (random_seed rt _) _ w' (with_rng w' (rng_seed rt (challenge_seed rt user date))) tt)
    by reflexivity.
  destruct (dict_getitem (goal_workout_mapping self) "Weight Loss") as [weight_loss|e].
  2:{ rewrite !(bind_raise (lift rt (Raise e)) _ _ _ e) by reflexivity.
      split; [reflexivity | apply later_with_rng]. }
  rewrite !(bind_ok (lift rt (Ok weight_loss)) _ _ _ weight_loss) by reflexivity.
  cbv zeta.
  set (goal_data := dict_get (goal_workout_mapping self) (goal user) weight_loss).
  set (seed2 := rng_seed rt (challenge_seed_weekday rt user date)).
  rewrite (bind_ok (random_seed rt _) _ (with_rng w _) (with_rng w seed2) tt) by reflexivity.
  rewrite (bind_ok (random_seed rt _) _ (with_rng w' _) (with_rng w' seed2) tt) by reflexivity.
  set (population := dict_keys (workout_split goal_data)).
  set (weights := map snd (workout_split goal_data)).
  assert (Hch : exists r g,
             random_choices rt population weights (with_rng w seed2) = (r, with_rng w g)
             /\ random_choices rt population weights (with_rng w' seed2) = (r, with_rng w' g)).
  { unfold random_choices.
    destruct (negb (Nat.eqb (List.length weights) (List.length population)));
      [exists (Raise ValueError), seed2; split; reflexivity|].
    destruct population; [exists (Raise IndexError), seed2; split; reflexivity|].
    destruct (leb (weights_total weights) (S754_zero false));
      [exists (Raise ValueError), seed2; split; reflexivity|].
    destruct (negb (is_finite (weights_total weights)));
      [exists (Raise ValueError), seed2; split; reflexivity|].
    cbn [rng with_rng heap clock].
    destruct (rng_choices rt seed2 (s :: population) weights) as [x g].
    exists (Ok x), g. split; reflexivity. }
  destruct Hch as (r & g & E1 & E2).
  destruct r as [workout_type|e].
  2:{ rewrite (bind_raise _ _ _ _ _ E1), (bind_raise _ _ _ _ _ E2).
      split; [reflexivity | apply later_with_rng]. }
  rewrite (bind_ok _ _ _ _ _ E1), (bind_ok _ _ _ _ _ E2).
  pose proof (daily_challenge_selection_run (with_rng w g) workout_type user) as S1.
  pose proof (daily_challenge_selection_run (with_rng w' g) workout_type user) as S2.
  destruct (dict_find (workout_types (exercise_db self)) workout_type) as [l|] eqn:El.
  2:{ rewrite (bind_raise _ _ _ _ _ S1), (bind_raise _ _ _ _ _ S2).
      split; [reflexivity | apply later_with_rng]. }
  cbv zeta in S1, S2. destruct S1 as (cells1 & S1). destruct S2 as (cells2 & S2).
  cbn [heap with_rng rng] in S1, S2.
  rewrite (later_frame w w' l Hlater (Hcat _ _ El)) in S2.
  rewrite (bind_ok _ _ _ _ _ S1), (bind_ok _ _ _ _ _ S2).
  match type of S1 with _ = (Ok ?sel, with_rng _ ?g') =>
    set (selected := sel) in *; set (g2 := g') in * end.
  assert (Hl1 : later w (with_rng (grow (with_rng w g) cells1) g2)) by (exists cells1; reflexivity).
  repeat step_pure; (split; [reflexivity | assumption]).
Qed.

End Runs.


Definition category_names : list string := ["Cardio"; "Strength"; "Flexibility"; "HIIT"].

Section Installed.

Context (rt : Runtime) (self : WorkoutPlanner).

(** [self] was built by [WorkoutPlanner()] and the store has only grown
    since. *)
Definition installed (w : World rt) : Prop :=
  exists w0,
    fst (WorkoutPlanner_init rt w0) = Ok self
    /\ later rt (snd (WorkoutPlanner_init rt w0)) w.

Lemma installed_goals (w : World rt) :
  installed w -> goal_workout_mapping self = goal_table.
Proof.
  intros (w0 & E & _). unfold WorkoutPlanner_init, ExerciseDatabase_init in E.
  cbn in E. injection E as <-. reflexivity.
Qed.

Lemma installed_category (w : World rt) (workout_type : string) :
  installed w -> In workout_type category_names ->
  exists l, dict_find (workout_types (exercise_db self)) workout_type = Some l.
Proof.
  intros (w0 & E & _) Hin. unfold WorkoutPlanner_init, ExerciseDatabase_init in E.
  cbn in E. injection E as <-. cbn [exercise_db workout_types].
  unfold category_names in Hin. cbn [In] in Hin.
  destruct Hin as [<-|[<-|[<-|[<-|[]]]]]; eexists; reflexivity.
Qed.

Lemma installed_allocated (w : World rt) : installed w -> catalog_allocated rt self w.
Proof.
  intros (w0 & E & [cells Hl]) wt l Hf.
  unfold WorkoutPlanner_init, ExerciseDatabase_init in E, Hl.
  cbn in E, Hl. injection E as <-. cbn [exercise_db workout_types] in Hf.
  rewrite Hl. rewrite !length_app. cbn [List.length].
  cbn [dict_find] in Hf.
  repeat match type of Hf with
         | (if ?b then _ else _) = _ => destruct b
         end;
    try discriminate; injection Hf as <-; rewrite ?length_app; cbn [List.length]; lia.
Qed.


(** What [random.choices] needs of a policy, and that its categories are
    in the catalog. *)
Definition good_policy (goal_data : GoalData) : bool :=
  let population := dict_keys (workout_split goal_data) in
  let weights := map snd (workout_split goal_data) in
  Nat.eqb (List.length weights) (List.length population)
  && match population with [] => false | _ :: _ => true end
  && negb (leb (weights_total weights) (S754_zero false))
  && is_finite (weights_total weights)
  && forallb (fun c => str_in c category_names) population.

Lemma goal_table_good (g : string) (weight_loss : GoalData) :
  dict_getitem goal_table "Weight Loss" = Ok weight_loss ->
  good_policy (dict_get goal_table g weight_loss) = true.
Proof.
  intros E. injection E as <-.
  unfold dict_get, goal_table. cbn [dict_find].
  repeat match goal with
         | |- context [if ?b then _ else _] => destruct b
         end; vm_compute; reflexivity.
Qed.


Lemma duration_ok (workout_type : string) (level : level_value) :
  exists s D, calculate_duration workout_type level = Ok s
              /\ duration_minutes s = Ok D /\ 0 <= D.
Proof.
  unfold calculate_duration.
  destruct (str_in workout_type ["HIIT"; "Cardio"]); destruct level as [[]|];
    eexists; eexists; (split; [vm_compute; reflexivity|]);
    (split; [vm_compute; reflexivity|]); lia.
Qed.

Lemma difficulty_bounded (user : UserProfile) :
  bounded (-53) 1 (calculate_difficulty_modifier user).
Proof.
  unfold calculate_difficulty_modifier.
  destruct (health_conditions user); destruct (fitness_level user) as [[]|];
    vm_compute; split; discriminate.
Qed.

Lemma float_of_int_ok (n : Z) : Z.abs n < 2 ^ 971 -> float_of_int n = Ok (of_Z n).
Proof.
  intros H. pose proof (of_Z_bounded n 971 ltac:(lia) H) as Hb.
  unfold float_of_int. destruct (of_Z n); try reflexivity; contradiction.
Qed.

Lemma int_truediv_2_ok (n : Z) :
  Z.abs n < 2 ^ 1024 -> exists f c, int_truediv n 2 = Ok f /\ int_of_float f = Ok c.
Proof.
  intros H. destruct (Z.eq_dec n 0) as [->|Hn].
  - eexists; eexists; split; vm_compute; reflexivity.
  - destruct (int_truediv_2_shape n Hn H) as (m & e & E & _).
    rewrite E. eexists; eexists; split; reflexivity.
Qed.

Lemma progression_ok (week : Z) (dm : float) :
  Z.abs (week - 1) < 2 ^ 20 -> bounded (-53) 1 dm ->
  exists p, calculate_progression week dm = Ok p
            /\ bounded (-214) 23 (volume_multiplier p)
            /\ bounded (-214) 23 (intensity_multiplier p).
Proof.
  intros Hw Hdm. unfold calculate_progression.
  assert (H971 : 2 ^ 20 < 2 ^ 971) by (apply Z.pow_lt_mono_r; lia).
  assert (H1024 : 2 ^ 20 < 2 ^ 1024) by (apply Z.pow_lt_mono_r; lia).
  rewrite float_of_int_ok by lia. cbn [rbind].
  destruct (int_truediv_2_ok (week - 1) ltac:(lia)) as (f & c & Ef & Ec).
  rewrite Ef. cbn [rbind]. rewrite Ec. cbn [rbind].
  eexists. split; [reflexivity|]. cbn [volume_multiplier intensity_multiplier].
  pose proof (of_Z_bounded (week - 1) 20 ltac:(lia) Hw) as Hb.
  assert (H1 : bounded (-52) 1 (of_Z 1)) by (vm_compute; split; discriminate).
  assert (H01 : bounded (-56) (-3) f0_1) by (vm_compute; split; discriminate).
  assert (H005 : bounded (-57) (-4) f0_05) by (vm_compute; split; discriminate).
  pose proof (mul_bounded (-56) (-3) (-52) 21 _ _ H01 Hb ltac:(lia) ltac:(lia)) as Hv1.
  pose proof (mul_bounded (-57) (-4) (-52) 21 _ _ H005 Hb ltac:(lia) ltac:(lia)) as Hi1.
  pose proof (add_bounded (-109) 19 _ _
                (bounded_weaken (-52) 1 (-109) 19 _ H1 ltac:(lia) ltac:(lia))
                (bounded_weaken (-56 + -52) (-3 + 21 + 1) (-109) 19 _ Hv1 ltac:(lia) ltac:(lia))
                ltac:(lia) ltac:(lia)) as Hv2.
  pose proof (add_bounded (-109) 19 _ _
                (bounded_weaken (-52) 1 (-109) 19 _ H1 ltac:(lia) ltac:(lia))
                (bounded_weaken (-57 + -52) (-4 + 21 + 1) (-109) 19 _ Hi1 ltac:(lia) ltac:(lia))
                ltac:(lia) ltac:(lia)) as Hi2.
  split.
  - eapply bounded_weaken;
      [exact (mul_bounded (-109 - 52) (19 + 2) (-53) 1 _ _ Hv2 Hdm ltac:(lia) ltac:(lia))|lia|lia].
  - eapply bounded_weaken;
      [exact (mul_bounded (-109 - 52) (19 + 2) (-53) 1 _ _ Hi2 Hdm ltac:(lia) ltac:(lia))|lia|lia].
Qed.

Lemma small_int_mul_ok (n : Z) (x : float) :
  Z.abs n < 2 ^ 4 -> bounded (-214) 23 x -> is_ok (int_of_float (mul (of_Z n) x)).
Proof.
  intros Hn Hx.
  pose proof (of_Z_bounded n 4 ltac:(lia) Hn) as Hb.
  eapply bounded_int_of_float.
  exact (mul_bounded (-52) (4 + 1) (-214) 23 _ _ Hb Hx ltac:(lia) ltac:(lia)).
Qed.

Lemma rmap_ok {A B : Type} (f : A -> result B) (xs : list A) :
  (forall x, In x xs -> is_ok (f x)) -> is_ok (rmap f xs).
Proof.
  induction xs as [|x xs IH]; intros H; [exact I|].
  cbn [rmap]. pose proof (H x (or_introl eq_refl)) as Hx.
  destruct (f x); [|contradiction]. cbn [rbind].
  specialize (IH (fun y Hy => H y (or_intror Hy))).
  destruct (rmap f xs); [exact I | contradiction].
Qed.

Lemma format_exercises_ok (selected : list string) (workout_type : string)
    (p : Progression) (D : Z) :
  bounded (-214) 23 (volume_multiplier p) ->
  bounded (-214) 23 (intensity_multiplier p) ->
  is_ok (format_exercises selected workout_type p D).
Proof.
  intros Hv Hi. unfold format_exercises. apply rmap_ok. intros [i e] Hin.
  unfold format_exercise.
  pose proof (small_int_mul_ok 3 _ ltac:(cbn; lia) Hv) as H3.
  pose proof (small_int_mul_ok 10 _ ltac:(cbn; lia) Hi) as H10.
  pose proof (small_int_mul_ok 6 _ ltac:(cbn; lia) Hv) as H6.
  destruct (String.eqb workout_type "Strength").
  - destruct (int_of_float (mul (of_Z 3) _)); [|contradiction].
    destruct (int_of_float (mul (of_Z 10) _)); [exact I|contradiction].
  - destruct (String.eqb workout_type "HIIT").
    + destruct (int_of_float (mul (of_Z 6) _)); [exact I|contradiction].
    + destruct selected; [destruct Hin|].
      replace (Z.of_nat (List.length (s :: selected)) =? 0) with false; [exact I|].
      symmetry. apply Z.eqb_neq. cbn [List.length]. lia.
Qed.

Lemma week_range (date : datetime) :
  valid date ->
  Z.abs ((days_since_midnight_of date epoch_2025 + 1 - 1) / 7 + 1 - 1) < 2 ^ 20.
Proof.
  unfold valid, days_since_midnight_of, epoch_2025, min_ordinal, max_ordinal.
  cbn [toordinal]. intros [H _].
  replace (toordinal date - 739252 + 1 - 1) with (toordinal date - 739252) by lia.
  pose proof (Z.div_le_mono (-739251) (toordinal date - 739252) 7 ltac:(lia) ltac:(lia)).
  pose proof (Z.div_le_mono (toordinal date - 739252) 2912807 7 ltac:(lia) ltac:(lia)).
  change (-739251 / 7) with (-105608) in *. change (2912807 / 7) with 416115 in *.
  change (2 ^ 20) with 1048576. lia.
Qed.



End Installed.


Section PoolsAndSelections.

Context (rt : Runtime) (self : WorkoutPlanner).

Lemma in_without_restricted (db : ExerciseDatabase) (conditions : list HealthCondition) :
  forall (xs : list string) (e : string),
  In e (without_restricted db conditions xs)
  <-> In e xs
      /\ forall c, In c conditions ->
                   str_in e (restrictions_get (health_restrictions db) c) = false.
Proof.
  unfold without_restricted.
  induction conditions as [|c cs IH]; intros xs e; cbn [fold_left].
  - split; [intros H; split; [assumption | intros c []] | tauto].
  - rewrite IH, filter_In, negb_true_iff. split.
    + intros [[Hin Hc] Hcs]. split; [assumption|]. intros c' [<-|Hc']; auto.
    + intros [Hin H]. split; [split|]; auto using in_eq, in_cons.
Qed.

(** Claim C5. For a category of the catalog and any health conditions,
    the pool of either path holds the exercises of the category that no
    condition of the user excludes and is never empty: when none is left,
    the weekly-plan path puts the single exercise Low-Impact Walking for
    Cardio and Bodyweight Isometric Holds for another category, and the
    daily-challenge path Low-Impact Alternative. The store after the call
    is the store before it followed by new lists: no list of the catalog
    is changed. *)
Theorem C5_pool_never_empty (w : World rt) (workout_type : string) (user : UserProfile) (l : loc) :
  dict_find (workout_types (exercise_db self)) workout_type = Some l ->
  let category_list := nth l (heap w) [] in
  let filtered :=
    without_restricted (exercise_db self) (health_conditions user) category_list in
  (forall e, In e filtered <->
             In e category_list
             /\ forall c, In c (health_conditions user) ->
                  str_in e (restrictions_get (health_restrictions (exercise_db self)) c)
                  = false)
  /\ (exists p w' cells,
        daily_workout_pool rt self workout_type user w = (Ok p, w')
        /\ nth p (heap w') [] <> []
        /\ nth p (heap w') []
           = match filtered with
             | [] => [if String.eqb workout_type "Cardio"
                      then "Low-Impact Walking"
                      else "Bodyweight Isometric Holds"]
             | _ :: _ => filtered
             end
        /\ heap w' = heap w ++ cells)
  /\ (exists p w' cells,
        daily_challenge_pool rt self workout_type user w = (Ok p, w')
        /\ nth p (heap w') [] <> []
        /\ nth p (heap w') []
           = match filtered with
             | [] => ["Low-Impact Alternative"]
             | _ :: _ => filtered
             end
        /\ heap w' = heap w ++ cells).
Proof.
  intros Hl category_list filtered. split; [apply in_without_restricted|].
  split.
  - pose proof (pool_with_fallback_run rt self (workout_fallback workout_type) w workout_type user)
      as H.
    cbv zeta in H. rewrite Hl in H. destruct H as (p & cells & E & Hc).
    exists p, (grow rt w cells), cells. split; [exact E|].
    cbn [heap grow]. fold category_list filtered in Hc. rewrite Hc.
    unfold or_fallback, workout_fallback.
    destruct filtered; repeat split; discriminate.
  - pose proof (pool_with_fallback_run rt self "Low-Impact Alternative" w workout_type user) as H.
    cbv zeta in H. rewrite Hl in H. destruct H as (p & cells & E & Hc).
    exists p, (grow rt w cells), cells. split; [exact E|].
    cbn [heap grow]. fold category_list filtered in Hc. rewrite Hc.
    unfold or_fallback.
    destruct filtered; repeat split; discriminate.
Qed.

(** Claim C3, amended. In the weekly-plan path the requested number is
    the base count of the fitness level (4, 5, 6, and 3 for another value)
    times the volume multiplier, truncated; in the daily-challenge path it
    is the base count of its own table (2, 3, 4, and 2 for another value),
    not multiplied. Either path then samples, without replacement, the
    smaller of that number and the size of the pool. *)
Theorem C3_counts_and_sampling (laws : RuntimeLaws rt) (w : World rt)
    (workout_type : string) (user : UserProfile) (progression : Progression) (l : loc) :
  dict_find (workout_types (exercise_db self)) workout_type = Some l ->
  let filtered :=
    without_restricted (exercise_db self) (health_conditions user) (nth l (heap w) []) in
  let plan_pool := or_fallback (workout_fallback workout_type) filtered in
  let challenge_pool := or_fallback "Low-Impact Alternative" filtered in
  let plan_base :=
    match fitness_level user with
    | Member BEGINNER => 4 | Member INTERMEDIATE => 5 | Member ADVANCED => 6
    | Foreign _ => 3
    end in
  let challenge_base :=
    match fitness_level user with
    | Member BEGINNER => 2 | Member INTERMEDIATE => 3 | Member ADVANCED => 4
    | Foreign _ => 2
    end in
  calculate_num_exercises (fitness_level user) progression
  = int_of_float (mul (of_Z plan_base) (volume_multiplier progression))
  /\ (forall count,
        calculate_num_exercises (fitness_level user) progression = Ok count ->
        0 <= count ->
        exists selected w',
          daily_workout_selection rt self workout_type user progression w
          = (Ok selected, w')
          /\ Z.of_nat (List.length selected)
             = Z.min count (Z.of_nat (List.length plan_pool))
          /\ exists rest, Permutation (selected ++ rest) plan_pool)
  /\ challenge_exercise_count (fitness_level user) = challenge_base
  /\ exists selected w',
       daily_challenge_selection rt self workout_type user w = (Ok selected, w')
       /\ Z.of_nat (List.length selected)
          = Z.min challenge_base (Z.of_nat (List.length challenge_pool))
       /\ exists rest, Permutation (selected ++ rest) challenge_pool.
Proof.
  intros Hl filtered plan_pool challenge_pool plan_base challenge_base.
  split; [unfold calculate_num_exercises, base_exercises;
          destruct (fitness_level user) as [[]|]; reflexivity|].
  split.
  - intros count Hcount Hpos.
    pose proof (daily_workout_selection_run rt self w workout_type user progression) as H.
    rewrite Hl, Hcount in H. cbv zeta in H. destruct H as (cells & E).
    replace (count <? 0) with false in E by (symmetry; apply Z.ltb_ge; lia).
    fold filtered plan_pool in E.
    set (k := Z.to_nat (Z.min count (Z.of_nat (List.length plan_pool)))) in *.
    assert (Hk : (k <= List.length plan_pool)%nat) by (subst k; lia).
    eexists. eexists. split; [exact E|]. split.
    + rewrite (sample_length rt laws _ _ _ Hk). subst k. lia.
    + exact (sample_without_replacement rt laws _ _ _ Hk).
  - assert (Hbase : challenge_exercise_count (fitness_level user) = challenge_base).
    { unfold challenge_exercise_count. destruct (fitness_level user) as [[]|]; reflexivity. }
    split; [exact Hbase|].
    pose proof (daily_challenge_selection_run rt self w workout_type user) as H.
    rewrite Hl in H. cbv zeta in H. destruct H as (cells & E).
    fold filtered challenge_pool in E. rewrite Hbase in E.
    set (k := Z.to_nat (Z.min challenge_base (Z.of_nat (List.length challenge_pool)))) in *.
    assert (Hk : (k <= List.length challenge_pool)%nat) by (subst k; lia).
    assert (0 <= challenge_base)
      by (subst challenge_base; destruct (fitness_level user) as [[]|]; lia).
    eexists. eexists. split; [exact E|]. split.
    + rewrite (sample_length rt laws _ _ _ Hk). subst k. lia.
    + exact (sample_without_replacement rt laws _ _ _ Hk).
Qed.

End PoolsAndSelections.





(** The split the challenge draws its category from: the one of the
    user's goal, the one of Weight Loss for a goal the table does not
    have. *)
Definition challenge_split (user : UserProfile) : list (string * float) :=
  match dict_find goal_table "Weight Loss" with
  | Some weight_loss => workout_split (dict_get goal_table (goal user) weight_loss)
  | None => []
  end.

(** The week of the progression of a challenge (Exercise.py 338-339). *)
Definition challenge_week (date : datetime) : Z :=
  (days_since_midnight_of date epoch_2025 + 1 - 1) / 7 + 1.

(** The draw of [random.choices] after the second seed. *)
Definition challenge_choice (rt : Runtime) (user : UserProfile) (date : datetime)
  : string * rng_state rt :=
  rng_choices rt (rng_seed rt (challenge_seed_weekday rt user date))
    (dict_keys (challenge_split user)) (map snd (challenge_split user)).

Section ChallengeRun.

Context (rt : Runtime) (self : WorkoutPlanner).

Lemma choices_run_explicit (laws : RuntimeLaws rt) (w : World rt) (goal_data : GoalData) :
  good_policy goal_data = true ->
  let population := dict_keys (workout_split goal_data) in
  let weights := map snd (workout_split goal_data) in
  let choice := rng_choices rt (rng w) population weights in
  random_choices rt population weights w = (Ok (fst choice), with_rng rt w (snd choice))
  /\ In (fst choice) population
  /\ In (fst choice) category_names.
Proof.
  unfold good_policy. cbv zeta.
  set (population := dict_keys (workout_split goal_data)).
  set (weights := map snd (workout_split goal_data)).
  intros H. repeat (apply andb_prop in H; destruct H as [H ?]).
  unfold random_choices. rewrite H. cbn [negb].
  pose proof (choices_member rt laws (rng w) population weights) as Hin.
  destruct population as [|c cs]; [discriminate|].
  match goal with Hn : negb _ = true |- _ => apply negb_true_iff in Hn; rewrite Hn end.
  match goal with Hf : is_finite _ = true |- _ => rewrite Hf end. cbn [negb].
  specialize (Hin ltac:(discriminate) ltac:(now apply Nat.eqb_eq)).
  destruct (rng_choices rt (rng w) (c :: cs) weights) as [x g]. cbn [fst snd] in *.
  split; [reflexivity|]. split; [assumption|].
  match goal with Hall : forallb _ _ = true |- _ =>
    rewrite forallb_forall in Hall; specialize (Hall x Hin) end.
  unfold str_in in *. apply existsb_exists in H0 as (y & Hy & Heq).
  apply String.eqb_eq in Heq. now subst.
Qed.

(** The whole of a daily challenge on the planner of the application, for
    a date of the [datetime] range: every step succeeds up to the label
    of the difficulty, which is read last. *)
Lemma daily_challenge_steps (laws : RuntimeLaws rt) (w : World rt) (user : UserProfile)
    (date : datetime) :
  installed rt self w -> valid date ->
  let workout_type := fst (challenge_choice rt user date) in
  exists l cells s D p formatted,
    In workout_type (dict_keys (challenge_split user))
    /\ dict_find (workout_types (exercise_db self)) workout_type = Some l
    /\ let pool :=
         or_fallback "Low-Impact Alternative"
           (without_restricted (exercise_db self) (health_conditions user)
              (nth l (heap w) [])) in
       let k := Z.to_nat (Z.min (challenge_exercise_count (fitness_level user))
                                (Z.of_nat (List.length pool))) in
       let sample := rng_sample rt (snd (challenge_choice rt user date)) pool k in
       calculate_duration workout_type (fitness_level user) = Ok s
       /\ duration_minutes s = Ok D /\ 0 <= D
       /\ calculate_progression (challenge_week date) (calculate_difficulty_modifier user)
          = Ok p
       /\ format_exercises (fst sample) workout_type p D = Ok formatted
       /\ generate_daily_challenge rt self user (Some date) w
          = (match level_dot_value (fitness_level user) with
             | Ok difficulty_label =>
                 Ok {| c_name := (strftime rt "%A" date ++ " " ++ workout_type
                                  ++ " Challenge")%string;
                       c_date := strftime rt "%Y-%m-%d" date;
                       c_day_of_week := strftime rt "%A" date;
                       c_type := workout_type;
                       c_difficulty := difficulty_label;
                       c_exercises := formatted;
                       c_duration := s;
                       c_required_equipment :=
                         get_required_equipment rt self (fst sample) |}
             | Raise e => Raise e
             end,
             with_rng rt (grow rt w cells) (snd sample)).
Proof.
  intros Hinst Hvalid. cbv zeta.
  unfold generate_daily_challenge, challenge_choice, challenge_split.
  rewrite (bind_ok rt (ret rt date) _ _ _ date) by reflexivity.
  rewrite (bind_ok rt (random_seed rt _) _ w
             (with_rng rt w (rng_seed rt (challenge_seed rt user date))) tt) by reflexivity.
  rewrite (installed_goals rt self w Hinst).
  unfold dict_getitem.
  destruct (dict_find goal_table "Weight Loss") as [weight_loss|] eqn:Ewl;
    [|vm_compute in Ewl; discriminate].
  rewrite (bind_ok rt (lift rt (Ok weight_loss)) _ _ _ weight_loss) by reflexivity.
  cbv zeta.
  assert (Hgood : good_policy (dict_get goal_table (goal user) weight_loss) = true).
  { apply goal_table_good. unfold dict_getitem. now rewrite Ewl. }
  set (goal_data := dict_get goal_table (goal user) weight_loss) in *.
  set (seed2 := rng_seed rt (challenge_seed_weekday rt user date)).
  rewrite (bind_ok rt (random_seed rt _) _ (with_rng rt w _) (with_rng rt w seed2) tt)
    by reflexivity.
  destruct (choices_run_explicit laws (with_rng rt w seed2) goal_data Hgood)
    as (Ech & Hkey & Hwt).
  cbn [rng with_rng] in Ech, Hkey, Hwt.
  set (choice := rng_choices rt seed2 (dict_keys (workout_split goal_data))
                   (map snd (workout_split goal_data))) in *.
  rewrite (bind_ok rt _ _ _ _ _ Ech).
  destruct (installed_category rt self w (fst choice) Hinst Hwt) as (l & El).
  pose proof (daily_challenge_selection_run rt self
                (with_rng rt (with_rng rt w seed2) (snd choice)) (fst choice) user) as Hsel.
  rewrite El in Hsel. cbv zeta in Hsel. destruct Hsel as (cells & Hsel).
  cbn [heap rng with_rng] in Hsel.
  rewrite (bind_ok rt _ _ _ _ _ Hsel).
  destruct (duration_ok (fst choice) (fitness_level user)) as (s & D & Es & ED & HD).
  rewrite Es. rewrite (bind_ok rt (lift rt (Ok s)) _ _ _ s) by reflexivity.
  rewrite ED. rewrite (bind_ok rt (lift rt (Ok D)) _ _ _ D) by reflexivity.
  destruct (progression_ok _ _ (week_range date Hvalid) (difficulty_bounded user))
    as (p & Ep & Hv & Hi).
  rewrite Ep. rewrite (bind_ok rt (lift rt (Ok p)) _ _ _ p) by reflexivity.
  match type of Hsel with _ = (Ok ?sel, _) => set (selected := sel) in * end.
  pose proof (format_exercises_ok selected (fst choice) p D Hv Hi) as Hfmt.
  destruct (format_exercises selected (fst choice) p D) as [formatted|] eqn:Ef;
    [|contradiction].
  rewrite (bind_ok rt (lift rt (Ok formatted)) _ _ _ formatted) by reflexivity.
  exists l, cells, s, D, p, formatted.
  split; [assumption|]. split; [assumption|].
  split; [reflexivity|]. split; [assumption|]. split; [assumption|]. split; [exact Ep|].
  split; [exact Ef|].
  destruct (level_dot_value (fitness_level user)) as [label|e].
  - now rewrite (bind_ok rt (lift rt (Ok label)) _ _ _ label) by reflexivity.
  - now rewrite (bind_raise rt (lift rt (Raise e)) _ _ _ e) by reflexivity.
Qed.

(** The same for a profile with a member of [FitnessLevel]: the challenge
    is produced. *)
Lemma daily_challenge_run (laws : RuntimeLaws rt) (w : World rt) (user : UserProfile)
    (date : datetime) (level : FitnessLevel) :
  installed rt self w -> fitness_level user = Member level -> valid date ->
  let workout_type := fst (challenge_choice rt user date) in
  exists l cells s D p formatted,
    In workout_type (dict_keys (challenge_split user))
    /\ dict_find (workout_types (exercise_db self)) workout_type = Some l
    /\ let pool :=
         or_fallback "Low-Impact Alternative"
           (without_restricted (exercise_db self) (health_conditions user)
              (nth l (heap w) [])) in
       let k := Z.to_nat (Z.min (challenge_exercise_count (fitness_level user))
                                (Z.of_nat (List.length pool))) in
       let sample := rng_sample rt (snd (challenge_choice rt user date)) pool k in
       calculate_duration workout_type (fitness_level user) = Ok s
       /\ duration_minutes s = Ok D /\ 0 <= D
       /\ calculate_progression (challenge_week date) (calculate_difficulty_modifier user)
          = Ok p
       /\ format_exercises (fst sample) workout_type p D = Ok formatted
       /\ generate_daily_challenge rt self user (Some date) w
          = (Ok {| c_name := (strftime rt "%A" date ++ " " ++ workout_type
                              ++ " Challenge")%string;
                   c_date := strftime rt "%Y-%m-%d" date;
                   c_day_of_week := strftime rt "%A" date;
                   c_type := workout_type;
                   c_difficulty := FitnessLevel_value level;
                   c_exercises := formatted;
                   c_duration := s;
                   c_required_equipment := get_required_equipment rt self (fst sample) |},
             with_rng rt (grow rt w cells) (snd sample)).
Proof.
  intros Hinst Hlevel Hvalid. cbv zeta.
  destruct (daily_challenge_steps laws w user date Hinst Hvalid)
    as (l & cells & s & D & p & formatted & H1 & H2 & H3 & H4 & H5 & H6 & H7 & Erun).
  exists l, cells, s, D, p, formatted.
  replace (level_dot_value (fitness_level user)) with (Ok (FitnessLevel_value level))
    in Erun by (now rewrite Hlevel).
  repeat (split; [assumption|]). exact Erun.
Qed.

End ChallengeRun.

Section Assemblers.

Context (rt : Runtime) (self : WorkoutPlanner).

Lemma installed_later (w w' : World rt) :
  installed rt self w -> later rt w w' -> installed rt self w'.
Proof.
  intros (w0 & E & H) H'. exists w0. split; [assumption|].
  eapply later_trans; eassumption.
Qed.









End Assemblers.


(** A result that is not a division by zero. *)
Definition no_zde {A : Type} (r : result A) : Prop := r <> Raise ZeroDivisionError.

Lemma rbind_no_zde {A B : Type} (r : result A) (k : A -> result B) :
  no_zde r -> (forall a, no_zde (k a)) -> no_zde (rbind r k).
Proof.
  unfold no_zde. intros Hr Hk. destruct r as [a|e]; cbn [rbind]; [apply Hk|].
  intros E. apply Hr. now injection E as ->.
Qed.

Lemma rmap_no_zde {A B : Type} (f : A -> result B) (xs : list A) :
  (forall x, In x xs -> no_zde (f x)) -> no_zde (rmap f xs).
Proof.
  induction xs as [|x xs IH]; intros H; [discriminate|].
  cbn [rmap]. apply rbind_no_zde; [apply H; now left|]. intros y.
  apply rbind_no_zde; [apply IH; intros z Hz; apply H; now right|]. discriminate.
Qed.

Lemma int_of_float_no_zde (x : float) : no_zde (int_of_float x).
Proof. destruct x; discriminate. Qed.

Lemma float_of_int_no_zde (n : Z) : no_zde (float_of_int n).
Proof. unfold float_of_int. destruct (of_Z n); discriminate. Qed.

Lemma int_truediv_2_no_zde (n : Z) : no_zde (int_truediv n 2).
Proof.
  unfold int_truediv. change (2 =? 0) with false. cbv iota.
  destruct (n =? 0); [discriminate|].
  destruct (SFdiv_core_binary prec emax (Z.abs n) 0 (Z.abs 2) 0) as [[q e] l].
  destruct (binary_round_aux prec emax _ q e l); discriminate.
Qed.

Lemma calculate_progression_no_zde (week : Z) (dm : float) :
  no_zde (calculate_progression week dm).
Proof.
  unfold calculate_progression.
  repeat (apply rbind_no_zde;
          [first [apply float_of_int_no_zde | apply int_truediv_2_no_zde
                 | apply int_of_float_no_zde] | intros ?]).
  discriminate.
Qed.

Lemma dict_getitem_no_zde {V : Type} (d : list (string * V)) (k : string) :
  no_zde (dict_getitem d k).
Proof. unfold dict_getitem. destruct (dict_find d k); discriminate. Qed.

Lemma calculate_duration_no_zde (workout_type : string) (level : level_value) :
  no_zde (calculate_duration workout_type level).
Proof.
  unfold calculate_duration. destruct (str_in _ _); [|discriminate].
  apply rbind_no_zde; [apply int_of_float_no_zde | discriminate].
Qed.

Lemma duration_minutes_no_zde (s : string) : no_zde (duration_minutes s).
Proof.
  unfold duration_minutes, int_of_str. destruct (split_ws s); [discriminate|].
  destruct (NilZero.int_of_string _); discriminate.
Qed.

Lemma in_enumerate_from {A : Type} (xs : list A) :
  forall start i x, In (i, x) (enumerate_from start xs) -> xs <> [].
Proof. destruct xs; intros start i x H; [destruct H | discriminate]. Qed.

(** Every call of [format_exercise] that the formatting loop makes is for
    one of the selected exercises, so their number is at least 1 and the
    call does not divide by zero. *)
Lemma format_call_safe (selected : list string) (workout_type : string)
    (p : Progression) (D i : Z) (e : string) :
  In (i, e) (enumerate selected) ->
  1 <= Z.of_nat (List.length selected)
  /\ no_zde (format_exercise e workout_type p i (Z.of_nat (List.length selected)) D).
Proof.
  intros Hin. apply in_enumerate_from in Hin.
  assert (HN : 1 <= Z.of_nat (List.length selected)).
  { destruct selected; [contradiction|]. cbn [List.length]. lia. }
  split; [assumption|]. unfold format_exercise.
  destruct (String.eqb workout_type "Strength").
  - apply rbind_no_zde; [apply int_of_float_no_zde|]. intros ?.
    apply rbind_no_zde; [apply int_of_float_no_zde|]. discriminate.
  - destruct (String.eqb workout_type "HIIT").
    + apply rbind_no_zde; [apply int_of_float_no_zde|]. discriminate.
    + replace (Z.of_nat (List.length selected) =? 0) with false
        by (symmetry; apply Z.eqb_neq; lia).
      discriminate.
Qed.

Lemma format_exercises_no_zde (selected : list string) (workout_type : string)
    (p : Progression) (D : Z) :
  no_zde (format_exercises selected workout_type p D).
Proof.
  unfold format_exercises. apply rmap_no_zde. intros [i e] Hin.
  now apply format_call_safe.
Qed.

Section Never.

Context (rt : Runtime) (self : WorkoutPlanner).

(** A computation that never raises [ZeroDivisionError]. *)
Definition never_zde {A : Type} (m : M rt A) : Prop := forall w, no_zde (fst (m w)).

Lemma never_bind {A B : Type} (m : M rt A) (k : A -> M rt B) :
  never_zde m -> (forall a, never_zde (k a)) -> never_zde (bind rt m k).
Proof.
  intros Hm Hk w. unfold bind. specialize (Hm w).
  destruct (m w) as [[a|e] w']; [apply Hk|].
  cbn [fst] in *. intros E. apply Hm. now injection E as ->.
Qed.

Lemma never_lift {A : Type} (r : result A) : no_zde r -> never_zde (lift rt r).
Proof. intros H w. exact H. Qed.

Lemma never_ret {A : Type} (a : A) : never_zde (ret rt a).
Proof. intros w. discriminate. Qed.

Lemma never_mapM {A B : Type} (f : A -> M rt B) (xs : list A) :
  (forall x, never_zde (f x)) -> never_zde (mapM rt f xs).
Proof.
  intros H. induction xs as [|x xs IH]; cbn [mapM]; [apply never_ret|].
  apply never_bind; [apply H|]. intros y. apply never_bind; [apply IH|].
  intros ys. apply never_ret.
Qed.

Lemma never_foldM {A B : Type} (f : A -> B -> M rt A) (xs : list B) :
  (forall a x, never_zde (f a x)) -> forall a, never_zde (foldM rt f a xs).
Proof.
  intros H. induction xs as [|x xs IH]; intros a; cbn [foldM]; [apply never_ret|].
  apply never_bind; [apply H | apply IH].
Qed.

Lemma never_list_new (xs : list string) : never_zde (list_new rt xs).
Proof. intros w. discriminate. Qed.

Lemma never_list_read (l : loc) : never_zde (list_read rt l).
Proof. intros w. discriminate. Qed.

Lemma never_random_sample (p : loc) (k : Z) : never_zde (random_sample rt p k).
Proof.
  unfold random_sample. apply never_bind; [apply never_list_read|]. intros xs.
  destruct (_ || _); intros w; [discriminate|].
  destruct (rng_sample rt (rng w) xs (Z.to_nat k)). discriminate.
Qed.

Lemma never_random_choices (population : list string) (weights : list float) :
  never_zde (random_choices rt population weights).
Proof.
  unfold random_choices.
  destruct (negb _); [intros w; discriminate|].
  destruct population; [intros w; discriminate|].
  destruct (leb _ _); [intros w; discriminate|].
  destruct (negb _); intros w; [discriminate|].
  destruct (rng_choices rt (rng w) (s :: population) weights). discriminate.
Qed.

Lemma never_pool (fallback : string) (workout_type : string) (user : UserProfile) :
  never_zde
    (bind rt (filtered_pool rt self workout_type user) (fun exercises_pool =>
     bind rt (list_read rt exercises_pool) (fun xs =>
       match xs with
       | [] => list_new rt [fallback]
       | _ :: _ => ret rt exercises_pool
       end))).
Proof.
  apply never_bind.
  - unfold filtered_pool. apply never_bind; [apply never_lift, dict_getitem_no_zde|].
    intros l. apply never_bind.
    + unfold list_copy. apply never_bind; [apply never_list_read|]. intros xs.
      apply never_list_new.
    + intros p. apply never_foldM. intros a c. unfold list_without.
      apply never_bind; [apply never_list_read|]. intros xs. apply never_list_new.
  - intros p. apply never_bind; [apply never_list_read|].
    intros [|x xs]; [apply never_list_new | apply never_ret].
Qed.

Lemma never_daily_workout (workout_type intensity : string) (user : UserProfile)
    (p : Progression) :
  never_zde (generate_daily_workout rt self workout_type intensity user p).
Proof.
  unfold generate_daily_workout, daily_workout_selection.
  apply never_bind.
  - apply never_bind; [apply never_pool|]. intros pool.
    apply never_bind; [apply never_lift; unfold calculate_num_exercises;
                       apply int_of_float_no_zde|].
    intros n. apply never_bind; [apply never_list_read|]. intros xs.
    apply never_random_sample.
  - intros selected.
    apply never_bind; [apply never_lift, calculate_duration_no_zde|]. intros s.
    apply never_bind; [apply never_lift, duration_minutes_no_zde|]. intros D.
    apply never_bind; [apply never_lift, format_exercises_no_zde|]. intros es.
    apply never_ret.
Qed.

Lemma never_workout_plan (user : UserProfile) (weeks : Z) :
  never_zde (generate_workout_plan rt self user weeks).
Proof.
  unfold generate_workout_plan.
  apply never_bind; [apply never_lift, dict_getitem_no_zde|]. intros goal_data.
  apply never_bind; [intros w; discriminate|]. intros start.
  apply never_bind; [|intros ?; apply never_ret].
  apply never_mapM. intros week.
  apply never_bind; [apply never_lift, calculate_progression_no_zde|]. intros p.
  apply never_bind; [|intros ?; apply never_ret].
  apply never_mapM. intros _.
  apply never_bind.
  - unfold select_workout_type. apply never_bind.
    + intros w. unfold random_random. destruct (rng_random rt (rng w)). discriminate.
    + intros r. apply never_lift. unfold select_for.
      destruct (select_loop _ _ _); [discriminate|].
      destruct (dict_keys _); discriminate.
  - intros wt. apply never_bind; [apply never_lift, dict_getitem_no_zde|].
    intros intensity. apply never_daily_workout.
Qed.

Lemma never_daily_challenge (user : UserProfile) (specific_date : option datetime) :
  never_zde (generate_daily_challenge rt self user specific_date).
Proof.
  unfold generate_daily_challenge, daily_challenge_selection.
  apply never_bind; [destruct specific_date; intros w; discriminate|]. intros date.
  apply never_bind; [intros w; discriminate|]. intros _.
  apply never_bind; [apply never_lift, dict_getitem_no_zde|]. intros weight_loss.
  cbv zeta.
  apply never_bind; [intros w; discriminate|]. intros _.
  apply never_bind; [apply never_random_choices|]. intros wt.
  apply never_bind.
  - apply never_bind; [apply never_pool|]. intros pool.
    apply never_bind; [apply never_list_read|]. intros xs.
    apply never_random_sample.
  - intros selected.
    apply never_bind; [apply never_lift, calculate_duration_no_zde|]. intros s.
    apply never_bind; [apply never_lift, duration_minutes_no_zde|]. intros D.
    apply never_bind; [apply never_lift, calculate_progression_no_zde|]. intros p.
    apply never_bind; [apply never_lift, format_exercises_no_zde|]. intros es.
    apply never_bind; [|intros ?; apply never_ret].
    apply never_lift. unfold level_dot_value. destruct (fitness_level user); discriminate.
Qed.

End Never.


Lemma difficulty_pos (user : UserProfile) : pos_ge 0 (calculate_difficulty_modifier user).
Proof.
  unfold calculate_difficulty_modifier.
  destruct (health_conditions user); destruct (fitness_level user) as [[]|];
    vm_compute; discriminate.
Qed.

Lemma base_exercises_float (level : level_value) :
  bounded (-52) 5 (of_Z (base_exercises level)) /\ pos_ge 2 (of_Z (base_exercises level)).
Proof. destruct level as [[]|]; vm_compute; repeat split; discriminate. Qed.

(** In a plan, the requested number of exercises of a day is at least 1. *)
Lemma plan_count_positive (user : UserProfile) (week : Z) :
  1 <= week <= 2 ^ 20 ->
  exists p count,
    calculate_progression week (calculate_difficulty_modifier user) = Ok p
    /\ calculate_num_exercises (fitness_level user) p = Ok count
    /\ 1 <= count.
Proof.
  intros Hw.
  assert (H971 : 2 ^ 20 < 2 ^ 971) by (apply Z.pow_lt_mono_r; lia).
  assert (H1024 : 2 ^ 20 < 2 ^ 1024) by (apply Z.pow_lt_mono_r; lia).
  unfold calculate_progression.
  rewrite float_of_int_ok by lia. cbn [rbind].
  destruct (int_truediv_2_ok (week - 1) ltac:(lia)) as (f & c & Ef & Ec).
  rewrite Ef. cbn [rbind]. rewrite Ec. cbn [rbind].
  eexists. 
  set (dm := calculate_difficulty_modifier user).
  set (w := of_Z (week - 1)).
  assert (Hb : bounded (-52) 21 w) by (apply (of_Z_bounded (week - 1) 20); lia).
  assert (Hnw : nonneg w) by (apply of_Z_nonneg; lia).
  assert (H1 : bounded (-52) 1 (of_Z 1)) by (vm_compute; split; discriminate).
  assert (P1 : pos_ge 1 (of_Z 1)) by (vm_compute; discriminate).
  assert (H01 : bounded (-56) (-3) f0_1) by (vm_compute; split; discriminate).
  assert (N01 : nonneg f0_1) by exact I.
  pose proof (mul_bounded (-56) (-3) (-52) 21 _ _ H01 Hb ltac:(lia) ltac:(lia)) as Ht.
  pose proof (mul_nonneg (-56) (-3) (-52) 21 _ _ H01 Hb N01 Hnw ltac:(lia) ltac:(lia)) as Nt.
  pose proof (bounded_weaken (-52) 1 (-109) 19 _ H1 ltac:(lia) ltac:(lia)) as H1'.
  pose proof (bounded_weaken (-56 + -52) (-3 + 21 + 1) (-109) 19 _ Ht ltac:(lia) ltac:(lia)) as Ht'.
  pose proof (add_bounded (-109) 19 _ _ H1' Ht' ltac:(lia) ltac:(lia)) as Hv0.
  pose proof (add_pos_ge (-109) 19 1 _ _ H1' Ht' P1 Nt ltac:(lia) ltac:(lia)) as Pv0.
  pose proof (difficulty_bounded user) as Hdm. pose proof (difficulty_pos user) as Pdm.
  fold dm in Hdm, Pdm.
  pose proof (mul_bounded (-109 - 52) (19 + 2) (-53) 1 _ _ Hv0 Hdm ltac:(lia) ltac:(lia)) as Hvol.
  pose proof (mul_pos_ge (-109 - 52) (19 + 2) (-53) 1 1 0 _ _ Hv0 Hdm Pv0 Pdm
                ltac:(lia) ltac:(lia)) as Pvol.
  destruct (base_exercises_float (fitness_level user)) as [Hbase Pbase].
  pose proof (mul_pos_ge (-52) 5 (-109 - 52 + -53) (19 + 2 + 1 + 1) 2 (1 + 0 - 1) _ _
                Hbase Hvol Pbase Pvol ltac:(lia) ltac:(lia)) as Pcount.
  destruct (pos_ge_int_of_float (2 + (1 + 0 - 1) - 1) _ ltac:(lia) Pcount) as (count & Ecount & Hcount).
  exists count. split; [reflexivity|]. split; [exact Ecount|].
  change (2 ^ (2 + (1 + 0 - 1) - 1 - 1)) with 1 in Hcount. exact Hcount.
Qed.

Section Safety.

Context (rt : Runtime) (self : WorkoutPlanner).

Lemma or_fallback_length (fallback : string) (xs : list string) :
  (1 <= List.length (or_fallback fallback xs))%nat.
Proof. destruct xs; cbn; lia. Qed.

(** Claim C10. Every call of [format_exercise] that the formatting loop
    makes has a number of exercises of at least 1 and does not divide by
    zero; [generate_workout_plan] and [generate_daily_challenge] never
    raise [ZeroDivisionError]; the daily challenge selects at least one
    exercise, and so does a day of a plan in weeks 1 to 2^20. *)
Theorem C10_no_division_by_zero (laws : RuntimeLaws rt) :
  (forall selected workout_type p D i e,
      In (i, e) (enumerate selected) ->
      1 <= Z.of_nat (List.length selected)
      /\ format_exercise e workout_type p i (Z.of_nat (List.length selected)) D
         <> Raise ZeroDivisionError)
  /\ (forall selected workout_type p D,
        format_exercises selected workout_type p D <> Raise ZeroDivisionError)
  /\ (forall w user weeks,
        fst (generate_workout_plan rt self user weeks w) <> Raise ZeroDivisionError)
  /\ (forall w user specific_date,
        fst (generate_daily_challenge rt self user specific_date w)
        <> Raise ZeroDivisionError)
  /\ (forall w workout_type user l,
        dict_find (workout_types (exercise_db self)) workout_type = Some l ->
        exists selected w',
          daily_challenge_selection rt self workout_type user w = (Ok selected, w')
          /\ (1 <= List.length selected)%nat)
  /\ (forall w workout_type user week l,
        dict_find (workout_types (exercise_db self)) workout_type = Some l ->
        1 <= week <= 2 ^ 20 ->
        exists p selected w',
          calculate_progression week (calculate_difficulty_modifier user) = Ok p
          /\ daily_workout_selection rt self workout_type user p w = (Ok selected, w')
          /\ (1 <= List.length selected)%nat).
Proof.
  split; [intros; now apply format_call_safe|].
  split; [intros; apply format_exercises_no_zde|].
  split; [intros; apply never_workout_plan|].
  split; [intros; apply never_daily_challenge|].
  split.
  - intros w wt user l Hl.
    pose proof (daily_challenge_selection_run rt self w wt user) as H.
    rewrite Hl in H. cbv zeta in H. destruct H as (cells & E).
    eexists. eexists. split; [exact E|].
    pose proof (challenge_count_bounds (fitness_level user)).
    set (pool := or_fallback _ _) in *.
    pose proof (or_fallback_length "Low-Impact Alternative"
                  (without_restricted (exercise_db self) (health_conditions user)
                     (nth l (heap w) []))) as Hp.
    fold pool in Hp.
    rewrite (sample_length rt laws); lia.
  - intros w wt user week l Hl Hweek.
    destruct (plan_count_positive user week Hweek) as (p & count & Ep & Ec & Hc).
    pose proof (daily_workout_selection_run rt self w wt user p) as H.
    rewrite Hl, Ec in H. cbv zeta in H. destruct H as (cells & E).
    replace (count <? 0) with false in E by (symmetry; apply Z.ltb_ge; lia).
    exists p. eexists. eexists. split; [exact Ep|]. split; [exact E|].
    set (pool := or_fallback _ _) in *.
    pose proof (or_fallback_length (workout_fallback wt)
                  (without_restricted (exercise_db self) (health_conditions user)
                     (nth l (heap w) []))) as Hp.
    fold pool in Hp.
    rewrite (sample_length rt laws); lia.
Qed.

End Safety.


(* ------------------------------------------------------------------ *)
(** ** The engine on the sample runtime *)

Lemma rotate_perm (g : Z) (xs : list string) : Permutation (Sample.rotate g xs) xs.
Proof.
  unfold Sample.rotate.
  set (r := Z.to_nat (g mod Z.of_nat (List.length xs))).
  rewrite Permutation_app_comm. now rewrite firstn_skipn.
Qed.

Lemma sample_laws : RuntimeLaws Sample.runtime.
Proof.
  constructor; cbn [rng_sample rng_choices Sample.runtime fst].
  - intros g population k Hk. apply firstn_length_le.
    now rewrite (Permutation_length (rotate_perm g population)).
  - intros g population k Hk. exists (skipn k (Sample.rotate g population)).
    rewrite firstn_skipn. apply rotate_perm.
  - intros g population weights Hne _.
    apply (Permutation_in _ (rotate_perm g population)).
    destruct (Sample.rotate g population) as [|x xs] eqn:E.
    + apply (f_equal (@List.length _)) in E.
      rewrite (Permutation_length (rotate_perm g population)) in E.
      destruct population; [contradiction | discriminate].
    + now left.
Qed.

Lemma sample_installed : installed Sample.runtime Sample.planner Sample.world.
Proof.
  exists Sample.boot. split; [reflexivity|]. apply later_refl.
Qed.

(** Claim C1. Two calls of [generate_daily_challenge] with the same
    profile and the same date return the same result, whatever the state
    of the generator and the clock at each call and whatever was allocated
    in between: both seeds are functions of the profile and the date, and
    the call changes no list of the catalog. *)
Theorem C1_daily_challenge_deterministic (rt : Runtime) (self : WorkoutPlanner)
    (user : UserProfile) (date : datetime) (w w1 w2 : World rt) :
  catalog_allocated rt self w -> later rt w w1 -> later rt w w2 ->
  fst (generate_daily_challenge rt self user (Some date) w1)
  = fst (generate_daily_challenge rt self user (Some date) w2)
  /\ later rt w (snd (generate_daily_challenge rt self user (Some date) w1)).
Proof.
  intros Hcat H1 H2.
  destruct (daily_challenge_later rt self user date w w1 Hcat H1) as [E1 _].
  destruct (daily_challenge_later rt self user date w w2 Hcat H2) as [E2 _].
  split; [congruence|].
  assert (Hcat1 : catalog_allocated rt self w1).
  { intros wt l Hl. destruct H1 as [cells Hc]. rewrite Hc, length_app.
    specialize (Hcat wt l Hl). lia. }
  destruct (daily_challenge_later rt self user date w1 w1 Hcat1 (later_refl rt w1)) as [_ L].
  exact (later_trans rt _ _ _ H1 L).
Qed.

Definition another_world : World Sample.runtime :=
  let w1 := snd (generate_daily_challenge Sample.runtime Sample.planner
                   (Sample.user (Member INTERMEDIATE) [KNEE_PAIN] "Endurance")
                   (Some (mk_datetime 739300 0)) Sample.world) in
  @mk_World Sample.runtime (heap w1) 987654321 (mk_datetime 739999 5000).

Lemma C1_witness :
  catalog_allocated Sample.runtime Sample.planner Sample.world
  /\ later Sample.runtime Sample.world Sample.world
  /\ later Sample.runtime Sample.world another_world
  /\ fst (generate_daily_challenge Sample.runtime Sample.planner
            (Sample.user (Member INTERMEDIATE) [KNEE_PAIN] "Endurance")
            (Some (mk_datetime 739300 0)) Sample.world)
     = fst (generate_daily_challenge Sample.runtime Sample.planner
              (Sample.user (Member INTERMEDIATE) [KNEE_PAIN] "Endurance")
              (Some (mk_datetime 739300 0)) another_world).
Proof.
  assert (Ha : catalog_allocated Sample.runtime Sample.planner Sample.world)
    by exact (installed_allocated _ _ _ sample_installed).
  assert (Hl : later Sample.runtime Sample.world another_world)
    by (eexists; vm_compute; reflexivity).
  split; [exact Ha|]. split; [apply later_refl|]. split; [exact Hl|].
  exact (proj1 (C1_daily_challenge_deterministic Sample.runtime Sample.planner
                  (Sample.user (Member INTERMEDIATE) [KNEE_PAIN] "Endurance")
                  (mk_datetime 739300 0) Sample.world Sample.world another_world
                  Ha (later_refl _ _) Hl)).
Defined.

Definition unit_progression : Progression := mk_Progression f1_0 f1_0 1.

Lemma C2_witness :
  "Flexibility" <> "Strength" /\ "Flexibility" <> "HIIT"
  /\ ["Yoga"; "Pilates"; "Foam Rolling"] <> [] /\ 0 <= 50
  /\ format_exercises ["Yoga"; "Pilates"; "Foam Rolling"] "Flexibility" unit_progression 50
     = Ok [TimedEntry "Yoga" "17 minutes"; TimedEntry "Pilates" "17 minutes";
           TimedEntry "Foam Rolling" "16 minutes"]
  /\ 17 + 17 + 16 = 50.
Proof.
  assert (H1 : "Flexibility" <> "Strength") by discriminate.
  assert (H2 : "Flexibility" <> "HIIT") by discriminate.
  assert (H3 : ["Yoga"; "Pilates"; "Foam Rolling"] <> []) by discriminate.
  assert (H4 : 0 <= 50) by lia.
  repeat (split; [assumption|]).
  destruct (C2_timed_durations_sum ["Yoga"; "Pilates"; "Foam Rolling"] "Flexibility"
              unit_progression 50 H1 H2 H3 H4) as [E S].
  split; [exact E | reflexivity].
Defined.

Lemma C3_witness :
  RuntimeLaws Sample.runtime
  /\ dict_find (workout_types (exercise_db Sample.planner)) "Cardio" = Some 0%nat
  /\ calculate_num_exercises (Member INTERMEDIATE) unit_progression = Ok 5
  /\ (exists selected w',
        daily_workout_selection Sample.runtime Sample.planner "Cardio"
          (Sample.user (Member INTERMEDIATE) [KNEE_PAIN] "Endurance") unit_progression
          Sample.world = (Ok selected, w')
        /\ Z.of_nat (List.length selected) = 5)
  /\ exists selected w',
       daily_challenge_selection Sample.runtime Sample.planner "Cardio"
         (Sample.user (Member INTERMEDIATE) [KNEE_PAIN] "Endurance") Sample.world
       = (Ok selected, w')
       /\ Z.of_nat (List.length selected) = 3.
Proof.
  assert (Hf : dict_find (workout_types (exercise_db Sample.planner)) "Cardio" = Some 0%nat)
    by reflexivity.
  split; [exact sample_laws|]. split; [exact Hf|].
  destruct (C3_counts_and_sampling Sample.runtime Sample.planner sample_laws Sample.world
              "Cardio" (Sample.user (Member INTERMEDIATE) [KNEE_PAIN] "Endurance")
              unit_progression 0%nat Hf) as (Hn & Hplan & _ & Hch).
  split; [reflexivity|]. split.
  - destruct (Hplan 5 eq_refl ltac:(lia)) as (sel & w' & E & Hlen & _).
    exists sel, w'. split; [exact E | exact Hlen].
  - destruct Hch as (sel & w' & E & Hlen & _).
    exists sel, w'. split; [exact E | exact Hlen].
Defined.


Lemma valid_739300 : valid (mk_datetime 739300 0).
Proof. unfold valid, min_ordinal, max_ordinal. cbn. lia. Qed.




Lemma C5_witness :
  dict_find (workout_types (exercise_db Sample.planner)) "Cardio" = Some 0%nat
  /\ exists p w' cells,
       daily_workout_pool Sample.runtime Sample.planner "Cardio"
         (Sample.user (Member BEGINNER) [KNEE_PAIN] "Endurance") Sample.world = (Ok p, w')
       /\ nth p (heap w') []
          = ["Treadmill"; "Cycling"; "Swimming"; "Rowing"; "Elliptical"; "Running";
             "Boxing"; "Kickboxing"; "Dancing"; "High Knees"]
       /\ heap w' = heap Sample.world ++ cells.
Proof.
  assert (Hf : dict_find (workout_types (exercise_db Sample.planner)) "Cardio" = Some 0%nat)
    by reflexivity.
  split; [exact Hf|].
  destruct (C5_pool_never_empty Sample.runtime Sample.planner Sample.world "Cardio"
              (Sample.user (Member BEGINNER) [KNEE_PAIN] "Endurance") 0%nat Hf)
    as (_ & (p & w' & cells & E & _ & Hc & Hh) & _).
  exists p, w', cells. split; [exact E|]. split; [exact Hc | exact Hh].
Defined.

Lemma C6_witness :
  [("Cardio", f0_5); ("Strength", f0_3); ("HIIT", f0_2)] <> []
  /\ fst (select_workout_type Sample.runtime
            [("Cardio", f0_5); ("Strength", f0_3); ("HIIT", f0_2)] Sample.world)
     = Ok "Cardio".
Proof.
  assert (H : [("Cardio", f0_5); ("Strength", f0_3); ("HIIT", f0_2)] <> []) by discriminate.
  split; [exact H|].
  exact (f_equal fst (C6_select_workout_type Sample.runtime Sample.world _ H)).
Defined.

Lemma le_3_big : 3 <= 2 ^ 1024 - 2 ^ 970.
Proof. apply Z.leb_le. vm_compute. reflexivity. Qed.

Lemma C7_witness :
  1 <= 3 /\ 3 <= 2 ^ 1024 - 2 ^ 970
  /\ calculate_progression 3 f1_0
     = Ok {| volume_multiplier := S754_finite false 5404319552844595 (-52);
             intensity_multiplier := S754_finite false 4953959590107546 (-52);
             complexity_level := 2 |}.
Proof.
  assert (H : 1 <= 3) by lia.
  split; [exact H|]. split; [exact le_3_big|].
  exact (C7_progression 3 f1_0 H le_3_big).
Defined.

(** The range of the weeks ends there: the predecessor of the next week
    rounds to 2^1024 and does not convert. *)
Lemma calculate_progression_range_end (difficulty_modifier : float) :
  calculate_progression (2 ^ 1024 - 2 ^ 970 + 1) difficulty_modifier = Raise OverflowError.
Proof. vm_compute. reflexivity. Qed.

Definition newcomer : UserProfile := Sample.user (Member BEGINNER) [] "Endurance".



(** The [tzinfo] of a text that ends in [Z]: UTC. *)
Definition tzutc : tzinfo := mk_tzinfo 0 (fun _ => 0).


Lemma C10_witness :
  RuntimeLaws Sample.runtime
  /\ fst (generate_workout_plan Sample.runtime Sample.planner newcomer 4 Sample.world)
     <> Raise ZeroDivisionError
  /\ fst (generate_daily_challenge Sample.runtime Sample.planner newcomer
            (Some (mk_datetime 739252 0)) Sample.world)
     <> Raise ZeroDivisionError.
Proof.
  destruct (C10_no_division_by_zero Sample.runtime Sample.planner sample_laws)
    as (_ & _ & Hplan & Hchallenge & _).
  split; [exact sample_laws|]. split; [apply Hplan | apply Hchallenge].
Defined.

Definition athlete : UserProfile := Sample.user (Member ADVANCED) [] "Weight Loss".

Lemma C3_counterexample :
  exists p c,
    calculate_progression 1 (calculate_difficulty_modifier athlete) = Ok p
    /\ int_of_float (mul (of_Z (challenge_exercise_count (fitness_level athlete)))
                       (volume_multiplier p)) = Ok 5
    /\ fst (generate_daily_challenge Sample.runtime Sample.planner athlete
              (Some epoch_2025) Sample.world) = Ok c
    /\ c_type c = "Strength"
    /\ List.length (nth 1 (heap Sample.world) []) = 15%nat
    /\ List.length (c_exercises c) = 4%nat.
Proof.
  eexists. eexists.
  split; [vm_compute; reflexivity|]. split; [vm_compute; reflexivity|].
  split; [vm_compute; reflexivity|]. repeat split.
Qed.

(* ================================================================== *)
(** * Further properties of the engine and of the request validation *)

(* ------------------------------------------------------------------ *)
(** ** The request validation of [app.py] *)

#[local] Set Warnings "-register-all".

(** The values a request body and the validated data hold: the JSON
    values and the members of the two enums. A [string] stands for a
    [str] whose characters have code points below 256. *)
Inductive pyval : Type :=
| PNone
| PBool (b : bool)
| PInt (n : Z)
| PFloat (x : float)
| PStr (s : string)
| PLevel (l : FitnessLevel)
| PCondition (c : HealthCondition)
| PList (items : list pyval)
| PDict (items : list (string * pyval)).

(** [HealthCondition.X.value]. *)
Definition HealthCondition_value (c : HealthCondition) : string :=
  match c with
  | KNEE_PAIN => "Knee Pain"
  | BACK_PAIN => "Back Pain"
  | HEART_CONDITION => "Heart Condition"
  | SHOULDER_INJURY => "Shoulder Injury"
  end.

(** [HealthCondition(s)]: the member whose value is [s]; [None] for the
    [ValueError] of a string that is no value. *)
Definition HealthCondition_of_value (s : string) : option HealthCondition :=
  if String.eqb s "Knee Pain" then Some KNEE_PAIN
  else if String.eqb s "Back Pain" then Some BACK_PAIN
  else if String.eqb s "Heart Condition" then Some HEART_CONDITION
  else if String.eqb s "Shoulder Injury" then Some SHOULDER_INJURY
  else None.

(** [bool(v)]. *)
Definition truthy (v : pyval) : bool :=
  match v with
  | PNone => false
  | PBool b => b
  | PInt n => negb (n =? 0)
  | PFloat (S754_zero _) => false
  | PFloat _ => true
  | PStr s => negb (String.eqb s "")
  | PLevel _ | PCondition _ => true
  | PList items => match items with [] => false | _ :: _ => true end
  | PDict items => match items with [] => false | _ :: _ => true end
  end.

(** The characters of [v] when [isinstance(v, str)]; both enums derive
    from [str]. *)
Definition as_str (v : pyval) : option string :=
  match v with
  | PStr s => Some s
  | PLevel l => Some (FitnessLevel_value l)
  | PCondition c => Some (HealthCondition_value c)
  | _ => None
  end.

(** [c.lower()] for a code point below 256: the letters A-Z and the
    capital letters of Latin-1 (U+00C0-U+00DE without the multiplication
    sign U+00D7) move up by 32. *)
Definition lower_char (c : ascii) : ascii :=
  let n := nat_of_ascii c in
  if ((65 <=? n) && (n <=? 90))%nat
     || ((192 <=? n) && (n <=? 222) && negb (n =? 215))%nat
  then ascii_of_nat (n + 32)
  else c.

(** [s.lower()]. *)
Fixpoint str_lower (s : string) : string :=
  match s with
  | EmptyString => EmptyString
  | String c s' => String (lower_char c) (str_lower s')
  end.

(** [c.isspace()] for a code point below 256. *)
Definition is_whitespace (c : ascii) : bool :=
  let n := nat_of_ascii c in
  ((9 <=? n) && (n <=? 13))%nat || ((28 <=? n) && (n <=? 32))%nat
  || (n =? 133)%nat || (n =? 160)%nat.

Fixpoint drop_whitespace (cs : list ascii) : list ascii :=
  match cs with
  | [] => []
  | c :: cs' => if is_whitespace c then drop_whitespace cs' else cs
  end.

(** [s.strip()]. *)
Definition str_strip (s : string) : string :=
  string_of_list_ascii
    (rev (drop_whitespace (rev (drop_whitespace (list_ascii_of_string s))))).

(** [sub in s] for two strings. *)
Fixpoint str_contains (s sub : string) : bool :=
  String.prefix sub s
  || match s with
     | EmptyString => false
     | String _ s' => str_contains s' sub
     end.

(** [d[k] = v] on a dict: the value of an existing key is replaced in
    place, a new key goes last. *)
Fixpoint dict_set {V : Type} (d : list (string * V)) (k : string) (v : V)
  : list (string * V) :=
  match d with
  | [] => [(k, v)]
  | (k', v') :: d' =>
      if String.eqb k k' then (k', v) :: d' else (k', v') :: dict_set d' k v
  end.

(** [field in data]. *)
Definition py_contains (data : pyval) (field : string) : outcome bool :=
  match data with
  | PDict items =>
      Done (match dict_find items field with Some _ => true | None => false end)
  | PList items =>
      Done (existsb (fun v => match as_str v with
                              | Some s => String.eqb s field
                              | None => false
                              end) items)
  | PStr _ | PLevel _ | PCondition _ =>
      match as_str data with
      | Some s => Done (str_contains s field)
      | None => Fail TypeError
      end
  | PNone | PBool _ | PInt _ | PFloat _ => Fail TypeError
  end.

(** [data[key]] for a string [key]. *)
Definition py_getitem (data : pyval) (key : string) : outcome pyval :=
  match data with
  | PDict items => of_result (dict_getitem items key)
  | _ => Fail TypeError
  end.

(** [data[key] = v] for a string [key]. *)
Definition py_setitem (data : pyval) (key : string) (v : pyval) : outcome pyval :=
  match data with
  | PDict items => Done (PDict (dict_set items key v))
  | _ => Fail TypeError
  end.

(** [data.get(key, default)]. *)
Definition py_get (data : pyval) (key : string) (default : pyval) : outcome pyval :=
  match data with
  | PDict items => Done (dict_get items key default)
  | _ => Fail (Builtin AttributeError)
  end.

(** The values of [for x in v]. *)
Definition py_iter (v : pyval) : outcome (list pyval) :=
  match v with
  | PList items => Done items
  | PDict items => Done (map (fun '(k, _) => PStr k) items)
  | PStr _ | PLevel _ | PCondition _ =>
      match as_str v with
      | Some s => Done (map (fun c => PStr (String c EmptyString)) (list_ascii_of_string s))
      | None => Fail TypeError
      end
  | PNone | PBool _ | PInt _ | PFloat _ => Fail TypeError
  end.

(** The parsers of [int] and [float] for a string argument; [None] is
    their [ValueError]. They belong to the Python runtime. *)
Record Builtins : Type := mk_Builtins {
  parse_int : string -> option Z;
  parse_float : string -> option float
}.

Section Validation.

Context (builtins : Builtins).

(** [int(v)]. *)
Definition py_int (v : pyval) : outcome Z :=
  match v with
  | PBool b => Done (if b then 1 else 0)
  | PInt n => Done n
  | PFloat x => of_result (int_of_float x)
  | PStr _ | PLevel _ | PCondition _ =>
      match as_str v with
      | Some s =>
          match parse_int builtins s with
          | Some n => Done n
          | None => Fail (Builtin ValueError)
          end
      | None => Fail TypeError
      end
  | PNone | PList _ | PDict _ => Fail TypeError
  end.

(** [float(v)]. *)
Definition py_float (v : pyval) : outcome float :=
  match v with
  | PBool b => Done (of_Z (if b then 1 else 0))
  | PInt n => of_result (float_of_int n)
  | PFloat x => Done x
  | PStr _ | PLevel _ | PCondition _ =>
      match as_str v with
      | Some s =>
          match parse_float builtins s with
          | Some x => Done x
          | None => Fail (Builtin ValueError)
          end
      | None => Fail TypeError
      end
  | PNone | PList _ | PDict _ => Fail TypeError
  end.

(** [standardize_fitness_level] (app.py 71-86). *)
Definition level_map : list (string * FitnessLevel) :=
  [("beginner", BEGINNER); ("intermediate", INTERMEDIATE); ("advanced", ADVANCED)].

Definition standardize_fitness_level (level : pyval) : FitnessLevel :=
  match level with
  | PLevel l => l
  | _ =>
      match as_str level with
      | Some s =>
          let level_lower := str_strip (str_lower s) in
          dict_get level_map level_lower INTERMEDIATE
      | None => INTERMEDIATE
      end
  end.

(** [standardize_health_conditions] (app.py 88-123). *)
Definition condition_map : list (string * HealthCondition) :=
  [("knee pain", KNEE_PAIN); ("knee", KNEE_PAIN);
   ("back pain", BACK_PAIN); ("back", BACK_PAIN);
   ("heart condition", HEART_CONDITION); ("heart", HEART_CONDITION);
   ("shoulder injury", SHOULDER_INJURY); ("shoulder", SHOULDER_INJURY)].

(** What one turn of the loop appends to [standardized]. *)
Definition standardize_condition (condition : pyval) : list HealthCondition :=
  match as_str condition with
  | Some s =>
      let condition_lower := str_strip (str_lower s) in
      match dict_find condition_map condition_lower with
      | Some c => [c]
      | None =>
          match HealthCondition_of_value s with
          | Some c => [c]
          | None => []
          end
      end
  | None =>
      match condition with
      | PCondition c => [c]
      | _ => []
      end
  end.

Definition standardize_health_conditions (conditions : pyval)
  : outcome (list HealthCondition) :=
  if negb (truthy conditions) then Done []
  else
    let conditions :=
      match as_str conditions with
      | Some _ => PList [conditions]
      | None => conditions
      end in
    let! items := py_iter conditions in
    Done (flat_map standardize_condition items).

(** [standardize_goal] (app.py 125-145). *)
Definition goal_map : list (string * string) :=
  [("weight_loss", "Weight Loss"); ("weightloss", "Weight Loss");
   ("weight loss", "Weight Loss");
   ("muscle_gain", "Muscle Gain"); ("musclegain", "Muscle Gain");
   ("muscle gain", "Muscle Gain");
   ("endurance", "Endurance"); ("flexibility", "Flexibility")].

Definition standardize_goal (goal : pyval) : pyval :=
  if negb (truthy goal) then PStr "Weight Loss"
  else
    match as_str goal with
    | Some s =>
        let goal_lower := str_strip (str_lower s) in
        match dict_find goal_map goal_lower with
        | Some g => PStr g
        | None => goal
        end
    | None => goal
    end.

(** [validate_user_data] (app.py 154-185). *)
Definition required_fields : list string :=
  ["age"; "height"; "weight"; "gender"; "fitness_level"; "goal"; "preferred_days"].

Inductive validation : Type :=
| Invalid (message : string)
| Valid (data : pyval).

Fixpoint missing_of (data : pyval) (fields : list string) : outcome (list string) :=
  match fields with
  | [] => Done []
  | field :: fields' =>
      let! present := py_contains data field in
      let! rest := missing_of data fields' in
      Done (if present then rest else field :: rest)
  end.

(** The body of the first [try] (app.py 165-167). *)
Definition convert_numbers (data : pyval) : outcome pyval :=
  let! age := py_getitem data "age" in
  let! n := py_int age in
  let! data := py_setitem data "age" (PInt n) in
  let! height := py_getitem data "height" in
  let! h := py_float height in
  let! data := py_setitem data "height" (PFloat h) in
  let! weight := py_getitem data "weight" in
  let! x := py_float weight in
  py_setitem data "weight" (PFloat x).

(** The handling of [preferred_days] (app.py 177-183). *)
Definition convert_preferred_days (data : pyval) : outcome pyval :=
  let! days := py_getitem data "preferred_days" in
  match days with
  | PList items => py_setitem data "preferred_days" (PInt (Z.of_nat (List.length items)))
  | PInt _ | PBool _ => Done data
  | _ =>
      match py_int days with
      | Done n => py_setitem data "preferred_days" (PInt n)
      | Fail TypeError | Fail (Builtin ValueError) =>
          py_setitem data "preferred_days" (PInt 3)
      | Fail e => Fail e
      end
  end.

Definition validate_user_data (data : pyval) : outcome validation :=
  let! missing_fields := missing_of data required_fields in
  match missing_fields with
  | _ :: _ =>
      Done (Invalid ("Missing required fields: " ++ String.concat ", " missing_fields)%string)
  | [] =>
      match convert_numbers data with
      | Fail TypeError | Fail (Builtin ValueError) =>
          Done (Invalid "Age must be an integer, height and weight must be numeric")
      | Fail e => Fail e
      | Done data =>
          let! level := py_getitem data "fitness_level" in
          let! data :=
            py_setitem data "fitness_level" (PLevel (standardize_fitness_level level)) in
          let! conditions := py_get data "health_conditions" (PList []) in
          let! standardized := standardize_health_conditions conditions in
          let! data :=
            py_setitem data "health_conditions" (PList (map PCondition standardized)) in
          let! goal := py_getitem data "goal" in
          let! data := py_setitem data "goal" (standardize_goal goal) in
          let! data := convert_preferred_days data in
          Done (Valid data)
      end
  end.

End Validation.

(* ------------------------------------------------------------------ *)
(** ** Vocabulary of the further properties *)

(** The shape of a formatted exercise for a workout type. *)
Definition entry_fits (workout_type : string) (e : ExerciseEntry) : Prop :=
  match e with
  | StrengthEntry _ _ _ rest => workout_type = "Strength" /\ rest = "60-90 seconds"
  | HIITEntry _ _ work_time rest_time =>
      workout_type = "HIIT" /\ work_time = "30 seconds" /\ rest_time = "30 seconds"
  | TimedEntry _ _ => workout_type <> "Strength" /\ workout_type <> "HIIT"
  end.

(** A decimal digit. *)
Definition is_digit (c : ascii) : bool :=
  match c with
  | "0"%char | "1"%char | "2"%char | "3"%char | "4"%char
  | "5"%char | "6"%char | "7"%char | "8"%char | "9"%char => true
  | _ => false
  end.

(** Every character of [s] satisfies [p]. *)
Fixpoint all_chars (p : ascii -> bool) (s : string) : bool :=
  match s with
  | EmptyString => true
  | String c s' => p c && all_chars p s'
  end.

(** The minutes of a formatted exercise that has a duration. *)
Definition entry_minutes (e : ExerciseEntry) : result Z :=
  match e with
  | TimedEntry _ duration => duration_minutes duration
  | _ => Raise ValueError
  end.

(** No string comes twice in [xs]. *)
Fixpoint distinct (xs : list string) : bool :=
  match xs with
  | [] => true
  | x :: xs' => negb (str_in x xs') && distinct xs'
  end.

(** The categories of a split of the goal table are categories of the
    catalog and have an intensity. *)
Definition complete_policy (goal_data : GoalData) : bool :=
  forallb
    (fun c => str_in c category_names
              && match dict_find (intensity_range goal_data) c with
                 | Some _ => true
                 | None => false
                 end)
    (dict_keys (workout_split goal_data)).

(** A day of a plan for a user and a policy, in a store [w0]. *)
Definition plan_day (self : WorkoutPlanner) (heap0 : list (list string))
    (user : UserProfile) (goal_data : GoalData) (day : WorkoutEntry) : Prop :=
  In (w_type day) (dict_keys (workout_split goal_data))
  /\ dict_find (intensity_range goal_data) (w_type day) = Some (w_intensity day)
  /\ (exists total,
        w_duration day = (str_of_int total ++ " minutes")%string
        /\ calculate_duration (w_type day) (fitness_level user) = Ok (w_duration day)
        /\ (w_type day <> "Strength" -> w_type day <> "HIIT" ->
            exists minutes,
              rmap entry_minutes (w_exercises day) = Ok minutes /\ Zsum minutes = total))
  /\ NoDup (map entry_name (w_exercises day))
  /\ (1 <= List.length (w_exercises day))%nat
  /\ Forall (entry_fits (w_type day)) (w_exercises day)
  /\ exists l,
       dict_find (workout_types (exercise_db self)) (w_type day) = Some l
       /\ forall exercise, In exercise (map entry_name (w_exercises day)) ->
            (In exercise (nth l heap0 [])
             /\ forall condition, In condition (health_conditions user) ->
                  ~ In exercise
                      (restrictions_get (health_restrictions (exercise_db self)) condition))
            \/ (exercise = workout_fallback (w_type day)
                /\ without_restricted (exercise_db self) (health_conditions user)
                     (nth l heap0 []) = []).

(** A parsed date without a zone. *)
Definition is_naive (d : parsed_date) : bool :=
  match d with
  | Naive _ => true
  | Aware _ _ => false
  end.

(** A finite float of sign [s] whose magnitude is at least [2 ^ (L - 1)]. *)
Definition finite_ge (s : bool) (L : Z) (x : float) : Prop :=
  match x with
  | S754_finite s' m e => s' = s /\ L <= Zpos (digits2_pos m) + e
  | _ => False
  end.

(** The counts of a formatted exercise are zero or negative. *)
Definition count_nonpos (n : Z) (x : float) : bool :=
  match int_of_float (mul (of_Z n) x) with
  | Ok c => c <=? 0
  | Raise _ => false
  end.

(** In the week [week] the volume gives no set and no interval. *)
Definition volume_nonpos (modifier : float) (week : Z) : bool :=
  match calculate_progression week modifier with
  | Ok p => count_nonpos 3 (volume_multiplier p) && count_nonpos 6 (volume_multiplier p)
  | Raise _ => false
  end.

(** In the week [week] the intensity gives no repetition. *)
Definition intensity_nonpos (modifier : float) (week : Z) : bool :=
  match calculate_progression week modifier with
  | Ok p => count_nonpos 10 (intensity_multiplier p)
  | Raise _ => false
  end.

(** The values of [calculate_difficulty_modifier]. *)
Definition modifiers : list float :=
  [f0_8; f1_1; f1_4; f1_0; mul f0_8 f0_9; mul f1_1 f0_9; mul f1_4 f0_9; mul f1_0 f0_9].

(** No set, no repetition, no interval. *)
Definition nothing_to_do (with_reps : Prop) (e : ExerciseEntry) : Prop :=
  match e with
  | StrengthEntry _ sets reps _ => sets <= 0 /\ (with_reps -> reps <= 0)
  | HIITEntry _ intervals _ _ => intervals <= 0
  | TimedEntry _ _ => True
  end.

(** The alias table decides alone what a condition of a request becomes. *)
Definition condition_alias (condition : pyval) : list HealthCondition :=
  match as_str condition with
  | Some s =>
      match dict_find condition_map (str_strip (str_lower s)) with
      | Some c => [c]
      | None => []
      end
  | None => []
  end.

(** What the data of a successful validation holds. *)
Definition validated (d : list (string * pyval)) : Prop :=
  (exists n, dict_find d "age" = Some (PInt n))
  /\ (exists h, dict_find d "height" = Some (PFloat h))
  /\ (exists x, dict_find d "weight" = Some (PFloat x))
  /\ (exists g, dict_find d "gender" = Some g)
  /\ (exists l, dict_find d "fitness_level" = Some (PLevel l))
  /\ (exists cs, dict_find d "health_conditions" = Some (PList (map PCondition cs)))
  /\ (exists g, dict_find d "goal" = Some g /\ standardize_goal g = g)
  /\ (exists v, dict_find d "preferred_days" = Some v
                /\ ((exists n, v = PInt n) \/ (exists b, v = PBool b))).

(** The keys that [validate_user_data] assigns. *)
Definition rewritten_fields : list string :=
  ["age"; "height"; "weight"; "fitness_level"; "health_conditions"; "goal";
   "preferred_days"].

(* ------------------------------------------------------------------ *)
(** ** Formatting, durations and equipment *)

Lemma format_exercise_entry (exercise workout_type : string) (progression : Progression)
    (i n D : Z) (e : ExerciseEntry) :
  format_exercise exercise workout_type progression i n D = Ok e ->
  entry_name e = exercise /\ entry_fits workout_type e.
Proof.
  unfold format_exercise.
  destruct (String.eqb_spec workout_type "Strength") as [->|Hs].
  - destruct (int_of_float _); [|discriminate]. cbn [rbind].
    destruct (int_of_float _); [|discriminate]. cbn [rbind].
    intros E. injection E as <-. cbn. auto.
  - destruct (String.eqb_spec workout_type "HIIT") as [->|Hh].
    + destruct (int_of_float _); [|discriminate]. cbn [rbind].
      intros E. injection E as <-. cbn. auto.
    + destruct (n =? 0); [discriminate|].
      intros E. injection E as <-. cbn. auto.
Qed.

Lemma rmap_format_from (workout_type : string) (progression : Progression) (n D : Z) :
  forall (selected : list string) (start : Z) (es : list ExerciseEntry),
  rmap (fun '(i, exercise) => format_exercise exercise workout_type progression i n D)
       (enumerate_from start selected) = Ok es ->
  map entry_name es = selected /\ Forall (entry_fits workout_type) es.
Proof.
  induction selected as [|x xs IH]; intros start es; cbn [enumerate_from rmap].
  - intros E. injection E as <-. split; [reflexivity | constructor].
  - destruct (format_exercise x workout_type progression start n D) as [e|] eqn:Ee;
      [|discriminate].
    cbn [rbind].
    destruct (rmap _ (enumerate_from (start + 1) xs)) as [es'|] eqn:Es; [|discriminate].
    cbn [rbind]. intros E. injection E as <-.
    destruct (format_exercise_entry _ _ _ _ _ _ _ Ee) as [Hn Hf].
    destruct (IH _ _ Es) as [Hns Hfs].
    split; [cbn [map]; now rewrite Hn, Hns | now constructor].
Qed.

(** Property X1. The formatting loop returns one entry per selected
    exercise, under the name of the exercise and in the order of the
    selection, and every entry has the shape of the workout type: sets,
    repetitions and the rest of 60-90 seconds for Strength, intervals of
    30 seconds of work and of rest for HIIT, a duration for any other
    type. *)
Theorem format_exercises_keeps_names (selected_exercises : list string)
    (workout_type : string) (progression : Progression) (total_duration_min : Z)
    (formatted_exercises : list ExerciseEntry) :
  format_exercises selected_exercises workout_type progression total_duration_min
  = Ok formatted_exercises ->
  map entry_name formatted_exercises = selected_exercises
  /\ List.length formatted_exercises = List.length selected_exercises
  /\ Forall (entry_fits workout_type) formatted_exercises.
Proof.
  unfold format_exercises, enumerate. intros E.
  destruct (rmap_format_from _ _ _ _ _ _ _ E) as [Hn Hf].
  split; [assumption|]. split; [|assumption].
  rewrite <- Hn. now rewrite length_map.
Qed.

(** *** The duration string and its minutes *)

Lemma string_of_uint_digits (d : Decimal.uint) :
  all_chars is_digit (NilEmpty.string_of_uint d) = true.
Proof. induction d; cbn; auto. Qed.

Lemma str_of_int_shape (n : Z) :
  exists c s, str_of_int n = String c s
              /\ is_space c = false
              /\ all_chars (fun c => negb (is_space c)) s = true.
Proof.
  assert (Hd : forall c, is_digit c = true -> negb (is_space c) = true).
  { intros c. destruct c as [[] [] [] [] [] [] [] []]; cbn; congruence. }
  assert (Hall : forall s, all_chars is_digit s = true ->
                           all_chars (fun c => negb (is_space c)) s = true).
  { induction s as [|c s IH]; cbn; [reflexivity|].
    intros H. apply andb_prop in H as [H1 H2]. now rewrite (Hd c H1), IH. }
  assert (Hu : forall d, d <> Decimal.Nil ->
                 exists c s, NilZero.string_of_uint d = String c s
                             /\ is_space c = false
                             /\ all_chars (fun c => negb (is_space c)) s = true).
  { intros d Hnil. pose proof (string_of_uint_digits d) as H.
    destruct d; try contradiction; cbn in *;
      (eexists; eexists; split; [reflexivity|]; split; [reflexivity|]; now apply Hall). }
  unfold str_of_int. destruct n as [|p|p]; cbn [Z.to_int NilZero.string_of_int].
  - exists "0"%char, "". repeat split.
  - apply Hu, DecimalPos.Unsigned.to_uint_nonnil.
  - destruct (Hu (Pos.to_uint p) (DecimalPos.Unsigned.to_uint_nonnil p)) as (c & s & E & Hc & Hs).
    exists "-"%char, (String c s). rewrite E. repeat split.
    cbn [all_chars]. now rewrite Hc, Hs.
Qed.

Lemma int_of_str_of_int (n : Z) : int_of_str (str_of_int n) = Ok n.
Proof.
  unfold int_of_str, str_of_int.
  assert (E : NilZero.int_of_string (NilZero.string_of_int (Z.to_int n)) = Some (Z.to_int n)).
  { destruct n as [|p|p]; cbn [Z.to_int]; [reflexivity| |];
      apply NilZero.isi; intros H; try discriminate; injection H as H;
      now apply DecimalPos.Unsigned.to_uint_nonnil in H. }
  rewrite E. now rewrite DecimalZ.of_to.
Qed.

Lemma split_ws_aux_word (s rest : string) :
  all_chars (fun c => negb (is_space c)) s = true ->
  forall word,
    split_ws_aux word (s ++ rest)%string
    = split_ws_aux (rev (list_ascii_of_string s) ++ word) rest.
Proof.
  induction s as [|c s IH]; intros H word; [reflexivity|].
  cbn [all_chars] in H. apply andb_prop in H as [Hc Hs].
  apply negb_true_iff in Hc.
  cbn [String.append split_ws_aux list_ascii_of_string rev]. rewrite Hc.
  rewrite (IH Hs). now rewrite <- app_assoc.
Qed.

Lemma duration_minutes_str (n : Z) :
  duration_minutes (str_of_int n ++ " minutes")%string = Ok n.
Proof.
  destruct (str_of_int_shape n) as (c & s & E & Hc & Hs).
  unfold duration_minutes, split_ws. rewrite E.
  cbn [String.append split_ws_aux]. rewrite Hc.
  rewrite (split_ws_aux_word s " minutes" Hs).
  cbn [split_ws_aux is_space].
  destruct (rev (list_ascii_of_string s) ++ [c]) as [|a l] eqn:El.
  { apply (f_equal (@List.length _)) in El. rewrite length_app in El. cbn in El. lia. }
  rewrite <- El. rewrite rev_app_distr, rev_involutive. cbn [rev app].
  cbn [string_of_list_ascii]. rewrite string_of_list_ascii_of_string.
  rewrite <- E. apply int_of_str_of_int.
Qed.

(** Property X2. The minutes that [generate_daily_workout] and
    [generate_daily_challenge] read back from a duration string are the
    number the string was built from: for every integer [n],
    [int(f"{n} minutes".split()[0])] is [n]. *)
Theorem duration_minutes_of_formatted (n : Z) :
  duration_minutes (str_of_int n ++ " minutes")%string = Ok n.
Proof. exact (duration_minutes_str n). Qed.

(** Property X3. [calculate_duration] never fails. A session lasts the
    base minutes of the fitness level (30, 45, 60; 45 for a level outside
    the enum), and for HIIT and Cardio four fifths of them, exactly: the
    product with the float 0.8 truncates to 24, 36 and 48, without the
    loss of a minute. The minutes read back from the string are that
    number. *)
Theorem calculate_duration_table (workout_type : string) (level : level_value) :
  let minutes :=
    if str_in workout_type ["HIIT"; "Cardio"]
    then 4 * base_duration level / 5
    else base_duration level in
  calculate_duration workout_type level = Ok (str_of_int minutes ++ " minutes")%string
  /\ duration_minutes (str_of_int minutes ++ " minutes")%string = Ok minutes
  /\ In minutes [24; 30; 36; 45; 48; 60].
Proof.
  intros minutes. split; [|split].
  - subst minutes. unfold calculate_duration.
    destruct (str_in workout_type ["HIIT"; "Cardio"]); [|reflexivity].
    destruct level as [[]|]; vm_compute; reflexivity.
  - apply duration_minutes_str.
  - subst minutes.
    destruct (str_in workout_type ["HIIT"; "Cardio"]); destruct level as [[]|];
      vm_compute; tauto.
Qed.

(** *** Equipment *)

Lemma set_add_spec (equipment : list string) (x y : string) :
  In y (set_add equipment x) <-> In y equipment \/ y = x.
Proof.
  unfold set_add, str_in.
  destruct (existsb (String.eqb x) equipment) eqn:E.
  - apply existsb_exists in E as (z & Hz & Heq). apply String.eqb_eq in Heq. subst z.
    split; [auto | intros [H| ->]; assumption].
  - rewrite in_app_iff. cbn [In]. split; [intros [H|[<-|[]]] | intros [H|H]]; auto.
Qed.

Lemma set_add_nodup (equipment : list string) (x : string) :
  NoDup equipment -> NoDup (set_add equipment x).
Proof.
  intros H. unfold set_add, str_in.
  destruct (existsb (String.eqb x) equipment) eqn:E; [assumption|].
  apply NoDup_app; [assumption | repeat constructor; intros [] |].
  intros y Hy [<-|[]].
  assert (existsb (String.eqb x) equipment = true); [|congruence].
  apply existsb_exists. exists x. split; [assumption | apply String.eqb_refl].
Qed.

Lemma update_spec (items : list string) :
  forall (equipment : list string),
  (NoDup equipment -> NoDup (fold_left set_add items equipment))
  /\ forall y, In y (fold_left set_add items equipment) <-> In y equipment \/ In y items.
Proof.
  induction items as [|x xs IH]; intros equipment; cbn [fold_left].
  - split; [auto|]. intros y. cbn [In]. tauto.
  - destruct (IH (set_add equipment x)) as [Hn Hin]. split.
    + intros H. now apply Hn, set_add_nodup.
    + intros y. rewrite Hin, set_add_spec. cbn [In]. intuition congruence.
Qed.

Lemma equipment_fold_spec (mapping : list (string * list string)) (exercises : list string) :
  forall (equipment : list string),
  let result :=
    fold_left
      (fun equipment exercise =>
         match dict_find mapping exercise with
         | Some items => fold_left set_add items equipment
         | None => equipment
         end)
      exercises equipment in
  (NoDup equipment -> NoDup result)
  /\ forall y, In y result <->
               In y equipment
               \/ exists exercise items,
                    In exercise exercises /\ dict_find mapping exercise = Some items
                    /\ In y items.
Proof.
  induction exercises as [|x xs IH]; intros equipment; cbn [fold_left].
  - split; [auto|]. intros y. split; [auto|]. intros [H|(e & items & [] & _)]. exact H.
  - cbv zeta in IH.
    destruct (dict_find mapping x) as [items|] eqn:Ex.
    + destruct (IH (fold_left set_add items equipment)) as [Hn Hin].
      destruct (update_spec items equipment) as [Hn' Hin'].
      split; [auto|]. intros y. rewrite Hin, Hin'. split.
      * intros [[H|H]|(e & its & He & Hf & Hy)]; [now left | |].
        -- right. exists x, items. cbn [In]. auto.
        -- right. exists e, its. cbn [In]. auto.
      * intros [H|(e & its & [<-|He] & Hf & Hy)]; [now left; left | |].
        -- rewrite Ex in Hf. injection Hf as <-. left. now right.
        -- right. exists e, its. auto.
    + destruct (IH equipment) as [Hn Hin]. split; [auto|].
      intros y. rewrite Hin. split.
      * intros [H|(e & its & He & Hf & Hy)]; [now left|].
        right. exists e, its. cbn [In]. auto.
      * intros [H|(e & its & [<-|He] & Hf & Hy)]; [now left | congruence |].
        right. exists e, its. auto.
Qed.

Lemma required_equipment_spec (rt : Runtime) (self : WorkoutPlanner)
    (exercises : list string) :
  (forall xs, NoDup xs -> Permutation (set_order rt xs) xs) ->
  NoDup (get_required_equipment rt self exercises)
  /\ forall item,
       In item (get_required_equipment rt self exercises) <->
       exists exercise items,
         In exercise exercises
         /\ dict_find (equipment_mapping (exercise_db self)) exercise = Some items
         /\ In item items.
Proof.
  intros Hperm. unfold get_required_equipment.
  destruct (equipment_fold_spec (equipment_mapping (exercise_db self)) exercises [])
    as [Hn Hin].
  cbv zeta in Hn, Hin. specialize (Hn (NoDup_nil _)).
  specialize (Hperm _ Hn). split.
  - eapply Permutation_NoDup; [apply Permutation_sym; exact Hperm | exact Hn].
  - intros item. split.
    + intros H. apply (Permutation_in _ Hperm) in H. apply Hin in H as [[]|H]. exact H.
    + intros H. apply (Permutation_in _ (Permutation_sym Hperm)). apply Hin. now right.
Qed.

(** Property X4. [get_required_equipment] returns a list without
    repetition that holds exactly the items the equipment table gives for
    one of the exercises; an exercise the table does not know adds
    nothing. The list conversion of the set may order the items in any
    way. *)
Theorem required_equipment_is_union (rt : Runtime) (self : WorkoutPlanner)
    (exercises : list string) :
  (forall xs, NoDup xs -> Permutation (set_order rt xs) xs) ->
  NoDup (get_required_equipment rt self exercises)
  /\ forall item,
       In item (get_required_equipment rt self exercises) <->
       exists exercise items,
         In exercise exercises
         /\ dict_find (equipment_mapping (exercise_db self)) exercise = Some items
         /\ In item items.
Proof. exact (required_equipment_spec rt self exercises). Qed.

(** *** The category of a day *)

Lemma select_loop_member (rand : float) (items : list (string * float)) :
  forall (cumulative : float) (workout_type : string),
  select_loop rand cumulative items = Some workout_type -> In workout_type (dict_keys items).
Proof.
  induction items as [|[k p] items IH]; intros cumulative t; cbn [select_loop]; [discriminate|].
  destruct (leb rand (add cumulative p)).
  - intros E. injection E as <-. now left.
  - intros E. right. eapply IH. exact E.
Qed.

(** Property X5. [select_workout_type] returns a category of the split it
    is given, whatever the draw (a draw above the total of the
    probabilities included: it gives the first category). The only failure
    is [IndexError], on an empty split. *)
Theorem select_workout_type_in_split (rt : Runtime) (w : World rt)
    (workout_split : list (string * float)) :
  match fst (select_workout_type rt workout_split w) with
  | Ok workout_type => In workout_type (dict_keys workout_split)
  | Raise e => e = IndexError /\ workout_split = []
  end.
Proof.
  unfold select_workout_type, bind, random_random, lift.
  destruct (rng_random rt (rng w)) as [rand g]. cbn [fst].
  unfold select_for.
  destruct (select_loop rand (of_Z 0) workout_split) as [t|] eqn:E.
  - eapply select_loop_member. exact E.
  - destruct workout_split as [|[k p] items]; cbn; auto.
Qed.

(* ------------------------------------------------------------------ *)
(** ** What a daily challenge holds *)

Lemma distinct_NoDup (xs : list string) : distinct xs = true -> NoDup xs.
Proof.
  induction xs as [|x xs IH]; cbn [distinct]; intros H; constructor.
  - apply andb_prop in H as [H _]. apply negb_true_iff in H.
    intros Hin. unfold str_in in H.
    assert (existsb (String.eqb x) xs = true); [|congruence].
    apply existsb_exists. exists x. split; [assumption | apply String.eqb_refl].
  - apply andb_prop in H as [_ H]. now apply IH.
Qed.

Section ChallengeContents.

Context (rt : Runtime) (self : WorkoutPlanner).

(** The lists of the catalog hold no exercise twice. *)
Lemma installed_catalog_nodup (w : World rt) (workout_type : string) (l : loc) :
  installed rt self w ->
  dict_find (workout_types (exercise_db self)) workout_type = Some l ->
  NoDup (nth l (heap w) []).
Proof.
  intros (w0 & E & [cells Hl]) Hf.
  unfold WorkoutPlanner_init, ExerciseDatabase_init in E, Hl.
  cbn in E, Hl. injection E as <-. cbn [exercise_db workout_types] in Hf.
  rewrite Hl. clear Hl. rewrite <- !app_assoc. cbn [app].
  cbn [dict_find] in Hf.
  repeat match type of Hf with
         | (if ?b then _ else _) = _ => destruct b
         end;
    try discriminate; injection Hf as <-;
    rewrite ?length_app; cbn [List.length];
    rewrite <- ?Nat.add_assoc; cbn [Nat.add];
    [ replace (List.length (heap w0)) with (List.length (heap w0) + 0)%nat by lia | | | ];
    rewrite app_nth2_plus; cbn [nth];
    apply distinct_NoDup; reflexivity.
Qed.

End ChallengeContents.

Section ChallengeProperties.

Context (rt : Runtime) (self : WorkoutPlanner).

Lemma str_in_false (x : string) (xs : list string) : str_in x xs = false -> ~ In x xs.
Proof.
  unfold str_in. intros H Hin.
  assert (existsb (String.eqb x) xs = true); [|congruence].
  apply existsb_exists. exists x. split; [assumption | apply String.eqb_refl].
Qed.

Lemma without_restricted_nodup (db : ExerciseDatabase) (conditions : list HealthCondition) :
  forall xs, NoDup xs -> NoDup (without_restricted db conditions xs).
Proof.
  unfold without_restricted.
  induction conditions as [|c cs IH]; intros xs H; cbn [fold_left]; [assumption|].
  apply IH. now apply NoDup_filter.
Qed.

(** What a sample of a pool with its fallback holds. *)
Lemma sample_of_pool (laws : RuntimeLaws rt) (db : ExerciseDatabase)
    (conditions : list HealthCondition) (fallback : string) (xs : list string)
    (g : rng_state rt) (count : Z) :
  NoDup xs -> 1 <= count ->
  let pool := or_fallback fallback (without_restricted db conditions xs) in
  let k := Z.to_nat (Z.min count (Z.of_nat (List.length pool))) in
  let selected := fst (rng_sample rt g pool k) in
  NoDup selected
  /\ 1 <= Z.of_nat (List.length selected) <= count
  /\ Z.of_nat (List.length selected) = Z.min count (Z.of_nat (List.length pool))
  /\ forall exercise, In exercise selected ->
       (In exercise xs
        /\ forall condition, In condition conditions ->
             ~ In exercise (restrictions_get (health_restrictions db) condition))
       \/ (exercise = fallback /\ without_restricted db conditions xs = []).
Proof.
  intros Hnd Hcount pool k selected.
  assert (Hpool : 1 <= Z.of_nat (List.length pool)).
  { subst pool. unfold or_fallback.
    destruct (without_restricted db conditions xs); cbn [List.length]; lia. }
  assert (Hk : (k <= List.length pool)%nat) by (subst k; lia).
  pose proof (sample_length rt laws g pool k Hk) as Hlen. fold selected in Hlen.
  destruct (sample_without_replacement rt laws g pool k Hk) as (rest & Hperm).
  fold selected in Hperm.
  assert (Hndpool : NoDup pool).
  { subst pool. unfold or_fallback.
    pose proof (without_restricted_nodup db conditions xs Hnd) as H.
    destruct (without_restricted db conditions xs); [repeat constructor; intros []|exact H]. }
  split.
  { eapply NoDup_app_remove_r. eapply Permutation_NoDup;
      [apply Permutation_sym; exact Hperm | exact Hndpool]. }
  split; [subst k; lia|]. split; [subst k; lia|].
  intros e He.
  assert (Hin : In e pool).
  { eapply Permutation_in; [exact Hperm|]. apply in_or_app. now left. }
  subst pool. unfold or_fallback in Hin.
  destruct (without_restricted db conditions xs) as [|y ys] eqn:Ew.
  - right. destruct Hin as [<-|[]]. split; reflexivity.
  - left. rewrite <- Ew in Hin. apply in_without_restricted in Hin as [Hxs Hc].
    split; [assumption|]. intros c Hcin. apply str_in_false. now apply Hc.
Qed.

(** Property X6. Every exercise of a daily challenge belongs to the list
    of the challenge's category and is excluded by none of the user's
    health conditions; the only other exercise a challenge can hold is
    Low-Impact Alternative, when the conditions exclude the whole
    category. No exercise comes twice, and there are at least one and at
    most as many as the table of the fitness level says (2, 3, 4). *)
Theorem daily_challenge_exercises_allowed (laws : RuntimeLaws rt) (w : World rt)
    (user : UserProfile) (date : datetime) (level : FitnessLevel) :
  installed rt self w -> fitness_level user = Member level -> valid date ->
  exists c l,
    fst (generate_daily_challenge rt self user (Some date) w) = Ok c
    /\ dict_find (workout_types (exercise_db self)) (c_type c) = Some l
    /\ NoDup (map entry_name (c_exercises c))
    /\ 1 <= Z.of_nat (List.length (c_exercises c))
         <= challenge_exercise_count (fitness_level user)
    /\ forall exercise, In exercise (map entry_name (c_exercises c)) ->
         (In exercise (nth l (heap w) [])
          /\ forall condition, In condition (health_conditions user) ->
               ~ In exercise
                   (restrictions_get (health_restrictions (exercise_db self)) condition))
         \/ (exercise = "Low-Impact Alternative"
             /\ without_restricted (exercise_db self) (health_conditions user)
                  (nth l (heap w) []) = []).
Proof.
  intros Hinst Hlevel Hvalid.
  destruct (daily_challenge_run rt self laws w user date level Hinst Hlevel Hvalid)
    as (l & cells & s & D & p & formatted & _ & El & _ & _ & _ & _ & Ef & Erun).
  pose proof (installed_catalog_nodup rt self w _ l Hinst El) as Hnd.
  pose proof (challenge_count_bounds (fitness_level user)) as Hc.
  destruct (sample_of_pool laws (exercise_db self) (health_conditions user)
              "Low-Impact Alternative" (nth l (heap w) [])
              (snd (challenge_choice rt user date))
              (challenge_exercise_count (fitness_level user)) Hnd ltac:(lia))
    as (Hnds & Hlen & _ & Hin).
  destruct (rmap_format_from _ _ _ _ _ _ _ Ef) as [Hnames _].
  eexists. exists l. rewrite Erun. cbn [fst].
  split; [reflexivity|]. cbn [c_type c_exercises]. split; [exact El|].
  rewrite Hnames. split; [exact Hnds|].
  split; [|exact Hin].
  replace (List.length formatted) with (List.length (map entry_name formatted))
    by apply length_map.
  rewrite Hnames. exact Hlen.
Qed.

(** Property X7. The category, the name, the date, the day, the difficulty
    label and the duration of a daily challenge are those of any other
    profile with the same age, fitness level and goal: the health
    conditions (like the gender, the height, the weight and the preferred
    days) have no part in them. A condition removes exercises from the
    pool of the category that was drawn; it never changes the category. *)
Theorem daily_challenge_type_ignores_conditions (laws : RuntimeLaws rt) (w : World rt)
    (user user' : UserProfile) (date : datetime) (level : FitnessLevel) :
  installed rt self w -> fitness_level user = Member level -> valid date ->
  age user' = age user -> fitness_level user' = fitness_level user ->
  goal user' = goal user ->
  exists c c',
    fst (generate_daily_challenge rt self user (Some date) w) = Ok c
    /\ fst (generate_daily_challenge rt self user' (Some date) w) = Ok c'
    /\ c_type c' = c_type c /\ c_name c' = c_name c /\ c_date c' = c_date c
    /\ c_day_of_week c' = c_day_of_week c /\ c_difficulty c' = c_difficulty c
    /\ c_duration c' = c_duration c.
Proof.
  intros Hinst Hlevel Hvalid Hage Hlev Hgoal.
  assert (Hlevel' : fitness_level user' = Member level) by congruence.
  destruct (daily_challenge_run rt self laws w user date level Hinst Hlevel Hvalid)
    as (l & cells & s & D & p & formatted & _ & _ & Es & _ & _ & _ & _ & Erun).
  destruct (daily_challenge_run rt self laws w user' date level Hinst Hlevel' Hvalid)
    as (l' & cells' & s' & D' & p' & formatted' & _ & _ & Es' & _ & _ & _ & _ & Erun').
  assert (Hchoice : challenge_choice rt user' date = challenge_choice rt user date).
  { unfold challenge_choice, challenge_split, challenge_seed_weekday, challenge_seed.
    now rewrite Hage, Hlev, Hgoal. }
  rewrite Hchoice in *. rewrite Hlev in Es'. rewrite Es in Es'. injection Es' as <-.
  eexists. eexists. rewrite Erun, Erun'. cbn [fst].
  split; [reflexivity|]. split; [reflexivity|].
  cbn [c_type c_name c_date c_day_of_week c_difficulty c_duration].
  repeat split; reflexivity.
Qed.

Lemma timed_minutes (n D : Z) (xs : list string) :
  forall a,
  rmap entry_minutes
    (map (fun '(i, exercise) =>
            TimedEntry exercise (str_of_int (exercise_duration i n D) ++ " minutes")%string)
         (enumerate_from a xs))
  = Ok (map (fun '(i, _) => exercise_duration i n D) (enumerate_from a xs)).
Proof.
  induction xs as [|x xs IH]; intros a; [reflexivity|].
  cbn [enumerate_from map rmap entry_minutes].
  rewrite duration_minutes_str. cbn [rbind]. now rewrite IH.
Qed.

(** The minutes of the exercises of a day that is neither Strength nor
    HIIT add up to the minutes of the day. *)
Lemma timed_minutes_sum (selected : list string) (workout_type : string)
    (p : Progression) (D : Z) (formatted : list ExerciseEntry) :
  selected <> [] -> 0 <= D ->
  format_exercises selected workout_type p D = Ok formatted ->
  workout_type <> "Strength" -> workout_type <> "HIIT" ->
  exists minutes,
    rmap entry_minutes formatted = Ok minutes
    /\ List.length minutes = List.length formatted
    /\ Zsum minutes = D.
Proof.
  intros Hne HD Ef Hs Hh.
  set (N := Z.of_nat (List.length selected)) in *.
  assert (HN : 1 <= N) by (subst N; destruct selected; [contradiction | cbn; lia]).
  unfold format_exercises, enumerate in Ef. fold N in Ef.
  rewrite format_timed_from in Ef; try lia; try (now apply String.eqb_neq).
  injection Ef as <-.
  eexists. split; [apply timed_minutes|]. split; [now rewrite !length_map|].
  unfold exercise_duration. cbv zeta.
  pose proof (Z.mod_pos_bound D N ltac:(lia)) as Hmod.
  rewrite (enumerate_from_minutes_sum (D / N) (D mod N) selected 0) by lia. fold N.
  pose proof (Z.div_mod D N ltac:(lia)). lia.
Qed.

(** Property X8. In a daily challenge of a category other than Strength
    and HIIT (Cardio and Flexibility, with the goals of the application),
    every exercise has a duration in minutes, and the minutes of the
    exercises add up to the minutes of the challenge's own duration. *)
Theorem daily_challenge_minutes_add_up (laws : RuntimeLaws rt) (w : World rt)
    (user : UserProfile) (date : datetime) (level : FitnessLevel) :
  installed rt self w -> fitness_level user = Member level -> valid date ->
  exists c D,
    fst (generate_daily_challenge rt self user (Some date) w) = Ok c
    /\ duration_minutes (c_duration c) = Ok D
    /\ (c_type c <> "Strength" -> c_type c <> "HIIT" ->
        exists minutes,
          rmap entry_minutes (c_exercises c) = Ok minutes
          /\ List.length minutes = List.length (c_exercises c)
          /\ Zsum minutes = D).
Proof.
  intros Hinst Hlevel Hvalid.
  destruct (daily_challenge_run rt self laws w user date level Hinst Hlevel Hvalid)
    as (l & cells & s & D & p & formatted & _ & El & _ & ED & HD & _ & Ef & Erun).
  pose proof (installed_catalog_nodup rt self w _ l Hinst El) as Hnd.
  pose proof (challenge_count_bounds (fitness_level user)) as Hc.
  destruct (sample_of_pool laws (exercise_db self) (health_conditions user)
              "Low-Impact Alternative" (nth l (heap w) [])
              (snd (challenge_choice rt user date))
              (challenge_exercise_count (fitness_level user)) Hnd ltac:(lia))
    as (_ & Hlen & _ & _).
  eexists. exists D. rewrite Erun. cbn [fst].
  split; [reflexivity|]. cbn [c_type c_exercises c_duration]. split; [exact ED|].
  intros Hs Hh.
  eapply timed_minutes_sum; [|exact HD|exact Ef|exact Hs|exact Hh].
  intros E. rewrite E in Hlen. cbn in Hlen. lia.
Qed.

(** Property X9. The equipment of a daily challenge is the equipment of
    its exercises: an item is listed exactly when the equipment table
    gives it for one of the exercises of the challenge, and no item is
    listed twice. *)
Theorem daily_challenge_equipment (laws : RuntimeLaws rt) (w : World rt)
    (user : UserProfile) (date : datetime) (level : FitnessLevel) :
  installed rt self w -> fitness_level user = Member level -> valid date ->
  (forall xs, NoDup xs -> Permutation (set_order rt xs) xs) ->
  exists c,
    fst (generate_daily_challenge rt self user (Some date) w) = Ok c
    /\ NoDup (c_required_equipment c)
    /\ forall item,
         In item (c_required_equipment c) <->
         exists exercise items,
           In exercise (map entry_name (c_exercises c))
           /\ dict_find (equipment_mapping (exercise_db self)) exercise = Some items
           /\ In item items.
Proof.
  intros Hinst Hlevel Hvalid Hperm.
  destruct (daily_challenge_run rt self laws w user date level Hinst Hlevel Hvalid)
    as (l & cells & s & D & p & formatted & _ & _ & _ & _ & _ & _ & Ef & Erun).
  destruct (rmap_format_from _ _ _ _ _ _ _ Ef) as [Hnames _].
  eexists. rewrite Erun. cbn [fst]. split; [reflexivity|].
  cbn [c_required_equipment c_exercises]. rewrite Hnames.
  now apply required_equipment_spec.
Qed.

(** Property X10. [generate_daily_challenge] reads
    [user.fitness_level.value] last. For a fitness level that is no member
    of the enum (the dataclass does not check it) every step before
    succeeds on the planner of the application: the generator is
    re-seeded, the category and the exercises are drawn, lists are added
    to the store; then the call fails with [AttributeError]. *)
Theorem daily_challenge_needs_member (laws : RuntimeLaws rt) (w : World rt)
    (user : UserProfile) (date : datetime) (shown : string) :
  installed rt self w -> fitness_level user = Foreign shown -> valid date ->
  fst (generate_daily_challenge rt self user (Some date) w) = Raise AttributeError
  /\ later rt w (snd (generate_daily_challenge rt self user (Some date) w))
  /\ exists l,
       dict_find (workout_types (exercise_db self)) (fst (challenge_choice rt user date))
       = Some l
       /\ let pool :=
            or_fallback "Low-Impact Alternative"
              (without_restricted (exercise_db self) (health_conditions user)
                 (nth l (heap w) [])) in
          rng (snd (generate_daily_challenge rt self user (Some date) w))
          = snd (rng_sample rt (snd (challenge_choice rt user date)) pool
                   (Z.to_nat (Z.min (challenge_exercise_count (fitness_level user))
                                    (Z.of_nat (List.length pool))))).
Proof.
  intros Hinst Hlevel Hvalid.
  destruct (daily_challenge_steps rt self laws w user date Hinst Hvalid)
    as (l & cells & s & D & p & formatted & _ & El & _ & _ & _ & _ & _ & Erun).
  rewrite Erun.
  replace (level_dot_value (fitness_level user)) with (@Raise string AttributeError)
    by (now rewrite Hlevel).
  cbn [fst snd].
  split; [reflexivity|]. split; [exists cells; reflexivity|].
  exists l. split; [exact El|]. reflexivity.
Qed.

Ltac step_lift :=
  match goal with
  | |- context [bind rt (lift rt ?r) _ _] =>
      let a := fresh "a" in let e := fresh "e" in
      destruct r as [a|e] eqn:?;
      [ rewrite !(bind_ok rt (lift rt (Ok a)) _ _ _ a) by reflexivity
      | rewrite !(bind_raise rt (lift rt (Raise e)) _ _ _ e) by reflexivity ]
  end.

(** The generator after a daily challenge, in a world and in a later one. *)
Lemma daily_challenge_generator (user : UserProfile) (date : datetime) (w w' : World rt) :
  catalog_allocated rt self w -> later rt w w' ->
  rng (snd (generate_daily_challenge rt self user (Some date) w'))
  = rng (snd (generate_daily_challenge rt self user (Some date) w))
  /\ clock (snd (generate_daily_challenge rt self user (Some date) w')) = clock w'.
Proof.
  intros Hcat Hlater.
  unfold generate_daily_challenge.
  rewrite !(bind_ok rt (ret rt date) _ _ _ date) by reflexivity.
  rewrite (bind_ok rt (random_seed rt _) _ w
             (with_rng rt w (rng_seed rt (challenge_seed rt user date))) tt)
    by reflexivity.
  rewrite (bind_ok rt (random_seed rt _) _ w'
             (with_rng rt w' (rng_seed rt (challenge_seed rt user date))) tt)
    by reflexivity.
  destruct (dict_getitem (goal_workout_mapping self) "Weight Loss") as [weight_loss|e].
  2:{ rewrite !(bind_raise rt (lift rt (Raise e)) _ _ _ e) by reflexivity.
      split; reflexivity. }
  rewrite !(bind_ok rt (lift rt (Ok weight_loss)) _ _ _ weight_loss) by reflexivity.
  cbv zeta.
  set (goal_data := dict_get (goal_workout_mapping self) (goal user) weight_loss).
  set (seed2 := rng_seed rt (challenge_seed_weekday rt user date)).
  rewrite (bind_ok rt (random_seed rt _) _ (with_rng rt w _) (with_rng rt w seed2) tt)
    by reflexivity.
  rewrite (bind_ok rt (random_seed rt _) _ (with_rng rt w' _) (with_rng rt w' seed2) tt)
    by reflexivity.
  set (population := dict_keys (workout_split goal_data)).
  set (weights := map snd (workout_split goal_data)).
  assert (Hch : exists r g,
             random_choices rt population weights (with_rng rt w seed2)
             = (r, with_rng rt w g)
             /\ random_choices rt population weights (with_rng rt w' seed2)
                = (r, with_rng rt w' g)).
  { unfold random_choices.
    destruct (negb (Nat.eqb (List.length weights) (List.length population)));
      [exists (Raise ValueError), seed2; split; reflexivity|].
    destruct population; [exists (Raise IndexError), seed2; split; reflexivity|].
    destruct (leb (weights_total weights) (S754_zero false));
      [exists (Raise ValueError), seed2; split; reflexivity|].
    destruct (negb (is_finite (weights_total weights)));
      [exists (Raise ValueError), seed2; split; reflexivity|].
    cbn [rng with_rng heap clock].
    destruct (rng_choices rt seed2 (s :: population) weights) as [x g].
    exists (Ok x), g. split; reflexivity. }
  destruct Hch as (r & g & E1 & E2).
  destruct r as [workout_type|e].
  2:{ rewrite (bind_raise rt _ _ _ _ _ E1), (bind_raise rt _ _ _ _ _ E2).
      split; reflexivity. }
  rewrite (bind_ok rt _ _ _ _ _ E1), (bind_ok rt _ _ _ _ _ E2).
  pose proof (daily_challenge_selection_run rt self (with_rng rt w g) workout_type user) as S1.
  pose proof (daily_challenge_selection_run rt self (with_rng rt w' g) workout_type user) as S2.
  destruct (dict_find (workout_types (exercise_db self)) workout_type) as [l|] eqn:El.
  2:{ rewrite (bind_raise rt _ _ _ _ _ S1), (bind_raise rt _ _ _ _ _ S2).
      split; reflexivity. }
  cbv zeta in S1, S2. destruct S1 as (cells1 & S1). destruct S2 as (cells2 & S2).
  cbn [heap with_rng rng] in S1, S2.
  rewrite (later_frame rt w w' l Hlater (Hcat _ _ El)) in S2.
  rewrite (bind_ok rt _ _ _ _ _ S1), (bind_ok rt _ _ _ _ _ S2).
  repeat step_lift; (split; reflexivity).
Qed.

(** Property X11. A daily challenge re-seeds the generator of the process:
    the generator state it leaves behind is the same from any two states
    of the store, of the generator and of the clock, so whatever is drawn
    after a challenge of a given profile and date is drawn from a fixed
    state. The clock is not touched. *)
Theorem daily_challenge_resets_generator (user : UserProfile) (date : datetime)
    (w w1 w2 : World rt) :
  catalog_allocated rt self w -> later rt w w1 -> later rt w w2 ->
  rng (snd (generate_daily_challenge rt self user (Some date) w1))
  = rng (snd (generate_daily_challenge rt self user (Some date) w2))
  /\ clock (snd (generate_daily_challenge rt self user (Some date) w1)) = clock w1.
Proof.
  intros Hcat H1 H2.
  destruct (daily_challenge_generator user date w w1 Hcat H1) as [E1 C1].
  destruct (daily_challenge_generator user date w w2 Hcat H2) as [E2 _].
  split; [congruence | exact C1].
Qed.

End ChallengeProperties.

(* ------------------------------------------------------------------ *)
(** ** What a weekly plan holds *)

Lemma in_py_range (a b x : Z) : In x (py_range a b) <-> a <= x < b.
Proof.
  unfold py_range. rewrite in_map_iff. split.
  - intros (i & <- & Hi). apply in_seq in Hi. lia.
  - intros H. exists (Z.to_nat (x - a)). split; [lia|]. apply in_seq. lia.
Qed.

Lemma py_range_length (a b : Z) : List.length (py_range a b) = Z.to_nat (b - a).
Proof. unfold py_range. now rewrite length_map, length_seq. Qed.

Lemma goal_table_complete (g : string) (goal_data : GoalData) :
  dict_find goal_table g = Some goal_data -> complete_policy goal_data = true.
Proof.
  unfold goal_table. cbn [dict_find].
  repeat match goal with
         | |- context [if ?b then _ else _] => destruct b
         end;
    intros E; try discriminate; injection E as <-; vm_compute; reflexivity.
Qed.

Section PlanContents.

Context (rt : Runtime) (self : WorkoutPlanner).

Lemma mapM_run {A B : Type} (I : World rt -> Prop) (P : A -> B -> Prop)
    (f : A -> M rt B) (xs : list A) :
  (forall x w, In x xs -> I w -> exists y w', f x w = (Ok y, w') /\ I w' /\ P x y) ->
  forall w, I w ->
  exists ys w', mapM rt f xs w = (Ok ys, w') /\ I w' /\ Forall2 P xs ys.
Proof.
  induction xs as [|x xs IH]; intros H w Hw.
  - exists [], w. repeat split; [assumption | constructor].
  - destruct (H x w (or_introl eq_refl) Hw) as (y & w1 & E1 & I1 & P1).
    destruct (IH (fun x' w' Hin => H x' w' (or_intror Hin)) w1 I1)
      as (ys & w2 & E2 & I2 & P2).
    exists (y :: ys), w2. cbn [mapM].
    rewrite (bind_ok rt _ _ _ _ _ E1), (bind_ok rt _ _ _ _ _ E2).
    repeat split; [assumption | now constructor].
Qed.

Lemma dict_find_key {V : Type} (d : list (string * V)) (k : string) (v : V) :
  dict_find d k = Some v -> In k (dict_keys d).
Proof.
  induction d as [|[k' v'] d IH]; cbn [dict_find dict_keys map fst]; [discriminate|].
  destruct (String.eqb_spec k k') as [->|Hne]; [now left|].
  intros H. right. now apply IH.
Qed.

Lemma select_workout_type_run (w : World rt) (workout_split : list (string * float)) :
  workout_split <> [] ->
  exists workout_type,
    select_workout_type rt workout_split w
    = (Ok workout_type, with_rng rt w (snd (rng_random rt (rng w))))
    /\ In workout_type (dict_keys workout_split).
Proof.
  intros Hsplit.
  unfold select_workout_type, bind, random_random, lift, with_rng.
  destruct (rng_random rt (rng w)) as [rand g]. cbn [snd].
  unfold select_for.
  destruct (select_loop rand (of_Z 0) workout_split) as [t|] eqn:E.
  - exists t. split; [reflexivity|]. eapply select_loop_member. exact E.
  - destruct workout_split as [|[k v] items]; [contradiction|].
    exists k. split; [reflexivity | now left].
Qed.

(** One day of a plan in the week [week]. *)
Lemma plan_day_run (laws : RuntimeLaws rt) (w0 w : World rt) (user : UserProfile)
    (goal_data : GoalData) (week : Z) (p : Progression) :
  installed rt self w0 -> later rt w0 w ->
  complete_policy goal_data = true -> workout_split goal_data <> [] ->
  1 <= week <= 2 ^ 20 ->
  calculate_progression week (calculate_difficulty_modifier user) = Ok p ->
  exists day w',
    bind rt (select_workout_type rt (workout_split goal_data)) (fun workout_type =>
    bind rt (lift rt (dict_getitem (intensity_range goal_data) workout_type)) (fun intensity =>
    generate_daily_workout rt self workout_type intensity user p)) w
    = (Ok day, w')
    /\ later rt w0 w'
    /\ plan_day self (heap w0) user goal_data day.
Proof.
  intros Hinst Hlater Hpolicy Hsplit Hweek Ep.
  assert (Hinstw : installed rt self w) by (eapply installed_later; eassumption).
  destruct (select_workout_type_run w (workout_split goal_data) Hsplit)
    as (wt & Ewt & Hkey).
  set (w1 := with_rng rt w (snd (rng_random rt (rng w)))) in *.
  rewrite (bind_ok rt _ _ _ _ _ Ewt).
  unfold complete_policy in Hpolicy. rewrite forallb_forall in Hpolicy.
  specialize (Hpolicy wt Hkey). apply andb_prop in Hpolicy as [Hcat Hint].
  assert (Hwt : In wt category_names).
  { unfold str_in in Hcat. apply existsb_exists in Hcat as (y & Hy & Heq).
    apply String.eqb_eq in Heq. now subst. }
  destruct (dict_find (intensity_range goal_data) wt) as [intensity|] eqn:Eint;
    [|discriminate].
  unfold dict_getitem. rewrite Eint.
  rewrite (bind_ok rt (lift rt (Ok intensity)) _ w1 w1 intensity) by reflexivity.
  (* the selection *)
  destruct (installed_category rt self w wt Hinstw Hwt) as (l & El).
  unfold generate_daily_workout.
  pose proof (daily_workout_selection_run rt self w1 wt user p) as Hrun.
  rewrite El in Hrun. cbv zeta in Hrun. destruct Hrun as (cells & Hrun).
  destruct (plan_count_positive user week Hweek) as (p' & count & Ep' & Ecount & Hcount).
  rewrite Ep in Ep'. injection Ep' as <-.
  rewrite Ecount in Hrun.
  replace (count <? 0) with false in Hrun by (symmetry; apply Z.ltb_ge; lia).
  rewrite (bind_ok rt _ _ _ _ _ Hrun).
  assert (Hcontents : nth l (heap w1) [] = nth l (heap w0) []).
  { subst w1. cbn [heap with_rng]. apply later_frame; [assumption|].
    apply (installed_allocated rt self w0 Hinst wt l El). }
  rewrite Hcontents in *.
  pose proof (installed_catalog_nodup rt self w0 wt l Hinst El) as Hnd.
  destruct (sample_of_pool rt laws (exercise_db self) (health_conditions user)
              (workout_fallback wt) (nth l (heap w0) []) (rng w1) count Hnd Hcount)
    as (Hnds & Hlen & _ & Hin).
  match type of Hrun with _ = (Ok ?sel, ?wx) => set (selected := sel) in *; set (w2 := wx) in * end.
  (* the duration and the formatting *)
  destruct (duration_ok wt (fitness_level user)) as (s & D & Es & ED & HD).
  assert (Hs : exists minutes, s = (str_of_int minutes ++ " minutes")%string).
  { unfold calculate_duration in Es.
    destruct (str_in wt ["HIIT"; "Cardio"]).
    - destruct (int_of_float _) as [n|]; [|discriminate]. cbn [rbind] in Es.
      injection Es as <-. now exists n.
    - injection Es as <-. now eexists. }
  rewrite Es. rewrite (bind_ok rt (lift rt (Ok s)) _ _ _ s) by reflexivity.
  rewrite ED. rewrite (bind_ok rt (lift rt (Ok D)) _ _ _ D) by reflexivity.
  destruct (progression_ok week (calculate_difficulty_modifier user)
              ltac:(lia) (difficulty_bounded user)) as (p' & Ep' & Hv & Hi).
  rewrite Ep in Ep'. injection Ep' as <-.
  pose proof (format_exercises_ok selected wt p D Hv Hi) as Hfmt.
  destruct (format_exercises selected wt p D) as [formatted|] eqn:Ef; [|contradiction].
  rewrite (bind_ok rt (lift rt (Ok formatted)) _ _ _ formatted) by reflexivity.
  destruct (rmap_format_from _ _ _ _ _ _ _ Ef) as [Hnames Hfits].
  eexists. exists w2. split; [reflexivity|]. split.
  { destruct Hlater as [cells0 Hc0]. exists (cells0 ++ cells).
    subst w2 w1. cbn [heap with_rng grow]. now rewrite Hc0, app_assoc. }
  unfold plan_day. cbn [w_type w_intensity w_duration w_exercises].
  split; [assumption|]. split; [exact Eint|].
  split.
  { destruct Hs as (m & Hm). exists m. split; [exact Hm|]. split; [exact Es|].
    intros Hst Hhi.
    assert (m = D) as ->.
    { rewrite Hm, duration_minutes_str in ED. now injection ED. }
    destruct (timed_minutes_sum selected wt p D formatted) as (mins & Em & _ & Hsum);
      try assumption.
    - intros E. rewrite E in Hlen. cbn in Hlen. lia.
    - now exists mins. }
  rewrite Hnames. split; [assumption|].
  split.
  { replace (List.length formatted) with (List.length (map entry_name formatted))
      by apply length_map.
    rewrite Hnames. lia. }
  split; [assumption|].
  exists l. split; [assumption | exact Hin].
Qed.

(** What [generate_workout_plan] returns on the planner of the
    application for a goal of the table. *)
Lemma workout_plan_run (laws : RuntimeLaws rt) (w : World rt) (user : UserProfile)
    (weeks : Z) (goal_data : GoalData) :
  installed rt self w ->
  dict_find goal_table (goal user) = Some goal_data ->
  weeks <= 2 ^ 20 ->
  exists plan w',
    generate_workout_plan rt self user weeks w = (Ok plan, w')
    /\ later rt w w'
    /\ p_user_profile plan = user
    /\ p_start_date plan = clock w
    /\ Forall2
         (fun week '(label, weekly) =>
            label = ("Week " ++ str_of_int week)%string
            /\ calculate_progression week (calculate_difficulty_modifier user)
               = Ok (progression_level weekly)
            /\ List.length (workouts weekly) = Z.to_nat (preferred_days user)
            /\ Forall (plan_day self (heap w) user goal_data) (workouts weekly))
         (py_range 1 (weeks + 1)) (p_weeks plan).
Proof.
  intros Hinst Hgoal Hweeks.
  unfold generate_workout_plan.
  rewrite (installed_goals rt self w Hinst).
  unfold dict_getitem. rewrite Hgoal.
  rewrite (bind_ok rt (lift rt (Ok goal_data)) _ w w goal_data) by reflexivity.
  rewrite (bind_ok rt (datetime_now rt) _ w w (clock w)) by reflexivity.
  pose proof (goal_table_complete _ _ Hgoal) as Hpolicy.
  assert (Hsplit : workout_split goal_data <> []).
  { revert Hgoal. unfold goal_table. cbn [dict_find].
    repeat match goal with
           | |- context [if ?b then _ else _] => destruct b
           end;
      intros E; try discriminate; injection E as <-; discriminate. }
  match goal with
  | |- context [mapM rt ?f (py_range 1 (weeks + 1))] => set (one_week := f)
  end.
  destruct (mapM_run (fun w' => later rt w w')
              (fun week '(label, weekly) =>
                 label = ("Week " ++ str_of_int week)%string
                 /\ calculate_progression week (calculate_difficulty_modifier user)
                    = Ok (progression_level weekly)
                 /\ List.length (workouts weekly) = Z.to_nat (preferred_days user)
                 /\ Forall (plan_day self (heap w) user goal_data) (workouts weekly))
              one_week (py_range 1 (weeks + 1))) with (w := w)
    as (ws & w' & Erun & Hlater & Hall).
  - intros week w1 Hin Hw1. apply in_py_range in Hin. subst one_week. cbv beta.
    destruct (progression_ok week (calculate_difficulty_modifier user)
                ltac:(lia) (difficulty_bounded user)) as (p & Ep & _).
    rewrite Ep.
    rewrite (bind_ok rt (lift rt (Ok p)) _ w1 w1 p) by reflexivity.
    match goal with
    | |- context [mapM rt ?f (py_range 0 (preferred_days user))] => set (one_day := f)
    end.
    destruct (mapM_run (fun w' => later rt w w')
                (fun (_ : Z) day => plan_day self (heap w) user goal_data day)
                one_day (py_range 0 (preferred_days user))) with (w := w1)
      as (days & w2 & Edays & Hl2 & Hdays).
    + intros d w2 _ Hw2. subst one_day. cbv beta.
      apply (plan_day_run laws w w2 user goal_data week p); auto; lia.
    + assumption.
    + rewrite (bind_ok rt _ _ _ _ _ Edays).
      eexists. exists w2. split; [reflexivity|]. split; [assumption|].
      cbn [progression_level workouts].
      split; [reflexivity|]. split; [reflexivity|]. split.
      * apply Forall2_length in Hdays. rewrite <- Hdays, py_range_length. f_equal. lia.
      * clear - Hdays. induction Hdays; constructor; assumption.
  - apply later_refl.
  - rewrite (bind_ok rt _ _ _ _ _ Erun).
    eexists. exists w'. split; [reflexivity|].
    cbn [p_user_profile p_start_date p_weeks]. repeat split; assumption.
Qed.

(** Property X12. On the planner of the application,
    [generate_workout_plan] returns a plan for every goal of the goal
    table, every fitness level (a value outside the enum included), any
    health conditions and any number of weeks up to 2^20. The plan carries
    the profile and the time of the call and has one entry per week 1,
    ..., weeks, labelled Week 1, Week 2, ... in this order (none for weeks
    <= 0), each with the progression of its week and with exactly
    preferred_days workouts (none for preferred_days <= 0). The call only
    adds lists to the store. *)
Theorem generate_workout_plan_shape (laws : RuntimeLaws rt) (w : World rt)
    (user : UserProfile) (weeks : Z) (goal_data : GoalData) :
  installed rt self w ->
  dict_find goal_table (goal user) = Some goal_data ->
  weeks <= 2 ^ 20 ->
  exists plan w',
    generate_workout_plan rt self user weeks w = (Ok plan, w')
    /\ later rt w w'
    /\ p_user_profile plan = user
    /\ p_start_date plan = clock w
    /\ map fst (p_weeks plan)
       = map (fun week => ("Week " ++ str_of_int week)%string) (py_range 1 (weeks + 1))
    /\ List.length (p_weeks plan) = Z.to_nat weeks
    /\ map (fun '(_, weekly) => Ok (progression_level weekly)) (p_weeks plan)
       = map (fun week => calculate_progression week (calculate_difficulty_modifier user))
             (py_range 1 (weeks + 1))
    /\ Forall (fun '(_, weekly) =>
                 List.length (workouts weekly) = Z.to_nat (preferred_days user))
              (p_weeks plan).
Proof.
  intros Hinst Hgoal Hweeks.
  destruct (workout_plan_run laws w user weeks goal_data Hinst Hgoal Hweeks)
    as (plan & w' & Erun & Hlater & Hu & Hd & Hall).
  exists plan, w'.
  split; [assumption|]. split; [assumption|]. split; [assumption|]. split; [assumption|].
  assert (Hlen : List.length (p_weeks plan) = Z.to_nat weeks).
  { apply Forall2_length in Hall. rewrite <- Hall, py_range_length. f_equal. lia. }
  split; [|split; [exact Hlen|split]].
  - clear - Hall. induction Hall as [|week [label weekly] ? ? (E & _) _ IH]; cbn [map fst];
      [reflexivity | now rewrite IH, E].
  - clear - Hall.
    induction Hall as [|week [label weekly] ? ? (_ & E & _) _ IH]; cbn [map];
      [reflexivity | now rewrite IH, E].
  - clear - Hall.
    induction Hall as [|week [label weekly] ? ? (_ & _ & H & _) _ IH]; constructor; assumption.
Qed.

(** Property X13. Every workout of a plan has a category of the goal's
    split, the intensity the goal gives for this category and the duration
    of the category and fitness level; it has at least one exercise and
    none twice, formatted for its category, and on a day that is neither
    Strength nor HIIT the minutes of the exercises add up to the minutes
    of the day; and every exercise belongs to the list of the category and
    is excluded by none of the user's health conditions, or is the
    fallback of the category (Low-Impact Walking for Cardio, Bodyweight
    Isometric Holds otherwise) when the conditions exclude the whole list. *)
Theorem generate_workout_plan_days (laws : RuntimeLaws rt) (w : World rt)
    (user : UserProfile) (weeks : Z) (goal_data : GoalData) :
  installed rt self w ->
  dict_find goal_table (goal user) = Some goal_data ->
  weeks <= 2 ^ 20 ->
  exists plan,
    fst (generate_workout_plan rt self user weeks w) = Ok plan
    /\ forall label weekly day,
         In (label, weekly) (p_weeks plan) -> In day (workouts weekly) ->
         plan_day self (heap w) user goal_data day.
Proof.
  intros Hinst Hgoal Hweeks.
  destruct (workout_plan_run laws w user weeks goal_data Hinst Hgoal Hweeks)
    as (plan & w' & Erun & _ & _ & _ & Hall).
  exists plan. rewrite Erun. split; [reflexivity|].
  intros label weekly day Hin Hday.
  clear - Hall Hin Hday.
  induction Hall as [|week [label' weekly'] ? ? (_ & _ & _ & H) _ IH]; [destruct Hin|].
  destruct Hin as [E|Hin]; [|now apply IH].
  injection E as -> ->. rewrite Forall_forall in H. now apply H.
Qed.

End PlanContents.

(* ------------------------------------------------------------------ *)
(** ** The batch of challenges *)

Section BatchBounds.

Context (rt : Runtime) (self : WorkoutPlanner).

Lemma batch_loop_appends (user : UserProfile) (end_date : parsed_date) :
  forall (remaining : nat) (current_date : parsed_date) (challenges cs : list DailyChallenge)
         (w w' : World rt),
  batch_loop rt self user remaining current_date end_date challenges w = (Done cs, w') ->
  exists new,
    cs = challenges ++ new
    /\ (List.length new <= remaining)%nat
    /\ (remaining <> O -> parsed_le current_date end_date = Done true -> new <> []).
Proof.
  induction remaining as [|remaining IH]; intros current challenges cs w w'; cbn [batch_loop].
  - destruct (parsed_le current end_date) as [[|]|e]; [| |discriminate];
      intros E; injection E as <- <-; exists []; rewrite app_nil_r;
      repeat split; solve [cbn; lia | congruence].
  - destruct (parsed_le current end_date) as [[|]|e]; [| |discriminate].
    + destruct (generate_daily_challenge_parsed rt self user current w) as [[c|e] w1];
        [|discriminate].
      destruct (parsed_add_days current 1) as [next|e]; [|discriminate].
      intros E. apply IH in E as (new & -> & Hlen & _).
      exists (c :: new). rewrite <- app_assoc. cbn [app List.length].
      repeat split; [lia | discriminate].
    + intros E. injection E as <- <-. exists []. rewrite app_nil_r.
      repeat split; [cbn; lia | discriminate].
Qed.

(** [a > b] and [a <= b] raise together and disagree otherwise. *)
Lemma parsed_gt_le (a b : parsed_date) :
  match parsed_gt a b with
  | Done g => parsed_le a b = Done (negb g)
  | Fail e => e = TypeError /\ parsed_le a b = Fail TypeError
  end.
Proof.
  destruct a as [x|x tx], b as [y|y ty]; cbn [parsed_gt parsed_le]; try (split; reflexivity).
  - unfold gt. now rewrite negb_involutive.
  - destruct (tz_object tx =? tz_object ty).
    + unfold gt. now rewrite negb_involutive.
    + f_equal. rewrite Z.ltb_antisym. now rewrite negb_involutive.
Qed.

(** Property X14. The three responses of the batch of challenges. A range
    whose start is after its end is refused with a message and nothing is
    run: the store, the generator and the clock are as before. Otherwise
    the request either fails as a whole or answers with at least one and
    at most 31 challenges, and the count it reports is their number. A
    request fails as a whole, too, when its two dates do not compare (one
    has a zone, the other has none): with [TypeError], and nothing is
    run. *)
Theorem batch_response_cases (user : UserProfile) (start_date end_date : parsed_date)
    (w : World rt) :
  match get_daily_challenges_batch rt self user start_date end_date w with
  | (BatchError message, w') =>
      parsed_gt start_date end_date = Done true
      /\ message = "Start date must be before or equal to end date"
      /\ w' = w
  | (BatchOk daily_challenges count, _) =>
      parsed_le start_date end_date = Done true
      /\ count = Z.of_nat (List.length daily_challenges)
      /\ 1 <= count <= 31
  | (BatchFailure e, w') =>
      parsed_le start_date end_date = Done true
      \/ (parsed_le start_date end_date = Fail TypeError /\ e = TypeError /\ w' = w)
  end.
Proof.
  unfold get_daily_challenges_batch.
  pose proof (parsed_gt_le start_date end_date) as Hle.
  destruct (parsed_gt start_date end_date) as [[|]|e]; cbn [negb] in Hle.
  - repeat split.
  - destruct (batch_loop rt self user days_limit start_date end_date [] w)
      as [[cs|e] w'] eqn:E; [|now left].
    apply batch_loop_appends in E as (new & -> & Hlen & Hne).
    cbn [app]. split; [exact Hle|]. split; [reflexivity|].
    specialize (Hne ltac:(discriminate) Hle).
    unfold days_limit in Hlen. destruct new; [contradiction|]. cbn [List.length] in *. lia.
  - right. destruct Hle as [-> Hle]. repeat split. exact Hle.
Qed.

(** Property X25. Challenges are only made for two naive dates. When a
    date of the request carries a zone (a text with [Z], an offset or a
    zone name), the range check refuses the request or the request fails
    with [TypeError]: no challenge is returned, and nothing is added to
    the store. *)
Theorem batch_needs_naive_dates (user : UserProfile) (start_date end_date : parsed_date)
    (w : World rt) :
  is_naive start_date && is_naive end_date = false ->
  match get_daily_challenges_batch rt self user start_date end_date w with
  | (BatchError message, w') => parsed_gt start_date end_date = Done true /\ w' = w
  | (BatchOk _ _, _) => False
  | (BatchFailure e, w') => e = TypeError /\ heap w' = heap w /\ clock w' = clock w
  end.
Proof.
  intros Hzone. unfold get_daily_challenges_batch.
  pose proof (parsed_gt_le start_date end_date) as Hle.
  destruct (parsed_gt start_date end_date) as [[|]|e]; cbn [negb] in Hle.
  - split; reflexivity.
  - unfold days_limit. cbn [batch_loop]. rewrite Hle.
    destruct start_date as [s|s tz], end_date as [e|e tz']; try discriminate.
    cbn [generate_daily_challenge_parsed]. repeat split.
  - destruct Hle as [-> _]. repeat split.
Qed.

End BatchBounds.

(* ------------------------------------------------------------------ *)
(** ** Challenges of dates before 2025 *)

Lemma pos_ge_finite_ge (L : Z) (x : float) : pos_ge L x -> finite_ge false L x.
Proof. destruct x as [| | |[] m e]; cbn; tauto. Qed.

Lemma mul_finite_ge (lo1 hi1 lo2 hi2 L1 L2 : Z) (sx sy : bool) (x y : float) :
  bounded lo1 hi1 x -> bounded lo2 hi2 y -> finite_ge sx L1 x -> finite_ge sy L2 y ->
  -1074 <= lo1 + lo2 -> hi1 + hi2 <= 971 ->
  finite_ge (xorb sx sy) (L1 + L2 - 1) (mul x y).
Proof.
  intros Hx Hy Px Py Hlo Hhi.
  destruct x as [s1|s1| |s1 mx ex]; destruct y as [s2|s2| |s2 my ey];
    cbn [finite_ge] in Px, Py; try contradiction.
  destruct Px as [-> Px]. destruct Py as [-> Py].
  cbn [bounded] in Hx, Hy.
  unfold mul, SFmul.
  pose proof (Zdigits2_log2 (Zpos mx) ltac:(lia)) as Hdx.
  pose proof (Zdigits2_log2 (Zpos my) ltac:(lia)) as Hdy.
  pose proof (Zdigits2_log2 (Zpos (mx * my)) ltac:(lia)) as Hdxy.
  pose proof (Z.log2_mul_above (Zpos mx) (Zpos my) ltac:(lia) ltac:(lia)) as Hm.
  pose proof (Z.log2_mul_below (Zpos mx) (Zpos my) ltac:(lia) ltac:(lia)) as Hm'.
  rewrite <- Pos2Z.inj_mul in Hm, Hm'. simpl Zdigits2 in Hdx, Hdy.
  destruct (binary_round_aux_shape (xorb sx sy) (Zpos (mx * my)) (ex + ey) loc_Exact)
    as (m & e & E & He & Hmag); try lia.
  rewrite E. cbn [finite_ge]. split; [reflexivity | lia].
Qed.

Lemma of_Z_negative (n L : Z) :
  n <= - 2 ^ (L - 1) -> 1 <= L -> - 2 ^ 971 < n -> finite_ge true L (of_Z n).
Proof.
  intros Hlo HL Hmax. unfold of_Z, binary_normalize.
  assert (n < 0) by (pose proof (Z.pow_pos_nonneg 2 (L - 1)); lia).
  destruct n as [|p|p]; try lia.
  assert (Hp : Zpos p < 2 ^ 971) by lia.
  assert (Hp' : 2 ^ (L - 1) <= Zpos p) by lia.
  assert (Hl : Z.log2 (Zpos p) < 971) by (apply Z.log2_lt_pow2; lia).
  assert (Hl' : L - 1 <= Z.log2 (Zpos p)) by (apply Z.log2_le_pow2; lia).
  pose proof (Zdigits2_log2 (Zpos p) ltac:(lia)) as Hd. simpl Zdigits2 in Hd.
  destruct (binary_round_shape true p 0 ltac:(lia) ltac:(lia)) as (m & e & E & _ & Hmag).
  rewrite E. cbn [finite_ge]. split; [reflexivity | lia].
Qed.

(** The sum of a float and of a negative one at least four times as
    large is negative, of at least half the magnitude of the latter. *)
Lemma add_dominated (lo hi L : Z) (x y : float) :
  bounded lo hi x -> bounded lo hi y -> finite_ge true L y ->
  (match x with
   | S754_finite _ mx ex => Zpos (digits2_pos mx) + ex + 2 <= L
   | _ => True
   end) ->
  -1074 <= lo -> hi <= 970 ->
  finite_ge true (L - 1) (add x y).
Proof.
  intros Hx Hy Py Hdom Hlo Hhi.
  destruct y as [sy|sy| |sy my ey]; cbn [finite_ge] in Py; try contradiction.
  destruct Py as [-> Py].
  destruct x as [sx|sx| |sx mx ex]; cbn [bounded] in Hx; try contradiction.
  - cbn [add SFadd finite_ge]. split; [reflexivity | lia].
  - cbn [bounded] in Hy. unfold add, SFadd.
    set (ez := Z.min ex ey).
    pose proof (shl_align_shape mx ex ez) as [Hsx Hdx].
    pose proof (shl_align_shape my ey ez) as [Hsy Hdy].
    pose proof (shl_align_value mx ex ez ltac:(lia)) as Hvx.
    pose proof (shl_align_value my ey ez ltac:(lia)) as Hvy.
    set (ax := fst (shl_align mx ex ez)) in *.
    set (ay := fst (shl_align my ey ez)) in *.
    replace (snd (shl_align mx ex ez)) with ez in Hdx by lia.
    replace (snd (shl_align my ey ez)) with ez in Hdy by lia.
    pose proof (Zdigits2_log2 (Zpos ay) ltac:(lia)) as Hday. simpl Zdigits2 in Hday.
    pose proof (Z.log2_spec (Zpos ay) ltac:(lia)) as [Hay _].
    set (k := Zpos (digits2_pos my) + ey - ez) in *.
    assert (Hk : 2 <= k).
    { pose proof (Zdigits2_log2 (Zpos ax) ltac:(lia)) as Hdax. simpl Zdigits2 in Hdax.
      pose proof (Z.log2_nonneg (Zpos ax)). lia. }
    assert (Hax : Zpos ax < 2 ^ (k - 2)).
    { eapply Z.lt_le_trans; [exact Hvx|]. apply Z.pow_le_mono_r; lia. }
    replace (Z.log2 (Zpos ay)) with (k - 1) in Hay by lia.
    assert (Hpow : 2 ^ (k - 1) = 2 * 2 ^ (k - 2)).
    { replace (k - 1) with (k - 2 + 1) by lia. rewrite Z.pow_add_r by lia.
      change (2 ^ 1) with 2. lia. }
    assert (Hhiy : Zpos ay < 2 ^ (hi - ez)).
    { eapply Z.lt_le_trans; [exact Hvy|]. apply Z.pow_le_mono_r; lia. }
    assert (Hhix : Zpos ax < 2 ^ (hi - ez)).
    { eapply Z.lt_le_trans; [exact Hvx|]. apply Z.pow_le_mono_r; lia. }
    assert (Hhe : 0 <= hi - ez) by lia.
    assert (Hpow' : 2 ^ (hi + 1 - ez) = 2 * 2 ^ (hi - ez)).
    { replace (hi + 1 - ez) with (hi - ez + 1) by lia. rewrite Z.pow_add_r by lia.
      change (2 ^ 1) with 2. lia. }
    cbn [cond_Zopp].
    destruct (cond_Zopp sx (Zpos ax) + - Zpos ay) as [|p|p] eqn:Esum;
      [destruct sx; cbn [cond_Zopp] in Esum; lia
      |destruct sx; cbn [cond_Zopp] in Esum; lia|].
    assert (Hp : 2 ^ (k - 2) <= Zpos p < 2 ^ (hi + 1 - ez)).
    { pose proof (Pos2Z.opp_pos p) as Hop.
      destruct sx; cbn [cond_Zopp] in Esum; lia. }
    cbn [binary_normalize].
    assert (Hl1 : k - 2 <= Z.log2 (Zpos p)) by (apply Z.log2_le_pow2; lia).
    assert (Hl2 : Z.log2 (Zpos p) < hi + 1 - ez) by (apply Z.log2_lt_pow2; lia).
    pose proof (Zdigits2_log2 (Zpos p) ltac:(lia)) as Hdp. simpl Zdigits2 in Hdp.
    destruct (binary_round_shape true p ez ltac:(lia) ltac:(lia))
      as (m & e & E & _ & Hmag).
    rewrite E. cbn [finite_ge]. split; [reflexivity | lia].
Qed.

Lemma int_of_negative (L : Z) (x : float) :
  finite_ge true L x -> exists c, int_of_float x = Ok c /\ c <= 0.
Proof.
  destruct x as [| | |s m e]; cbn [finite_ge]; try contradiction.
  intros [-> _]. unfold int_of_float. eexists. split; [reflexivity|].
  cbn [cond_Zopp].
  assert (0 <= match e with
               | Z.neg k => Z.shiftr (Z.pos m) (Z.pos k)
               | _ => Z.shiftl (Z.pos m) e
               end); [|lia].
  destruct e; [apply Z.shiftl_nonneg | apply Z.shiftl_nonneg | apply Z.shiftr_nonneg]; lia.
Qed.

Lemma difficulty_in_modifiers (user : UserProfile) :
  In (calculate_difficulty_modifier user) modifiers.
Proof.
  unfold calculate_difficulty_modifier, modifiers.
  destruct (health_conditions user); destruct (fitness_level user) as [[]|];
    cbn [level_get In]; tauto.
Qed.

Lemma scaled_negative (n : Z) (x : float) :
  1 <= n < 2 ^ 4 -> bounded (-214) 23 x -> finite_ge true 1 x ->
  count_nonpos n x = true.
Proof.
  intros Hn Hx Px.
  pose proof (of_Z_bounded n 4 ltac:(lia) ltac:(lia)) as Hb.
  pose proof (of_Z_pos_ge n 1 ltac:(cbn; lia) ltac:(lia)
                ltac:(assert (2 ^ 4 < 2 ^ 971) by (apply Z.pow_lt_mono_r; lia); lia)) as Pn.
  apply pos_ge_finite_ge in Pn.
  pose proof (mul_finite_ge (-52) (4 + 1) (-214) 23 1 1 false true _ _ Hb Hx Pn Px
                ltac:(lia) ltac:(lia)) as Hm.
  destruct (int_of_negative _ _ Hm) as (c & Ec & Hc).
  unfold count_nonpos. rewrite Ec. now apply Z.leb_le.
Qed.

(** Far enough before 2025 a multiplier is negative: [step] is 0.1 for
    the volume and 0.05 for the intensity. *)
Lemma multiplier_negative (week : Z) (user : UserProfile) (step : float) (K : Z) :
  - 2 ^ 20 < week - 1 <= - 2 ^ K -> 1 <= K ->
  bounded (-57) (-3) step -> finite_ge false (3 - K) step ->
  let x := mul (add (of_Z 1) (mul step (of_Z (week - 1))))
               (calculate_difficulty_modifier user) in
  bounded (-214) 23 x /\ finite_ge true 1 x.
Proof.
  intros Hw HK Hstep Pstep x. subst x.
  assert (H971 : 2 ^ 20 < 2 ^ 971) by (apply Z.pow_lt_mono_r; lia).
  pose proof (of_Z_bounded (week - 1) 20 ltac:(lia) ltac:(lia)) as Hb.
  pose proof (of_Z_negative (week - 1) (K + 1)
                ltac:(replace (K + 1 - 1) with K by lia; lia) ltac:(lia) ltac:(lia)) as Pw.
  assert (H1 : bounded (-52) 1 (of_Z 1)) by (vm_compute; split; discriminate).
  pose proof (mul_bounded (-57) (-3) (-52) 21 _ _ Hstep Hb ltac:(lia) ltac:(lia)) as Ht.
  pose proof (mul_finite_ge (-57) (-3) (-52) 21 (3 - K) (K + 1) false true _ _
                Hstep Hb Pstep Pw ltac:(lia) ltac:(lia)) as Pt.
  replace (3 - K + (K + 1) - 1) with 3 in Pt by lia. cbn [xorb] in Pt.
  pose proof (bounded_weaken (-52) 1 (-109) 19 _ H1 ltac:(lia) ltac:(lia)) as H1'.
  pose proof (bounded_weaken (-57 + -52) (-3 + 21 + 1) (-109) 19 _ Ht ltac:(lia) ltac:(lia))
    as Ht'.
  pose proof (add_bounded (-109) 19 _ _ H1' Ht' ltac:(lia) ltac:(lia)) as Hs.
  pose proof (add_dominated (-109) 19 3 (of_Z 1) _ H1' Ht' Pt
                ltac:(vm_compute; discriminate) ltac:(lia) ltac:(lia)) as Ps.
  pose proof (difficulty_bounded user) as Hdm.
  pose proof (pos_ge_finite_ge _ _ (difficulty_pos user)) as Pdm.
  split.
  - eapply bounded_weaken;
      [exact (mul_bounded (-109 - 52) (19 + 2) (-53) 1 _ _ Hs Hdm ltac:(lia) ltac:(lia))
      |lia|lia].
  - exact (mul_finite_ge (-109 - 52) (19 + 2) (-53) 1 (3 - 1) 0 true false _ _
             Hs Hdm Ps Pdm ltac:(lia) ltac:(lia)).
Qed.

Lemma progression_explicit (week : Z) (dm : float) :
  Z.abs (week - 1) < 2 ^ 20 ->
  exists c,
    calculate_progression week dm
    = Ok {| volume_multiplier := mul (add (of_Z 1) (mul f0_1 (of_Z (week - 1)))) dm;
            intensity_multiplier := mul (add (of_Z 1) (mul f0_05 (of_Z (week - 1)))) dm;
            complexity_level := c |}.
Proof.
  intros Hw. unfold calculate_progression.
  assert (H971 : 2 ^ 20 < 2 ^ 971) by (apply Z.pow_lt_mono_r; lia).
  assert (H1024 : 2 ^ 20 < 2 ^ 1024) by (apply Z.pow_lt_mono_r; lia).
  rewrite float_of_int_ok by lia. cbn [rbind].
  destruct (int_truediv_2_ok (week - 1) ltac:(lia)) as (f & c & Ef & Ec).
  rewrite Ef. cbn [rbind]. rewrite Ec. cbn [rbind].
  eexists. reflexivity.
Qed.

Lemma forallb_range (check : Z -> bool) (a b x : Z) :
  forallb check (py_range a b) = true -> a <= x < b -> check x = true.
Proof.
  intros H Hx. rewrite forallb_forall in H. apply H. now apply in_py_range.
Qed.

(** From week -8 back the volume gives no set and no interval, and from
    week -18 back the intensity gives no repetition. *)
Lemma progression_before_2025 (week : Z) (user : UserProfile) :
  - 2 ^ 20 < week - 1 -> week <= -8 ->
  volume_nonpos (calculate_difficulty_modifier user) week = true
  /\ (week <= -18 -> intensity_nonpos (calculate_difficulty_modifier user) week = true).
Proof.
  intros Hlo Hhi.
  destruct (progression_explicit week (calculate_difficulty_modifier user) ltac:(lia))
    as (c & Ep).
  pose proof (difficulty_in_modifiers user) as Hdm.
  split.
  - destruct (Z_le_gt_dec week (-63)) as [Hfar|Hnear].
    + unfold volume_nonpos. rewrite Ep. cbn [volume_multiplier].
      destruct (multiplier_negative week user f0_1 6 ltac:(cbn; lia) ltac:(lia)
                  ltac:(vm_compute; split; discriminate)
                  ltac:(vm_compute; split; [reflexivity | discriminate]))
        as [Hb Hn].
      rewrite !scaled_negative by first [assumption | cbn; lia]. reflexivity.
    + assert (H : forallb (fun w => forallb (fun dm => volume_nonpos dm w) modifiers)
                    (py_range (-62) (-7)) = true) by (vm_compute; reflexivity).
      apply (forallb_range _ _ _ week) in H; [|lia].
      rewrite forallb_forall in H. now apply H.
  - intros Hreps. destruct (Z_le_gt_dec week (-127)) as [Hfar|Hnear].
    + unfold intensity_nonpos. rewrite Ep. cbn [intensity_multiplier].
      destruct (multiplier_negative week user f0_05 7 ltac:(cbn; lia) ltac:(lia)
                  ltac:(vm_compute; split; discriminate)
                  ltac:(vm_compute; split; [reflexivity | discriminate]))
        as [Hb Hn].
      rewrite scaled_negative by first [assumption | cbn; lia]. reflexivity.
    + assert (H : forallb (fun w => forallb (fun dm => intensity_nonpos dm w) modifiers)
                    (py_range (-126) (-17)) = true) by (vm_compute; reflexivity).
      apply (forallb_range _ _ _ week) in H; [|lia].
      rewrite forallb_forall in H. now apply H.
Qed.

Lemma count_nonpos_spec (n : Z) (x : float) (c : Z) :
  count_nonpos n x = true -> int_of_float (mul (of_Z n) x) = Ok c -> c <= 0.
Proof.
  unfold count_nonpos. intros H E. rewrite E in H. now apply Z.leb_le.
Qed.

Lemma format_exercises_nothing (with_reps : Prop) (workout_type : string)
    (p : Progression) (n D : Z) :
  count_nonpos 3 (volume_multiplier p) = true ->
  count_nonpos 6 (volume_multiplier p) = true ->
  (with_reps -> count_nonpos 10 (intensity_multiplier p) = true) ->
  forall (selected : list string) (start : Z) (es : list ExerciseEntry),
  rmap (fun '(i, exercise) => format_exercise exercise workout_type p i n D)
       (enumerate_from start selected) = Ok es ->
  Forall (nothing_to_do with_reps) es.
Proof.
  intros H3 H6 H10.
  induction selected as [|x xs IH]; intros start es; cbn [enumerate_from rmap].
  - intros E. injection E as <-. constructor.
  - destruct (format_exercise x workout_type p start n D) as [e|] eqn:Ee; [|discriminate].
    cbn [rbind].
    destruct (rmap _ (enumerate_from (start + 1) xs)) as [es'|] eqn:Es; [|discriminate].
    cbn [rbind]. intros E. injection E as <-.
    constructor; [|eapply IH; exact Es].
    unfold format_exercise in Ee.
    destruct (String.eqb workout_type "Strength").
    + destruct (int_of_float (mul (of_Z 3) _)) as [sets|] eqn:E3; [|discriminate].
      cbn [rbind] in Ee.
      destruct (int_of_float (mul (of_Z 10) _)) as [reps|] eqn:E10; [|discriminate].
      cbn [rbind] in Ee. injection Ee as <-. cbn [nothing_to_do]. split.
      * exact (count_nonpos_spec 3 _ _ H3 E3).
      * intros Hr. exact (count_nonpos_spec 10 _ _ (H10 Hr) E10).
    + destruct (String.eqb workout_type "HIIT").
      * destruct (int_of_float (mul (of_Z 6) _)) as [intervals|] eqn:E6; [|discriminate].
        cbn [rbind] in Ee. injection Ee as <-. cbn [nothing_to_do].
        exact (count_nonpos_spec 6 _ _ H6 E6).
      * destruct (n =? 0); [discriminate|]. injection Ee as <-. exact I.
Qed.

Section BeforeEpoch.

Context (rt : Runtime) (self : WorkoutPlanner).

(** Property X15. The progression of a daily challenge is counted from
    2025-01-01 and is not bounded below. For every date up to 2024-11-05
    (week -8 and earlier) the challenge is produced, and each of its
    Strength exercises has zero or fewer sets and each HIIT exercise zero
    or fewer intervals; up to 2024-08-27 (week -18 and earlier) the
    repetitions are zero or fewer too. *)
Theorem daily_challenge_before_2025 (laws : RuntimeLaws rt) (w : World rt)
    (user : UserProfile) (date : datetime) (level : FitnessLevel) :
  installed rt self w -> fitness_level user = Member level -> valid date ->
  toordinal date <= 739195 ->
  exists c,
    fst (generate_daily_challenge rt self user (Some date) w) = Ok c
    /\ Forall (nothing_to_do (toordinal date <= 739125)) (c_exercises c).
Proof.
  intros Hinst Hlevel Hvalid Hdate.
  destruct (daily_challenge_run rt self laws w user date level Hinst Hlevel Hvalid)
    as (l & cells & s & D & p & formatted & _ & _ & _ & _ & _ & Ep & Ef & Erun).
  eexists. rewrite Erun. cbn [fst]. split; [reflexivity|]. cbn [c_exercises].
  pose proof (week_range date Hvalid) as Hrange. fold (challenge_week date) in Hrange.
  assert (Hweek : challenge_week date <= -8).
  { unfold challenge_week, days_since_midnight_of, epoch_2025. cbn [toordinal].
    pose proof (Z.div_le_mono (toordinal date - 739252 + 1 - 1) (-57) 7
                  ltac:(lia) ltac:(lia)) as H.
    change (-57 / 7) with (-9) in H. lia. }
  destruct (progression_before_2025 (challenge_week date) user ltac:(lia) Hweek)
    as [Hvol Hint].
  unfold volume_nonpos in Hvol. rewrite Ep in Hvol. apply andb_prop in Hvol as [H3 H6].
  unfold format_exercises, enumerate in Ef.
  eapply format_exercises_nothing; [exact H3 | exact H6 | | exact Ef].
  intros Hreps.
  assert (Hweek' : challenge_week date <= -18).
  { unfold challenge_week, days_since_midnight_of, epoch_2025. cbn [toordinal].
    pose proof (Z.div_le_mono (toordinal date - 739252 + 1 - 1) (-127) 7
                  ltac:(lia) ltac:(lia)) as H.
    change (-127 / 7) with (-19) in H. lia. }
  specialize (Hint Hweek'). unfold intensity_nonpos in Hint. now rewrite Ep in Hint.
Qed.

End BeforeEpoch.

(* ------------------------------------------------------------------ *)
(** ** Properties of the request validation *)

Lemma dict_find_set_same {V : Type} (d : list (string * V)) (k : string) (v : V) :
  dict_find (dict_set d k v) k = Some v.
Proof.
  induction d as [|[k' v'] d IH]; cbn [dict_set dict_find].
  - now rewrite String.eqb_refl.
  - destruct (String.eqb_spec k k') as [->|Hne]; cbn [dict_find].
    + now rewrite String.eqb_refl.
    + apply String.eqb_neq in Hne. now rewrite Hne.
Qed.

Lemma dict_find_set_other {V : Type} (d : list (string * V)) (k k' : string) (v : V) :
  k' <> k -> dict_find (dict_set d k v) k' = dict_find d k'.
Proof.
  intros Hne. induction d as [|[k0 v0] d IH]; cbn [dict_set dict_find].
  - apply String.eqb_neq in Hne. now rewrite Hne.
  - destruct (String.eqb_spec k k0) as [->|Hk]; cbn [dict_find].
    + apply String.eqb_neq in Hne. now rewrite Hne.
    + now rewrite IH.
Qed.

Lemma dict_set_id {V : Type} (d : list (string * V)) (k : string) (v : V) :
  dict_find d k = Some v -> dict_set d k v = d.
Proof.
  induction d as [|[k' v'] d IH]; cbn [dict_set dict_find]; [discriminate|].
  destruct (String.eqb k k').
  - intros E. now injection E as ->.
  - intros E. now rewrite IH.
Qed.

Lemma dict_keys_set {V : Type} (d : list (string * V)) (k : string) (v : V) :
  dict_keys (dict_set d k v)
  = match dict_find d k with
    | Some _ => dict_keys d
    | None => dict_keys d ++ [k]
    end.
Proof.
  unfold dict_keys. induction d as [|[k' v'] d IH]; cbn [dict_set dict_find map fst app].
  - reflexivity.
  - destruct (String.eqb k k'); cbn [map fst]; [reflexivity|].
    rewrite IH. now destruct (dict_find d k).
Qed.

Lemma HealthCondition_of_value_alias (s : string) (c : HealthCondition) :
  HealthCondition_of_value s = Some c ->
  dict_find condition_map (str_strip (str_lower s)) = Some c.
Proof.
  unfold HealthCondition_of_value.
  repeat match goal with
         | |- context [String.eqb s ?v] => destruct (String.eqb_spec s v) as [->|_]
         end;
    intros E; try discriminate; injection E as <-; vm_compute; reflexivity.
Qed.

Lemma standardize_condition_alias (condition : pyval) :
  standardize_condition condition = condition_alias condition.
Proof.
  unfold standardize_condition, condition_alias.
  destruct (as_str condition) as [s|] eqn:Es.
  - cbv zeta. destruct (dict_find condition_map (str_strip (str_lower s))) eqn:Ea;
      [reflexivity|].
    destruct (HealthCondition_of_value s) as [c|] eqn:Ev; [|reflexivity].
    apply HealthCondition_of_value_alias in Ev. congruence.
  - destruct condition; try reflexivity; discriminate.
Qed.

Lemma flat_map_length_le {A B : Type} (f : A -> list B) (xs : list A) :
  (forall x, List.length (f x) <= 1)%nat ->
  (List.length (flat_map f xs) <= List.length xs)%nat.
Proof.
  intros H. induction xs as [|x xs IH]; cbn [flat_map List.length]; [lia|].
  rewrite length_app. specialize (H x). lia.
Qed.

(** Property X16. On a list, [standardize_health_conditions] keeps, in
    order, the member that the alias table gives for the lower-cased,
    stripped text of each string, and drops everything else without an
    error: the attempt to build the member from the text as it was written
    and the test for a value that is a member already never add anything,
    since the text of a member is an alias of the member. The result is
    never longer than the list. *)
Theorem standardize_health_conditions_by_alias (conditions : list pyval) :
  standardize_health_conditions (PList conditions)
  = Done (flat_map condition_alias conditions)
  /\ (List.length (flat_map condition_alias conditions) <= List.length conditions)%nat.
Proof.
  split.
  - unfold standardize_health_conditions. destruct conditions as [|c cs]; [reflexivity|].
    cbn [truthy negb as_str py_iter obind]. f_equal.
    apply flat_map_ext. intros v. apply standardize_condition_alias.
  - apply flat_map_length_le. intros v. unfold condition_alias.
    destruct (as_str v); [|cbn; lia].
    destruct (dict_find _ _); cbn; lia.
Qed.

Lemma standardize_condition_member (c : HealthCondition) :
  standardize_condition (PCondition c) = [c].
Proof. destruct c; vm_compute; reflexivity. Qed.

Lemma standardize_members (cs : list HealthCondition) :
  standardize_health_conditions (PList (map PCondition cs)) = Done cs.
Proof.
  unfold standardize_health_conditions. destruct cs as [|c cs]; [reflexivity|].
  cbn [map truthy negb as_str py_iter obind]. f_equal.
  change (PCondition c :: map PCondition cs) with (map PCondition (c :: cs)).
  induction (c :: cs) as [|x xs IH]; [reflexivity|].
  cbn [map flat_map]. rewrite standardize_condition_member, IH. reflexivity.
Qed.

(** Property X17. A list of members of [HealthCondition] goes through
    [standardize_health_conditions] unchanged: what the function returns
    is a fixed point of it. *)
Theorem standardize_health_conditions_fixes_members (cs : list HealthCondition) :
  standardize_health_conditions (PList (map PCondition cs)) = Done cs.
Proof. exact (standardize_members cs). Qed.

Lemma goal_map_values (k g : string) :
  dict_find goal_map k = Some g ->
  In g ["Weight Loss"; "Muscle Gain"; "Endurance"; "Flexibility"].
Proof.
  unfold goal_map. cbn [dict_find].
  repeat match goal with
         | |- context [if ?b then _ else _] => destruct b
         end;
    intros E; try discriminate; injection E as <-; cbn; tauto.
Qed.

Lemma standardize_goal_cases (goal : pyval) :
  standardize_goal goal = goal
  \/ exists g, In g ["Weight Loss"; "Muscle Gain"; "Endurance"; "Flexibility"]
                /\ standardize_goal goal = PStr g.
Proof.
  unfold standardize_goal.
  destruct (truthy goal); cbn [negb].
  - destruct (as_str goal) as [s|]; [|now left].
    cbv zeta. destruct (dict_find goal_map (str_strip (str_lower s))) as [g|] eqn:Eg;
      [|now left].
    right. exists g. split; [eapply goal_map_values; exact Eg | reflexivity].
  - right. exists "Weight Loss". split; [now left | reflexivity].
Qed.

Lemma standardize_goal_fixed (goal : pyval) :
  standardize_goal (standardize_goal goal) = standardize_goal goal.
Proof.
  destruct (standardize_goal_cases goal) as [E|(g & Hin & E)]; rewrite E; [exact E|].
  cbn [In] in Hin. destruct Hin as [<-|[<-|[<-|[<-|[]]]]]; reflexivity.
Qed.

(** Property X18. [standardize_goal] is idempotent: a goal it returned is
    returned unchanged, whatever the type of the value. *)
Theorem standardize_goal_idempotent (goal : pyval) :
  standardize_goal (standardize_goal goal) = standardize_goal goal.
Proof. exact (standardize_goal_fixed goal). Qed.

Lemma goal_table_keys_are_aliases (g : string) (goal_data : GoalData) :
  dict_find goal_table g = Some goal_data ->
  dict_find goal_map (str_strip (str_lower g)) = Some g.
Proof.
  unfold goal_table. cbn [dict_find].
  repeat match goal with
         | |- context [String.eqb g ?v] => destruct (String.eqb_spec g v) as [->|_]
         end;
    intros E; try discriminate; vm_compute; reflexivity.
Qed.

(** Property X19. The goal that reaches the planner for a text of the
    request. It is a goal of the goal table exactly when the text is empty
    or its lower-cased, stripped form is one of the eight aliases; any
    other text is handed on as it was written, and is then no goal of the
    table. *)
Theorem standardize_goal_supported (s : string) :
  exists g,
    standardize_goal (PStr s) = PStr g
    /\ ((exists goal_data, dict_find goal_table g = Some goal_data)
        <-> s = "" \/ exists alias, dict_find goal_map (str_strip (str_lower s)) = Some alias)
    /\ ((forall goal_data, dict_find goal_table g <> Some goal_data) -> g = s).
Proof.
  unfold standardize_goal. cbn [truthy as_str].
  destruct (String.eqb_spec s "") as [->|Hne]; cbn [negb].
  - exists "Weight Loss". split; [reflexivity|]. split.
    + split; [now left | intros _; eexists; reflexivity].
    + intros H. exfalso. eapply H. reflexivity.
  - cbv zeta. destruct (dict_find goal_map (str_strip (str_lower s))) as [g|] eqn:Eg.
    + exists g. split; [reflexivity|].
      pose proof (goal_map_values _ _ Eg) as Hin. cbn [In] in Hin.
      assert (Hs : exists goal_data, dict_find goal_table g = Some goal_data)
        by (destruct Hin as [<-|[<-|[<-|[<-|[]]]]]; eexists; reflexivity).
      split.
      * split; [intros _; right; now exists g | intros _; exact Hs].
      * intros H. destruct Hs as (gd & Hgd). now apply H in Hgd.
    + exists s. split; [reflexivity|]. split; [|reflexivity].
      split.
      * intros (gd & Hgd). apply goal_table_keys_are_aliases in Hgd. congruence.
      * intros [->|(a & Ha)]; [contradiction | discriminate].
Qed.

(** Property X20. A fitness level is recognised in any spelling that
    differs from the value of the member in letter case and in surrounding
    whitespace only, and a member is returned as it is. *)
Theorem standardize_fitness_level_spellings (s : string) (l : FitnessLevel) :
  str_strip (str_lower s) = str_lower (FitnessLevel_value l) ->
  standardize_fitness_level (PStr s) = l
  /\ standardize_fitness_level (PStr (FitnessLevel_value l)) = l
  /\ standardize_fitness_level (PLevel l) = l.
Proof.
  intros H. split; [|split; [destruct l; vm_compute; reflexivity | reflexivity]].
  unfold standardize_fitness_level. cbn [as_str]. cbv zeta. rewrite H.
  destruct l; vm_compute; reflexivity.
Qed.

Section ValidationProperties.

Context (builtins : Builtins).

Lemma missing_of_dict (d : list (string * pyval)) (fields : list string) :
  missing_of (PDict d) fields
  = Done (filter (fun field => match dict_find d field with
                               | Some _ => false
                               | None => true
                               end) fields).
Proof.
  induction fields as [|f fs IH]; [reflexivity|].
  cbn [missing_of py_contains obind filter]. rewrite IH. cbn [obind].
  now destruct (dict_find d f).
Qed.

Lemma getitem_dict (d : list (string * pyval)) (k : string) (v : pyval) :
  dict_find d k = Some v -> py_getitem (PDict d) k = Done v.
Proof. intros H. unfold py_getitem, dict_getitem. now rewrite H. Qed.

Ltac find_set :=
  repeat first
    [ rewrite dict_find_set_same
    | rewrite dict_find_set_other by discriminate ].

(** What a successful validation has done. *)
Lemma validate_run (data out : pyval) :
  validate_user_data builtins data = Done (Valid out) ->
  exists d d',
    data = PDict d /\ out = PDict d' /\ validated d'
    /\ (forall k, ~ In k rewritten_fields -> dict_find d' k = dict_find d k)
    /\ (exists age, dict_find d "age" = Some age
                    /\ exists n, py_int builtins age = Done n
                                 /\ dict_find d' "age" = Some (PInt n))
    /\ (exists level, dict_find d "fitness_level" = Some level
                      /\ dict_find d' "fitness_level"
                         = Some (PLevel (standardize_fitness_level level)))
    /\ (exists goal, dict_find d "goal" = Some goal
                     /\ dict_find d' "goal" = Some (standardize_goal goal))
    /\ (exists cs,
          standardize_health_conditions (dict_get d "health_conditions" (PList []))
          = Done cs
          /\ dict_find d' "health_conditions" = Some (PList (map PCondition cs))).
Proof.
  unfold validate_user_data.
  destruct data as [| | | | s | l | c | items | d];
    try (cbn; discriminate).
  - (* a string *)
    destruct (missing_of (PStr s) required_fields) as [[|m ms]|e]; cbn [obind];
      try discriminate.
  - destruct (missing_of (PLevel l) required_fields) as [[|m ms]|e]; cbn [obind];
      try discriminate.
  - destruct (missing_of (PCondition c) required_fields) as [[|m ms]|e]; cbn [obind];
      try discriminate.
  - destruct (missing_of (PList items) required_fields) as [[|m ms]|e]; cbn [obind];
      try discriminate.
  - rewrite missing_of_dict. cbn [obind].
    unfold required_fields. cbn [filter].
    destruct (dict_find d "age") as [age|] eqn:Eage; [|discriminate].
    destruct (dict_find d "height") as [height|] eqn:Eheight; [|discriminate].
    destruct (dict_find d "weight") as [weight|] eqn:Eweight; [|discriminate].
    destruct (dict_find d "gender") as [gender|] eqn:Egender; [|discriminate].
    destruct (dict_find d "fitness_level") as [level|] eqn:Elevel; [|discriminate].
    destruct (dict_find d "goal") as [goal|] eqn:Egoal; [|discriminate].
    destruct (dict_find d "preferred_days") as [days|] eqn:Edays; [|discriminate].
    unfold convert_numbers.
    rewrite (getitem_dict d "age" age Eage). cbn [obind].
    destruct (py_int builtins age) as [n|e] eqn:En;
      [|cbn [obind]; destruct e as [|[]]; discriminate].
    cbn [obind py_setitem].
    rewrite (getitem_dict _ "height" height) by (find_set; assumption).
    cbn [obind].
    destruct (py_float builtins height) as [h|e] eqn:Eh;
      [|cbn [obind]; destruct e as [|[]]; discriminate].
    cbn [obind py_setitem].
    rewrite (getitem_dict _ "weight" weight) by (find_set; assumption).
    cbn [obind].
    destruct (py_float builtins weight) as [x|e] eqn:Ex;
      [|cbn [obind]; destruct e as [|[]]; discriminate].
    cbn [obind py_setitem].
    set (d1 := dict_set (dict_set (dict_set d "age" (PInt n)) "height" (PFloat h))
                 "weight" (PFloat x)).
    rewrite (getitem_dict d1 "fitness_level" level) by (subst d1; find_set; assumption).
    cbn [obind py_setitem py_get].
    set (d2 := dict_set d1 "fitness_level" (PLevel (standardize_fitness_level level))).
    assert (Hhc : dict_get d2 "health_conditions" (PList [])
                  = dict_get d "health_conditions" (PList [])).
    { unfold dict_get. subst d2 d1. now find_set. }
    rewrite Hhc.
    destruct (standardize_health_conditions (dict_get d "health_conditions" (PList [])))
      as [cs|e] eqn:Ecs; [|discriminate].
    cbn [obind py_setitem].
    set (d3 := dict_set d2 "health_conditions" (PList (map PCondition cs))).
    rewrite (getitem_dict d3 "goal" goal) by (subst d3 d2 d1; find_set; assumption).
    cbn [obind py_setitem].
    set (d4 := dict_set d3 "goal" (standardize_goal goal)).
    unfold convert_preferred_days.
    rewrite (getitem_dict d4 "preferred_days" days)
      by (subst d4 d3 d2 d1; find_set; assumption).
    cbn [obind].
    assert (Hbase : forall d5 v,
               d5 = d4 \/ d5 = dict_set d4 "preferred_days" v ->
               dict_find d5 "preferred_days" = Some v ->
               ((exists m, v = PInt m) \/ (exists b, v = PBool b)) ->
               Done (Valid (PDict d5)) = Done (Valid out) ->
               exists d0 d',
                 PDict d = PDict d0 /\ out = PDict d' /\ validated d'
                 /\ (forall k, ~ In k rewritten_fields -> dict_find d' k = dict_find d0 k)
                 /\ (exists age0, dict_find d0 "age" = Some age0
                       /\ exists n0, py_int builtins age0 = Done n0
                                     /\ dict_find d' "age" = Some (PInt n0))
                 /\ (exists level0, dict_find d0 "fitness_level" = Some level0
                       /\ dict_find d' "fitness_level"
                          = Some (PLevel (standardize_fitness_level level0)))
                 /\ (exists goal0, dict_find d0 "goal" = Some goal0
                       /\ dict_find d' "goal" = Some (standardize_goal goal0))
                 /\ (exists cs0,
                       standardize_health_conditions
                         (dict_get d0 "health_conditions" (PList [])) = Done cs0
                       /\ dict_find d' "health_conditions"
                          = Some (PList (map PCondition cs0)))).
    { intros d5 v Hd5 Hv Hshape E. injection E as <-.
      assert (Hother : forall k, k <> "preferred_days" -> dict_find d5 k = dict_find d4 k).
      { intros k Hk. destruct Hd5 as [->| ->]; [reflexivity|].
        now apply dict_find_set_other. }
      exists d, d5. split; [reflexivity|]. split; [reflexivity|]. split.
      { unfold validated.
        repeat split.
        - exists n. rewrite Hother by discriminate. subst d4 d3 d2 d1. now find_set.
        - exists h. rewrite Hother by discriminate. subst d4 d3 d2 d1. now find_set.
        - exists x. rewrite Hother by discriminate. subst d4 d3 d2 d1. now find_set.
        - exists gender. rewrite Hother by discriminate. subst d4 d3 d2 d1. now find_set.
        - exists (standardize_fitness_level level). rewrite Hother by discriminate.
          subst d4 d3 d2 d1. now find_set.
        - exists cs. rewrite Hother by discriminate. subst d4 d3 d2 d1. now find_set.
        - exists (standardize_goal goal). rewrite Hother by discriminate.
          split; [subst d4 d3 d2 d1; now find_set | apply standardize_goal_fixed].
        - exists v. split; assumption. }
      split.
      { intros k Hk.
        assert (Hne : forall f, In f rewritten_fields -> k <> f).
        { intros f Hf ->. now apply Hk. }
        rewrite Hother by (apply Hne; cbn; tauto). subst d4 d3 d2 d1.
        repeat rewrite dict_find_set_other by (apply Hne; cbn; tauto). reflexivity. }
      split.
      { exists age. split; [assumption|]. exists n. split; [assumption|].
        rewrite Hother by discriminate. subst d4 d3 d2 d1. now find_set. }
      split.
      { exists level. split; [assumption|].
        rewrite Hother by discriminate. subst d4 d3 d2 d1. now find_set. }
      split.
      { exists goal. split; [assumption|].
        rewrite Hother by discriminate. subst d4 d3 d2 d1. now find_set. }
      exists cs. split; [assumption|].
      rewrite Hother by discriminate. subst d4 d3 d2 d1. now find_set. }
    assert (Hd4 : dict_find d4 "preferred_days" = Some days)
      by (subst d4 d3 d2 d1; find_set; assumption).
    destruct days as [| b | m | f | s | l | c | items |items'].
    + (* None *)
      cbn [py_int py_setitem].
      apply (Hbase _ (PInt 3)); [now right | apply dict_find_set_same | left; now exists 3].
    + apply (Hbase _ (PBool b)); [now left | assumption | right; now exists b].
    + apply (Hbase _ (PInt m)); [now left | assumption | left; now exists m].
    + cbn [py_int]. destruct (int_of_float f) as [m|[]]; cbn [of_result py_setitem];
        try discriminate;
        eapply Hbase; try (now right); try apply dict_find_set_same; left; eexists; reflexivity.
    + cbn [py_int as_str]. destruct (parse_int builtins s) as [m|]; cbn [py_setitem];
        eapply Hbase; try (now right); try apply dict_find_set_same; left; eexists; reflexivity.
    + cbn [py_int as_str].
      destruct (parse_int builtins (FitnessLevel_value l)) as [m|]; cbn [py_setitem];
        eapply Hbase; try (now right); try apply dict_find_set_same; left; eexists; reflexivity.
    + cbn [py_int as_str].
      destruct (parse_int builtins (HealthCondition_value c)) as [m|]; cbn [py_setitem];
        eapply Hbase; try (now right); try apply dict_find_set_same; left; eexists; reflexivity.
    + cbn [py_setitem].
      eapply Hbase; try (now right); try apply dict_find_set_same; left; eexists; reflexivity.
    + cbn [py_int py_setitem].
      eapply Hbase; try (now right); try apply dict_find_set_same; left; eexists; reflexivity.
Qed.

(** Property X21. When [validate_user_data] accepts a request body, the
    body is a JSON object and the data it returns hold an [int] age,
    [float] height and weight, a member of [FitnessLevel], a list of
    members of [HealthCondition] (an empty one when the request has none),
    a goal that [standardize_goal] leaves unchanged, an [int] (or [bool])
    number of preferred days and the gender of the request; every other
    key of the request is kept with its value. *)
Theorem validate_user_data_accepts (data out : pyval) :
  validate_user_data builtins data = Done (Valid out) ->
  exists d d',
    data = PDict d /\ out = PDict d' /\ validated d'
    /\ (forall k, ~ In k rewritten_fields -> dict_find d' k = dict_find d k)
    /\ (exists level, dict_find d "fitness_level" = Some level
                      /\ dict_find d' "fitness_level"
                         = Some (PLevel (standardize_fitness_level level)))
    /\ (exists goal, dict_find d "goal" = Some goal
                     /\ dict_find d' "goal" = Some (standardize_goal goal))
    /\ (exists cs,
          standardize_health_conditions (dict_get d "health_conditions" (PList []))
          = Done cs
          /\ dict_find d' "health_conditions" = Some (PList (map PCondition cs))).
Proof.
  intros H. destruct (validate_run data out H)
    as (d & d' & E1 & E2 & Hv & Hk & _ & Hl & Hg & Hc).
  exists d, d'. do 6 (split; [assumption|]). assumption.
Qed.

Lemma validated_again (d : list (string * pyval)) :
  validated d -> validate_user_data builtins (PDict d) = Done (Valid (PDict d)).
Proof.
  intros ((n & En) & (h & Eh) & (x & Ex) & (g & Eg) & (l & El) & (cs & Ecs)
          & (goal & Egoal & Hgoal) & (v & Ev & Hv)).
  unfold validate_user_data. rewrite missing_of_dict. cbn [obind].
  unfold required_fields. cbn [filter].
  rewrite En, Eh, Ex, Eg, El, Egoal, Ev.
  unfold convert_numbers.
  rewrite (getitem_dict d "age" _ En). cbn [obind py_int py_setitem].
  rewrite (dict_set_id d "age" _ En).
  rewrite (getitem_dict d "height" _ Eh). cbn [obind py_float py_setitem].
  rewrite (dict_set_id d "height" _ Eh).
  rewrite (getitem_dict d "weight" _ Ex). cbn [obind py_float py_setitem].
  rewrite (dict_set_id d "weight" _ Ex).
  rewrite (getitem_dict d "fitness_level" _ El).
  cbn [obind py_setitem standardize_fitness_level].
  rewrite (dict_set_id d "fitness_level" _ El).
  cbn [py_get]. unfold dict_get. rewrite Ecs. cbn [obind].
  rewrite standardize_members. cbn [obind py_setitem].
  rewrite (dict_set_id d "health_conditions" _ Ecs).
  rewrite (getitem_dict d "goal" _ Egoal). cbn [obind py_setitem].
  rewrite Hgoal. rewrite (dict_set_id d "goal" _ Egoal).
  unfold convert_preferred_days.
  rewrite (getitem_dict d "preferred_days" _ Ev). cbn [obind].
  destruct Hv as [(m & ->)|(b & ->)]; reflexivity.
Qed.

(** Property X22. Validation is idempotent: the data of an accepted
    request are accepted again and come back unchanged. *)
Theorem validate_user_data_idempotent (data out : pyval) :
  validate_user_data builtins data = Done (Valid out) ->
  validate_user_data builtins out = Done (Valid out).
Proof.
  intros H. destruct (validate_run data out H) as (d & d' & _ & -> & Hv & _).
  now apply validated_again.
Qed.

End ValidationProperties.

Section ValidationFailures.

Context (builtins : Builtins).

Lemma missing_of_iterable (data : pyval) (fields : list string) :
  (exists b, forall field, py_contains data field = Done (b field)) ->
  exists missing, missing_of data fields = Done missing.
Proof.
  intros (b & Hb). induction fields as [|f fs (ms & IH)]; [now exists []|].
  cbn [missing_of]. rewrite Hb, IH. cbn [obind]. eexists. reflexivity.
Qed.

Lemma py_int_errors (v : pyval) (e : app_exn) :
  py_int builtins v = Fail e ->
  e = TypeError \/ e = Builtin ValueError \/ e = Builtin OverflowError.
Proof.
  destruct v as [| b | n | [s|s| |s m x] | s | l | c | items | items]; cbn;
    try discriminate; try (intros E; injection E as <-; tauto);
    try (destruct (parse_int builtins _); [discriminate|];
         intros E; injection E as <-; tauto).
Qed.

Lemma py_float_errors (v : pyval) (e : app_exn) :
  py_float builtins v = Fail e ->
  e = TypeError \/ e = Builtin ValueError \/ e = Builtin OverflowError.
Proof.
  destruct v as [| b | n | x | s | l | c | items | items]; cbn;
    try discriminate; try (intros E; injection E as <-; tauto);
    try (destruct (parse_float builtins _); [discriminate|];
         intros E; injection E as <-; tauto).
  unfold float_of_int. destruct (of_Z n); cbn; try discriminate.
  intros E. injection E as <-. tauto.
Qed.

Lemma standardize_health_conditions_errors (v : pyval) (e : app_exn) :
  standardize_health_conditions v = Fail e ->
  e = TypeError /\ exists b n x, v = PBool b \/ v = PInt n \/ v = PFloat x.
Proof.
  unfold standardize_health_conditions.
  destruct v as [| b | n | x | s | l | c | items | items]; cbn [truthy negb as_str].
  - discriminate.
  - destruct b; cbn; [|discriminate]. intros E. injection E as <-.
    split; [reflexivity|]. exists true, 0, (S754_zero false). tauto.
  - destruct (negb (n =? 0)); cbn; [|discriminate]. intros E. injection E as <-.
    split; [reflexivity|]. exists true, n, (S754_zero false). tauto.
  - intros E. split; [|exists true, 0, x; tauto].
    destruct x; cbn in E; try discriminate; now injection E as <-.
  - destruct (negb (String.eqb s "")); cbn; discriminate.
  - cbn. discriminate.
  - cbn. discriminate.
  - destruct items; cbn; discriminate.
  - destruct items; cbn; discriminate.
Qed.

(** Property X23. The only exceptions that leave [validate_user_data] are
    [TypeError] and [OverflowError]: a key is read only after the check
    that it is there, so there is no [KeyError], and the [ValueError] of a
    conversion is answered with a message. The [TypeError] has two causes:
    a body that is [None], a [bool] or a number, and a JSON object whose
    [health_conditions] is a [bool] or a number. *)
Theorem validate_user_data_raises (data : pyval) (e : app_exn) :
  validate_user_data builtins data = Fail e ->
  (e = TypeError
   /\ ((exists b n x, data = PNone \/ data = PBool b \/ data = PInt n \/ data = PFloat x)
       \/ exists d v b n x,
            data = PDict d /\ dict_find d "health_conditions" = Some v
            /\ (v = PBool b \/ v = PInt n \/ v = PFloat x)))
  \/ (e = Builtin OverflowError /\ exists d, data = PDict d).
Proof.
  unfold validate_user_data.
  destruct data as [| b | n | x | s | l | c | items | d].
  1-4: cbn; intros E; injection E as <-; left; (split; [reflexivity|]); left.
  1: exists true, 0, (S754_zero false); tauto.
  1: exists b, 0, (S754_zero false); tauto.
  1: exists true, n, (S754_zero false); tauto.
  1: exists true, 0, x; tauto.
  1-4:
    match goal with
    | |- context [missing_of ?v required_fields] =>
        destruct (missing_of_iterable v required_fields) as (ms & ->);
        [eexists; intros field; reflexivity|];
        cbn [obind]; destruct ms; [|discriminate];
        cbn; discriminate
    end.
  assert (Hover : forall e', Fail (A := validation) (Builtin OverflowError) = Fail e' ->
            (e' = TypeError
             /\ ((exists b n x, PDict d = PNone \/ PDict d = PBool b \/ PDict d = PInt n
                                \/ PDict d = PFloat x)
                 \/ exists d0 v b n x,
                      PDict d = PDict d0 /\ dict_find d0 "health_conditions" = Some v
                      /\ (v = PBool b \/ v = PInt n \/ v = PFloat x)))
            \/ (e' = Builtin OverflowError /\ exists d0, PDict d = PDict d0)).
  { intros e' E. injection E as <-. right. split; [reflexivity | now exists d]. }
  rewrite (missing_of_dict d). cbn [obind].
  unfold required_fields. cbn [filter].
  destruct (dict_find d "age") as [age|] eqn:Eage; [|discriminate].
  destruct (dict_find d "height") as [height|] eqn:Eheight; [|discriminate].
  destruct (dict_find d "weight") as [weight|] eqn:Eweight; [|discriminate].
  destruct (dict_find d "gender") as [gender|] eqn:Egender; [|discriminate].
  destruct (dict_find d "fitness_level") as [level|] eqn:Elevel; [|discriminate].
  destruct (dict_find d "goal") as [goal|] eqn:Egoal; [|discriminate].
  destruct (dict_find d "preferred_days") as [days|] eqn:Edays; [|discriminate].
  unfold convert_numbers.
  rewrite (getitem_dict d "age" age Eage). cbn [obind].
  destruct (py_int builtins age) as [n|e'] eqn:En.
  2:{ apply py_int_errors in En. cbn [obind].
      destruct En as [->|[->| ->]]; [discriminate | discriminate | apply Hover]. }
  cbn [obind py_setitem].
  rewrite (getitem_dict _ "height" height)
    by (repeat rewrite dict_find_set_other by discriminate; assumption).
  cbn [obind].
  destruct (py_float builtins height) as [h|e'] eqn:Eh.
  2:{ apply py_float_errors in Eh. cbn [obind].
      destruct Eh as [->|[->| ->]]; [discriminate | discriminate | apply Hover]. }
  cbn [obind py_setitem].
  rewrite (getitem_dict _ "weight" weight)
    by (repeat rewrite dict_find_set_other by discriminate; assumption).
  cbn [obind].
  destruct (py_float builtins weight) as [x|e'] eqn:Ex.
  2:{ apply py_float_errors in Ex. cbn [obind].
      destruct Ex as [->|[->| ->]]; [discriminate | discriminate | apply Hover]. }
  cbn [obind py_setitem].
  rewrite (getitem_dict _ "fitness_level" level)
    by (repeat rewrite dict_find_set_other by discriminate; assumption).
  cbn [obind py_setitem py_get].
  match goal with
  | |- context [standardize_health_conditions ?v] => set (conditions := v)
  end.
  assert (Hconditions : conditions = dict_get d "health_conditions" (PList [])).
  { subst conditions. unfold dict_get.
    now repeat rewrite dict_find_set_other by discriminate. }
  destruct (standardize_health_conditions conditions) as [cs|e'] eqn:Ecs.
  2:{ apply standardize_health_conditions_errors in Ecs as (-> & b & m & f & Hv).
      cbn [obind]. intros E. injection E as <-. left. split; [reflexivity|]. right.
      exists d, conditions, b, m, f. split; [reflexivity|]. split; [|exact Hv].
      rewrite Hconditions in *. unfold dict_get in *.
      destruct (dict_find d "health_conditions") as [v|]; [reflexivity|].
      destruct Hv as [Hv|[Hv|Hv]]; discriminate. }
  cbn [obind py_setitem].
  rewrite (getitem_dict _ "goal" goal)
    by (repeat rewrite dict_find_set_other by discriminate; assumption).
  cbn [obind py_setitem].
  unfold convert_preferred_days.
  rewrite (getitem_dict _ "preferred_days" days)
    by (repeat rewrite dict_find_set_other by discriminate; assumption).
  cbn [obind].
  destruct days as [| b | m | f | s | l | c | items |items']; cbn [py_setitem obind];
    try discriminate.
  - destruct (py_int builtins (PFloat f)) as [m|e'] eqn:Ef; cbn [py_setitem obind];
      [discriminate|].
    apply py_int_errors in Ef. destruct Ef as [->|[->| ->]]; cbn [py_setitem obind];
      try discriminate.
    apply Hover.
  - destruct (py_int builtins (PStr s)) as [m|e'] eqn:Ef; cbn [py_setitem obind];
      [discriminate|].
    apply py_int_errors in Ef. destruct Ef as [->|[->| ->]]; cbn [py_setitem obind];
      try discriminate.
    apply Hover.
  - destruct (py_int builtins (PLevel l)) as [m|e'] eqn:Ef; cbn [py_setitem obind];
      [discriminate|].
    apply py_int_errors in Ef. destruct Ef as [->|[->| ->]]; cbn [py_setitem obind];
      try discriminate.
    apply Hover.
  - destruct (py_int builtins (PCondition c)) as [m|e'] eqn:Ef; cbn [py_setitem obind];
      [discriminate|].
    apply py_int_errors in Ef. destruct Ef as [->|[->| ->]]; cbn [py_setitem obind];
      try discriminate.
    apply Hover.
Qed.

(** Property X24. A body that is a JSON string or a JSON array is never
    accepted and never raises: it is answered with one of the two
    messages. When it holds the names of all the required fields (as
    substrings of the string, as elements of the array) the membership
    tests pass, the subscript [data['age']] raises [TypeError] inside the
    [try], and the answer is the message about the numeric fields. *)
Theorem validate_user_data_rejects_text (data : pyval) :
  (exists s, data = PStr s) \/ (exists items, data = PList items) ->
  exists missing,
    missing_of data required_fields = Done missing
    /\ validate_user_data builtins data
       = Done (Invalid
                 match missing with
                 | [] => "Age must be an integer, height and weight must be numeric"
                 | _ :: _ =>
                     ("Missing required fields: " ++ String.concat ", " missing)%string
                 end).
Proof.
  intros [(s & ->)|(items & ->)]; unfold validate_user_data.
  - destruct (missing_of_iterable (PStr s) required_fields) as (ms & E);
      [eexists; intros field; reflexivity|].
    exists ms. split; [exact E|]. rewrite E. cbn [obind]. now destruct ms.
  - destruct (missing_of_iterable (PList items) required_fields) as (ms & E);
      [eexists; intros field; reflexivity|].
    exists ms. split; [exact E|]. rewrite E. cbn [obind]. now destruct ms.
Qed.

End ValidationFailures.

(* ------------------------------------------------------------------ *)
(** ** The further properties on sample inputs *)

Definition patient : UserProfile :=
  Sample.user (Member INTERMEDIATE) [KNEE_PAIN] "Endurance".

Definition healthy : UserProfile :=
  Sample.user (Member INTERMEDIATE) [] "Endurance".

Definition outsider : UserProfile :=
  Sample.user (Foreign "expert") [] "Endurance".

(** A string parser for the digits of an [int]; no string is a float. *)
Definition sample_builtins : Builtins :=
  {| parse_int := fun s => match int_of_str s with
                           | Ok n => Some n
                           | Raise _ => None
                           end;
     parse_float := fun _ => None |}.

Definition sample_request : pyval :=
  PDict [("age", PStr "45"); ("height", PInt 170); ("weight", PFloat (of_Z 85));
         ("gender", PStr "Female"); ("fitness_level", PStr " Advanced");
         ("goal", PStr "weight_loss");
         ("preferred_days", PList [PStr "Mon"; PStr "Wed"]);
         ("health_conditions", PList [PStr "Knee"; PStr "flu"])].

Definition sample_data : pyval :=
  PDict [("age", PInt 45); ("height", PFloat (of_Z 170)); ("weight", PFloat (of_Z 85));
         ("gender", PStr "Female"); ("fitness_level", PLevel ADVANCED);
         ("goal", PStr "Weight Loss");
         ("preferred_days", PInt 2);
         ("health_conditions", PList [PCondition KNEE_PAIN])].

Lemma two_weeks : 2 <= 2 ^ 20.
Proof. now vm_compute. Qed.

Lemma valid_739000 : valid (mk_datetime 739000 0).
Proof. unfold valid, min_ordinal, max_ordinal. cbn. lia. Qed.

Lemma sample_set_order :
  forall xs, NoDup xs -> Permutation (set_order Sample.runtime xs) xs.
Proof. intros xs _. apply Permutation_refl. Qed.

Lemma format_exercises_keeps_names_witness :
  format_exercises ["Squats"; "Lunges"] "Strength" unit_progression 45
  = Ok [StrengthEntry "Squats" 3 10 "60-90 seconds";
        StrengthEntry "Lunges" 3 10 "60-90 seconds"]
  /\ map entry_name [StrengthEntry "Squats" 3 10 "60-90 seconds";
                     StrengthEntry "Lunges" 3 10 "60-90 seconds"]
     = ["Squats"; "Lunges"].
Proof.
  assert (E : format_exercises ["Squats"; "Lunges"] "Strength" unit_progression 45
              = Ok [StrengthEntry "Squats" 3 10 "60-90 seconds";
                    StrengthEntry "Lunges" 3 10 "60-90 seconds"])
    by (vm_compute; reflexivity).
  split; [exact E|].
  exact (proj1 (format_exercises_keeps_names _ _ _ _ _ E)).
Defined.

Lemma required_equipment_is_union_witness :
  (forall xs, NoDup xs -> Permutation (set_order Sample.runtime xs) xs)
  /\ NoDup (get_required_equipment Sample.runtime Sample.planner
              ["Squats"; "Deadlifts"; "Yoga"; "Running"]).
Proof.
  split; [exact sample_set_order|].
  exact (proj1 (required_equipment_is_union Sample.runtime Sample.planner
                  ["Squats"; "Deadlifts"; "Yoga"; "Running"] sample_set_order)).
Defined.

Lemma generate_workout_plan_shape_witness :
  RuntimeLaws Sample.runtime
  /\ installed Sample.runtime Sample.planner Sample.world
  /\ (exists goal_data, dict_find goal_table (goal patient) = Some goal_data)
  /\ 2 <= 2 ^ 20
  /\ exists plan w',
       generate_workout_plan Sample.runtime Sample.planner patient 2 Sample.world
       = (Ok plan, w')
       /\ map fst (p_weeks plan) = ["Week 1"; "Week 2"]
       /\ Forall (fun '(_, weekly) => List.length (workouts weekly) = 5%nat) (p_weeks plan).
Proof.
  split; [exact sample_laws|]. split; [exact sample_installed|].
  split; [eexists; reflexivity|]. split; [exact two_weeks|].
  destruct (generate_workout_plan_shape Sample.runtime Sample.planner sample_laws
              Sample.world patient 2 _ sample_installed eq_refl two_weeks)
    as (plan & w' & E & _ & _ & _ & Hlabels & _ & _ & Hdays).
  exists plan, w'. split; [exact E|]. split; [exact Hlabels | exact Hdays].
Defined.

Lemma generate_workout_plan_days_witness :
  RuntimeLaws Sample.runtime
  /\ installed Sample.runtime Sample.planner Sample.world
  /\ (exists goal_data, dict_find goal_table (goal patient) = Some goal_data)
  /\ 2 <= 2 ^ 20
  /\ exists plan,
       fst (generate_workout_plan Sample.runtime Sample.planner patient 2 Sample.world)
       = Ok plan
       /\ forall label weekly day,
            In (label, weekly) (p_weeks plan) -> In day (workouts weekly) ->
            (1 <= List.length (w_exercises day))%nat.
Proof.
  split; [exact sample_laws|]. split; [exact sample_installed|].
  split; [eexists; reflexivity|]. split; [exact two_weeks|].
  destruct (generate_workout_plan_days Sample.runtime Sample.planner sample_laws
              Sample.world patient 2 _ sample_installed eq_refl two_weeks)
    as (plan & E & Hdays).
  exists plan. split; [exact E|].
  intros label weekly day Hw Hd.
  exact (proj1 (proj2 (proj2 (proj2 (proj2 (Hdays label weekly day Hw Hd)))))).
Defined.

Lemma daily_challenge_exercises_allowed_witness :
  RuntimeLaws Sample.runtime
  /\ installed Sample.runtime Sample.planner Sample.world
  /\ fitness_level patient = Member INTERMEDIATE
  /\ valid (mk_datetime 739300 0)
  /\ exists c,
       fst (generate_daily_challenge Sample.runtime Sample.planner patient
              (Some (mk_datetime 739300 0)) Sample.world) = Ok c
       /\ NoDup (map entry_name (c_exercises c)).
Proof.
  split; [exact sample_laws|]. split; [exact sample_installed|].
  split; [reflexivity|]. split; [exact valid_739300|].
  destruct (daily_challenge_exercises_allowed Sample.runtime Sample.planner sample_laws
              Sample.world patient (mk_datetime 739300 0) INTERMEDIATE
              sample_installed eq_refl valid_739300)
    as (c & l & E & _ & Hnd & _).
  exists c. split; [exact E | exact Hnd].
Defined.

Lemma daily_challenge_type_ignores_conditions_witness :
  RuntimeLaws Sample.runtime
  /\ installed Sample.runtime Sample.planner Sample.world
  /\ fitness_level patient = Member INTERMEDIATE
  /\ valid (mk_datetime 739300 0)
  /\ age healthy = age patient
  /\ fitness_level healthy = fitness_level patient
  /\ goal healthy = goal patient
  /\ exists c c',
       fst (generate_daily_challenge Sample.runtime Sample.planner patient
              (Some (mk_datetime 739300 0)) Sample.world) = Ok c
       /\ fst (generate_daily_challenge Sample.runtime Sample.planner healthy
                 (Some (mk_datetime 739300 0)) Sample.world) = Ok c'
       /\ c_type c' = c_type c.
Proof.
  split; [exact sample_laws|]. split; [exact sample_installed|].
  split; [reflexivity|]. split; [exact valid_739300|].
  split; [reflexivity|]. split; [reflexivity|]. split; [reflexivity|].
  destruct (daily_challenge_type_ignores_conditions Sample.runtime Sample.planner
              sample_laws Sample.world patient healthy (mk_datetime 739300 0) INTERMEDIATE
              sample_installed eq_refl valid_739300 eq_refl eq_refl eq_refl)
    as (c & c' & E & E' & Ht & _).
  exists c, c'. split; [exact E|]. split; [exact E' | exact Ht].
Defined.

Lemma daily_challenge_minutes_add_up_witness :
  RuntimeLaws Sample.runtime
  /\ installed Sample.runtime Sample.planner Sample.world
  /\ fitness_level patient = Member INTERMEDIATE
  /\ valid (mk_datetime 739300 0)
  /\ exists c D,
       fst (generate_daily_challenge Sample.runtime Sample.planner patient
              (Some (mk_datetime 739300 0)) Sample.world) = Ok c
       /\ duration_minutes (c_duration c) = Ok D.
Proof.
  split; [exact sample_laws|]. split; [exact sample_installed|].
  split; [reflexivity|]. split; [exact valid_739300|].
  destruct (daily_challenge_minutes_add_up Sample.runtime Sample.planner sample_laws
              Sample.world patient (mk_datetime 739300 0) INTERMEDIATE
              sample_installed eq_refl valid_739300)
    as (c & D & E & ED & _).
  exists c, D. split; [exact E | exact ED].
Defined.

Lemma daily_challenge_equipment_witness :
  RuntimeLaws Sample.runtime
  /\ installed Sample.runtime Sample.planner Sample.world
  /\ fitness_level patient = Member INTERMEDIATE
  /\ valid (mk_datetime 739300 0)
  /\ (forall xs, NoDup xs -> Permutation (set_order Sample.runtime xs) xs)
  /\ exists c,
       fst (generate_daily_challenge Sample.runtime Sample.planner patient
              (Some (mk_datetime 739300 0)) Sample.world) = Ok c
       /\ NoDup (c_required_equipment c).
Proof.
  split; [exact sample_laws|]. split; [exact sample_installed|].
  split; [reflexivity|]. split; [exact valid_739300|]. split; [exact sample_set_order|].
  destruct (daily_challenge_equipment Sample.runtime Sample.planner sample_laws
              Sample.world patient (mk_datetime 739300 0) INTERMEDIATE
              sample_installed eq_refl valid_739300 sample_set_order)
    as (c & E & Hnd & _).
  exists c. split; [exact E | exact Hnd].
Defined.

Lemma daily_challenge_needs_member_witness :
  RuntimeLaws Sample.runtime
  /\ installed Sample.runtime Sample.planner Sample.world
  /\ fitness_level outsider = Foreign "expert"
  /\ valid (mk_datetime 739300 0)
  /\ fst (generate_daily_challenge Sample.runtime Sample.planner outsider
            (Some (mk_datetime 739300 0)) Sample.world) = Raise AttributeError.
Proof.
  split; [exact sample_laws|]. split; [exact sample_installed|].
  split; [reflexivity|]. split; [exact valid_739300|].
  exact (proj1 (daily_challenge_needs_member Sample.runtime Sample.planner sample_laws
                  Sample.world outsider (mk_datetime 739300 0) "expert"
                  sample_installed eq_refl valid_739300)).
Defined.

Lemma daily_challenge_resets_generator_witness :
  catalog_allocated Sample.runtime Sample.planner Sample.world
  /\ later Sample.runtime Sample.world Sample.world
  /\ later Sample.runtime Sample.world another_world
  /\ rng (snd (generate_daily_challenge Sample.runtime Sample.planner patient
                 (Some (mk_datetime 739300 0)) Sample.world))
     = rng (snd (generate_daily_challenge Sample.runtime Sample.planner patient
                   (Some (mk_datetime 739300 0)) another_world)).
Proof.
  assert (Ha : catalog_allocated Sample.runtime Sample.planner Sample.world)
    by exact (installed_allocated _ _ _ sample_installed).
  assert (Hl : later Sample.runtime Sample.world another_world)
    by (eexists; vm_compute; reflexivity).
  split; [exact Ha|]. split; [apply later_refl|]. split; [exact Hl|].
  exact (proj1 (daily_challenge_resets_generator Sample.runtime Sample.planner patient
                  (mk_datetime 739300 0) Sample.world Sample.world another_world
                  Ha (later_refl _ _) Hl)).
Defined.

Lemma daily_challenge_before_2025_witness :
  RuntimeLaws Sample.runtime
  /\ installed Sample.runtime Sample.planner Sample.world
  /\ fitness_level patient = Member INTERMEDIATE
  /\ valid (mk_datetime 739000 0)
  /\ 739000 <= 739195
  /\ exists c,
       fst (generate_daily_challenge Sample.runtime Sample.planner patient
              (Some (mk_datetime 739000 0)) Sample.world) = Ok c
       /\ Forall (nothing_to_do (739000 <= 739125)) (c_exercises c).
Proof.
  assert (Hd : 739000 <= 739195) by lia.
  split; [exact sample_laws|]. split; [exact sample_installed|].
  split; [reflexivity|]. split; [exact valid_739000|]. split; [exact Hd|].
  exact (daily_challenge_before_2025 Sample.runtime Sample.planner sample_laws
           Sample.world patient (mk_datetime 739000 0) INTERMEDIATE
           sample_installed eq_refl valid_739000 Hd).
Defined.

Lemma standardize_fitness_level_spellings_witness :
  str_strip (str_lower "  ADVANCED ") = str_lower (FitnessLevel_value ADVANCED)
  /\ standardize_fitness_level (PStr "  ADVANCED ") = ADVANCED.
Proof.
  assert (H : str_strip (str_lower "  ADVANCED ") = str_lower (FitnessLevel_value ADVANCED))
    by (vm_compute; reflexivity).
  split; [exact H|].
  exact (proj1 (standardize_fitness_level_spellings "  ADVANCED " ADVANCED H)).
Defined.

Lemma validate_user_data_accepts_witness :
  validate_user_data sample_builtins sample_request = Done (Valid sample_data)
  /\ exists d d',
       sample_request = PDict d /\ sample_data = PDict d' /\ validated d'.
Proof.
  assert (E : validate_user_data sample_builtins sample_request = Done (Valid sample_data))
    by (vm_compute; reflexivity).
  split; [exact E|].
  destruct (validate_user_data_accepts sample_builtins sample_request sample_data E)
    as (d & d' & E1 & E2 & Hv & _).
  exists d, d'. split; [exact E1|]. split; [exact E2 | exact Hv].
Defined.

Lemma validate_user_data_idempotent_witness :
  validate_user_data sample_builtins sample_request = Done (Valid sample_data)
  /\ validate_user_data sample_builtins sample_data = Done (Valid sample_data).
Proof.
  assert (E : validate_user_data sample_builtins sample_request = Done (Valid sample_data))
    by (vm_compute; reflexivity).
  split; [exact E|].
  exact (validate_user_data_idempotent sample_builtins sample_request sample_data E).
Defined.

Lemma validate_user_data_raises_witness :
  validate_user_data sample_builtins (PInt 7) = Fail TypeError
  /\ ((TypeError = TypeError
       /\ ((exists b n x, PInt 7 = PNone \/ PInt 7 = PBool b \/ PInt 7 = PInt n
                          \/ PInt 7 = PFloat x)
           \/ exists d v b n x,
                PInt 7 = PDict d /\ dict_find d "health_conditions" = Some v
                /\ (v = PBool b \/ v = PInt n \/ v = PFloat x)))
      \/ (TypeError = Builtin OverflowError /\ exists d, PInt 7 = PDict d)).
Proof.
  assert (E : validate_user_data sample_builtins (PInt 7) = Fail TypeError)
    by (vm_compute; reflexivity).
  split; [exact E|].
  exact (validate_user_data_raises sample_builtins (PInt 7) TypeError E).
Defined.

Lemma validate_user_data_rejects_text_witness :
  ((exists s, PStr "age height weight gender fitness_level goal preferred_days" = PStr s)
   \/ (exists items,
         PStr "age height weight gender fitness_level goal preferred_days" = PList items))
  /\ validate_user_data sample_builtins
       (PStr "age height weight gender fitness_level goal preferred_days")
     = Done (Invalid "Age must be an integer, height and weight must be numeric").
Proof.
  assert (H : (exists s, PStr "age height weight gender fitness_level goal preferred_days"
                         = PStr s)
              \/ (exists items,
                    PStr "age height weight gender fitness_level goal preferred_days"
                    = PList items))
    by (left; eexists; reflexivity).
  split; [exact H|].
  destruct (validate_user_data_rejects_text sample_builtins _ H) as (missing & Em & E).
  rewrite E. vm_compute in Em. injection Em as <-. reflexivity.
Defined.

(** A range that starts at 2025-01-01 00:00 UTC and ends on 2025-01-03
    without a zone: the dates do not compare and the request fails. *)
Lemma batch_needs_naive_dates_witness :
  is_naive (Aware (mk_datetime 739252 0) tzutc) && is_naive (Naive (mk_datetime 739254 0))
  = false
  /\ get_daily_challenges_batch Sample.runtime Sample.planner healthy
       (Aware (mk_datetime 739252 0) tzutc) (Naive (mk_datetime 739254 0)) Sample.world
     = (BatchFailure TypeError, Sample.world)
  /\ TypeError = TypeError
  /\ heap Sample.world = heap Sample.world
  /\ clock Sample.world = clock Sample.world.
Proof.
  assert (H : is_naive (Aware (mk_datetime 739252 0) tzutc)
              && is_naive (Naive (mk_datetime 739254 0)) = false) by reflexivity.
  split; [exact H|].
  split; [reflexivity|].
  exact (batch_needs_naive_dates Sample.runtime Sample.planner healthy
           (Aware (mk_datetime 739252 0) tzutc) (Naive (mk_datetime 739254 0))
           Sample.world H).
Defined.
